(** * rdr-scripts: record store, retrying fetch, resolver and extraction chain

    A shallow embedding of the parts of the venue collectors
    ([src/venue/*.py]) that carry the record-linkage and ingestion logic:

    - [Py]      : the Python built-ins the collectors rely on (string
                  methods, truthiness, JSON-shaped values, ordered dicts);
    - [Difflib] : [difflib.SequenceMatcher(None, a, b).ratio()];
    - [Store]   : the [PaperDatabase] class that every collector repeats;
    - [Iros24]  : [iros24.py] -- title/author normalisation, the arXiv
                  resolver [search_arxiv_for_paper], the skip test of [main];
                  [Iros24.Unicode] is [normalize_title] over any alphabet;
    - [Cvpr]    : [cvpr.py] -- [RetryingSession], [Paper], [PaperDatabase],
                  [process_paper_element];
    - [Nature]  : [nature.py] -- [ABSTRACT_PATTERNS], [fetch_doi_abstract],
                  the store loader;
    - [Science] : [science.py] -- the Crossref-only [fetch_doi_abstract];
    - [Spec]    : two notions in the words of the specification;
    - [Fixtures]: sample feeds, pages and files.

    The network, the clock, the JSON codec, the HTML and XML parsers and the
    regular-expression engine are outside the sources: they enter as
    section variables, and every statement holds whatever they are.

    Python [str] values are Rocq [string]s whose characters are read as the
    code points 0..255; the character predicates below agree with CPython on
    that range.  Similarity ratios, which Python computes in floating point,
    are exact rationals here. *)

From Stdlib Require Import QArith Ascii String.
From stdpp Require Import base decidable option list strings gmap pretty.
From stdpp Require Import sorting.

Local Open Scope string_scope.
Local Open Scope list_scope.
Local Set Warnings "-register-all".

(* ===================================================================== *)
(** ** Python built-ins *)
(* ===================================================================== *)

Module Py.

(** *** Characters *)

Definition ord (c : ascii) : N := N_of_ascii c.

Definition between (lo hi n : N) : bool := (lo <=? n)%N && (n <=? hi)%N.

(** [c.isspace()] *)
Definition isspace (c : ascii) : bool :=
  let n := ord c in
  between 9 13 n || between 28 32 n || (n =? 133)%N || (n =? 160)%N.

(** [c.isalnum()] *)
Definition isalnum (c : ascii) : bool :=
  let n := ord c in
  between 48 57 n || between 65 90 n || between 97 122 n
  || (n =? 170)%N || between 178 179 n || (n =? 181)%N
  || between 185 186 n || between 188 190 n
  || between 192 214 n || between 216 246 n || between 248 255 n.

(** [c.lower()] *)
Definition lower (c : ascii) : ascii :=
  let n := ord c in
  if between 65 90 n || between 192 214 n || between 216 222 n
  then ascii_of_N (n + 32) else c.

(** *** String methods *)

Fixpoint filter (f : ascii → bool) (s : string) : string :=
  match s with
  | EmptyString => EmptyString
  | String c s' => if f c then String c (filter f s') else filter f s'
  end.

Fixpoint map (f : ascii → ascii) (s : string) : string :=
  match s with
  | EmptyString => EmptyString
  | String c s' => String (f c) (map f s')
  end.

Definition is_empty (s : string) : bool :=
  match s with EmptyString => true | _ => false end.

(** [s.lstrip()] *)
Fixpoint lstrip (s : string) : string :=
  match s with
  | EmptyString => EmptyString
  | String c s' => if isspace c then lstrip s' else s
  end.

(** [s.rstrip()] *)
Fixpoint rstrip (s : string) : string :=
  match s with
  | EmptyString => EmptyString
  | String c s' =>
      let r := rstrip s' in
      if is_empty r && isspace c then EmptyString else String c r
  end.

(** [s.strip()] *)
Definition strip (s : string) : string := rstrip (lstrip s).

(** [s.split()]: the maximal runs of non-whitespace characters. *)
Fixpoint split (s : string) : list string :=
  match s with
  | EmptyString => []
  | String c s' =>
      if isspace c then split s'
      else match s' with
           | EmptyString => [String c EmptyString]
           | String c' _ =>
               if isspace c' then String c EmptyString :: split s'
               else match split s' with
                    | w :: ws => String c w :: ws
                    | [] => [String c EmptyString]
                    end
           end
  end.

(** [s.split(sep)] for a one-character separator: empty pieces are kept. *)
Fixpoint split_on (sep : ascii) (s : string) : list string :=
  match s with
  | EmptyString => [EmptyString]
  | String c s' =>
      if Ascii.eqb c sep then EmptyString :: split_on sep s'
      else match split_on sep s' with
           | w :: ws => String c w :: ws
           | [] => [String c EmptyString]
           end
  end.

(** [sep.join(parts)] *)
Fixpoint join (sep : string) (parts : list string) : string :=
  match parts with
  | [] => EmptyString
  | [w] => w
  | w :: ws => w +:+ sep +:+ join sep ws
  end.

(** [all(f(c) for c in s)] *)
Fixpoint all_chars (f : ascii → bool) (s : string) : bool :=
  match s with
  | EmptyString => true
  | String c s' => f c && all_chars f s'
  end.

(** [s.startswith(p)] *)
Definition startswith (p s : string) : bool := String.prefix p s.

(** [s.endswith(p)] *)
Fixpoint endswith (p s : string) : bool :=
  String.eqb p s
  || match s with
     | EmptyString => false
     | String _ s' => endswith p s'
     end.

(** [s[n:]] *)
Fixpoint drop (n : nat) (s : string) : string :=
  match n, s with
  | S n', String _ s' => drop n' s'
  | _, _ => s
  end.

(** [s[-n:]] for a positive [n] *)
Definition last_chars (n : nat) (s : string) : string :=
  drop (String.length s - n) s.

(** [len(s)] *)
Definition len (s : string) : nat := String.length s.

(** Truthiness of an [Optional[str]]: neither [None] nor [""]. *)
Definition truthy_str (o : option string) : bool :=
  match o with
  | Some s => negb (is_empty s)
  | None => false
  end.

(** *** JSON-shaped values

    What [json.load] returns, and what the attributes of a [Paper] read
    back from disk hold: Python does not check the annotated types.
    Floating-point numbers are left out. *)

Inductive value : Type :=
| VNone
| VBool (b : bool)
| VInt (n : Z)
| VStr (s : string)
| VList (l : list value)
| VDict (d : list (string * value)).

Inductive exn : Type :=
| JSONDecodeError
| KeyError (k : string)
| TypeError
| AttributeError
| OSError
| RequestException
| MaxRetryError.

Inductive outcome (A : Type) : Type :=
| Return (a : A)
| Raise (e : exn).
Global Arguments Return {A} a.
Global Arguments Raise {A} e.

Definition bind {A B} (m : outcome A) (k : A → outcome B) : outcome B :=
  match m with
  | Return a => k a
  | Raise e => Raise e
  end.

Global Instance outcome_bind : MBind outcome := λ A B k m, bind m k.
Global Instance outcome_ret : MRet outcome := λ A a, Return a.

(** [bool(v)] *)
Definition truthy (v : value) : bool :=
  match v with
  | VNone => false
  | VBool b => b
  | VInt n => negb (n =? 0)%Z
  | VStr s => negb (is_empty s)
  | VList l => match l with [] => false | _ => true end
  | VDict d => match d with [] => false | _ => true end
  end.

Fixpoint assoc {V} (k : string) (d : list (string * V)) : option V :=
  match d with
  | [] => None
  | (k', v) :: d' => if String.eqb k k' then Some v else assoc k d'
  end.

(** [data[k]] for a string [k] *)
Definition subscript (data : value) (k : string) : outcome value :=
  match data with
  | VDict d => match assoc k d with
               | Some v => Return v
               | None => Raise (KeyError k)
               end
  | _ => Raise TypeError
  end.

(** [data.get(k)] *)
Definition get (data : value) (k : string) : outcome value :=
  match data with
  | VDict d => Return (default VNone (assoc k d))
  | _ => Raise AttributeError
  end.

Fixpoint chars (s : string) : list value :=
  match s with
  | EmptyString => []
  | String c s' => VStr (String c EmptyString) :: chars s'
  end.

(** [for x in data] *)
Definition iter (data : value) : outcome (list value) :=
  match data with
  | VList l => Return l
  | VDict d => Return ((λ kv, VStr kv.1) <$> d)
  | VStr s => Return (chars s)
  | _ => Raise TypeError
  end.

(** *** Dictionaries keyed by hashable values

    A [dict] keeps its keys in insertion order, and assigning to a key
    that is present keeps the key's position.  Keys compare as Python
    compares them: [True == 1] and [False == 0]. *)

Inductive key : Type :=
| KNone
| KNum (n : Z)
| KStr (s : string).

Global Instance key_eq_dec : EqDecision key.
Proof. solve_decision. Defined.

(** [hash(v)]: lists and dicts are unhashable. *)
Definition hash (v : value) : outcome key :=
  match v with
  | VNone => Return KNone
  | VBool b => Return (KNum (Z.b2z b))
  | VInt n => Return (KNum n)
  | VStr s => Return (KStr s)
  | VList _ | VDict _ => Raise TypeError
  end.

Definition dict (V : Type) : Type := list (key * V).

Fixpoint dict_get {V} (k : key) (d : dict V) : option V :=
  match d with
  | [] => None
  | (k', v) :: d' => if decide (k = k') then Some v else dict_get k d'
  end.

(** [d[k] = v] *)
Fixpoint dict_set {V} (k : key) (v : V) (d : dict V) : dict V :=
  match d with
  | [] => [(k, v)]
  | (k', v') :: d' =>
      if decide (k = k') then (k', v) :: d' else (k', v') :: dict_set k v d'
  end.

(** [k in d] *)
Definition dict_in {V} (k : key) (d : dict V) : bool :=
  match dict_get k d with Some _ => true | None => false end.

(** [d.values()] *)
Definition dict_values {V} (d : dict V) : list V := snd <$> d.

(** [sub in s] *)
Fixpoint contains (sub s : string) : bool :=
  String.prefix sub s
  || match s with
     | EmptyString => false
     | String _ s' => contains sub s'
     end.

(** [s.lower()] *)
Definition lower_str (s : string) : string := map lower s.

End Py.

(* ===================================================================== *)
(** ** difflib *)
(* ===================================================================== *)

(** [SequenceMatcher(None, a, b).ratio()] with no junk predicate.  The
    automatic junk heuristic only engages when [b] has 200 elements or
    more; the definitions below are the algorithm for shorter [b]. *)

Module Difflib.

Fixpoint common_prefix (a b : string) : nat :=
  match a, b with
  | String x a', String y b' =>
      if Ascii.eqb x y then S (common_prefix a' b') else 0
  | _, _ => 0
  end.

(** Longest block starting at position 0 of [a], earliest [j] first. *)
Fixpoint best_in_b (a b : string) (j : nat) : nat * nat :=
  match b with
  | EmptyString => (j, 0)
  | String _ b' =>
      let k := common_prefix a b in
      let '(j', k') := best_in_b a b' (S j) in
      if (k' <=? k)%nat then (j, k) else (j', k')
  end.

(** [find_longest_match]: of all maximal matching blocks, the one that
    starts earliest in [a], and of those the one earliest in [b]. *)
Fixpoint find_longest_match (a b : string) (i : nat) : nat * nat * nat :=
  match a with
  | EmptyString => (i, 0, 0)%nat
  | String _ a' =>
      let '(j, k) := best_in_b a b 0 in
      let '(i', j', k') := find_longest_match a' b (S i) in
      if (k' <=? k)%nat then (i, j, k) else (i', j', k')
  end.

(** [s[:n]] *)
Fixpoint take (n : nat) (s : string) : string :=
  match n, s with
  | S n', String c s' => String c (take n' s')
  | _, _ => EmptyString
  end.

(** Total size of the blocks of [get_matching_blocks]. *)
Fixpoint matches (fuel : nat) (a b : string) : nat :=
  match fuel with
  | O => 0
  | S fuel' =>
      let '(i, j, k) := find_longest_match a b 0 in
      if (k =? 0)%nat then 0
      else matches fuel' (take i a) (take j b) + k
           + matches fuel' (Py.drop (i + k) a) (Py.drop (j + k) b)
  end.

Definition ratio (a b : string) : Q :=
  let length := (String.length a + String.length b)%nat in
  match length with
  | O => 1
  | S _ => Z.of_nat (2 * matches (S (String.length a)) a b) # Pos.of_nat length
  end.

End Difflib.

(* ===================================================================== *)
(** ** The JSON-backed store shared by the collectors *)
(* ===================================================================== *)

(** Every collector carries its own copy of [PaperDatabase]; the copies
    differ in the [Paper] class, in the attribute used as identity key and
    in how the file name is built.  The section below is that class once,
    over those three things.  [json.load] and [json.dump] are the library's
    and stay abstract; the clock is read once, by the caller. *)

Module Store.
Import Py.

Record filesystem : Type := {
  dirs : gset string;
  files : gmap string string
}.

(** [os.path.join(a, b)] for a relative [b] *)
Definition os_path_join (a b : string) : string :=
  if is_empty a then b
  else if endswith "/" a then a +:+ b
  else a +:+ "/" +:+ b.

(** [os.path.exists] *)
Definition os_path_exists (p : string) (fs : filesystem) : bool :=
  bool_decide (p ∈ dirs fs) || bool_decide (is_Some (files fs !! p)).

(** [os.makedirs(d)] for a directory that can be made: its failures (the
    empty path, a path through a regular file, a refusal of the system) are
    not represented, so a statement about a constructor that returns says
    nothing of them. *)
Definition os_makedirs (d : string) (fs : filesystem) : filesystem :=
  {| dirs := {[d]} ∪ dirs fs; files := files fs |}.

(** [os.rename(src, dst)] on regular files: [dst] is replaced when present;
    a [dst] that is a directory, which makes the call fail, is not
    represented. *)
Definition os_rename (src dst : string) (fs : filesystem) : outcome filesystem :=
  match files fs !! src with
  | Some bytes =>
      Return {| dirs := dirs fs; files := <[dst := bytes]> (delete src (files fs)) |}
  | None => Raise OSError
  end.

(** [open(p, 'w')] followed by a complete write *)
Definition write_file (p : string) (bytes : string) (fs : filesystem) : filesystem :=
  {| dirs := dirs fs; files := <[p := bytes]> (files fs) |}.

Section PaperDatabase.

Context {Paper : Type}.
Variable from_dict : value → outcome Paper.
Variable to_dict : Paper → value.
Variable identity : Paper → value.
Variable json_load : string → option value.
Variable json_dump : value → string.

Record PaperDatabase : Type := {
  output_dir : string;
  filename : string;
  papers : dict Paper
}.

Definition set_papers (self : PaperDatabase) (ps : dict Paper) : PaperDatabase :=
  {| output_dir := output_dir self; filename := filename self; papers := ps |}.

(** The body of the [for paper_dict in data] loop, with the mapping as it
    stands when an exception leaves the loop. *)
Fixpoint load_loop (data : list value) (ps : dict Paper) : dict Paper * option exn :=
  match data with
  | [] => (ps, None)
  | paper_dict :: rest =>
      match from_dict paper_dict with
      | Raise e => (ps, Some e)
      | Return paper =>
          match hash (identity paper) with
          | Raise e => (ps, Some e)
          | Return k => load_loop rest (dict_set k paper ps)
          end
      end
  end.

(** An element the loop cannot take in: it is not a mapping with the
    required keys, or its identity cannot be a key. *)
Definition bad_element (paper_dict : value) : Prop :=
  (∃ e, from_dict paper_dict = Raise e)
  ∨ (∃ paper e, from_dict paper_dict = Return paper
                ∧ hash (identity paper) = Raise e).

(** The [try] block: decode the file, then run the loop. *)
Definition try_load (bytes : string) (ps : dict Paper) : dict Paper * option exn :=
  match json_load bytes with
  | None => (ps, Some JSONDecodeError)
  | Some data =>
      match iter data with
      | Raise e => (ps, Some e)
      | Return items => load_loop items ps
      end
  end.

Definition backup_name (self : PaperDatabase) (now : string) : string :=
  filename self +:+ ".bak." +:+ now.

(** [_load_existing_papers].  The store's file name, when it exists, names
    a regular file, so that the test for its existence and the [open] that
    follows are one look-up.  [now] is
    [datetime.now().strftime('%Y%m%d_%H%M%S')].  [guarded] tells whether
    the handler re-tests [os.path.exists(self.filename)] before renaming
    (cvpr.py, iros24.py) or renames at once (nature.py, science.py). *)
Definition _load_existing_papers (guarded : bool) (now : string)
    (self : PaperDatabase) (fs : filesystem) : outcome (PaperDatabase * filesystem) :=
  let fs := if os_path_exists (output_dir self) fs then fs
            else os_makedirs (output_dir self) fs in
  match files fs !! filename self with
  | None => Return (self, fs)
  | Some bytes =>
      match try_load bytes (papers self) with
      | (ps, None) => Return (set_papers self ps, fs)
      | (ps, Some _) =>
          if guarded && negb (bool_decide (is_Some (files fs !! filename self)))
          then Return (set_papers self ps, fs)
          else fs' ← os_rename (filename self) (backup_name self now) fs;
               Return (set_papers self ps, fs')
      end
  end.

(** [__init__] *)
Definition __init__ (guarded : bool) (now : string) (output_dir filename : string)
    (fs : filesystem) : outcome (PaperDatabase * filesystem) :=
  _load_existing_papers guarded now
    {| output_dir := output_dir; filename := filename; papers := [] |} fs.

(** [_save_to_file] *)
Definition _save_to_file (self : PaperDatabase) (fs : filesystem) : filesystem :=
  let papers_data := VList (to_dict <$> dict_values (papers self)) in
  write_file (filename self) (json_dump papers_data) fs.

(** [save_paper] *)
Definition save_paper (paper : Paper) (self : PaperDatabase) (fs : filesystem)
    : outcome (PaperDatabase * filesystem) :=
  k ← hash (identity paper);
  let self := set_papers self (dict_set k paper (papers self)) in
  Return (self, _save_to_file self fs).

(** [has_paper], for the [str] the callers pass *)
Definition has_paper (k : string) (self : PaperDatabase) : bool :=
  dict_in (KStr k) (papers self).

(** [self.papers.get(k)] *)
Definition get_paper (k : string) (self : PaperDatabase) : option Paper :=
  dict_get (KStr k) (papers self).

(** The shape every mapping built by this class has: each record sits
    under the key of its own identity, and no key occurs twice. *)
Definition keyed_by_identity (ps : dict Paper) : Prop :=
  Forall (λ kp, hash (identity kp.2) = Return kp.1) ps ∧ NoDup ps.*1.

(** [for paper in batch: db.save_paper(paper)] *)
Fixpoint save_all (batch : list Paper) (self : PaperDatabase) (fs : filesystem)
    : outcome (PaperDatabase * filesystem) :=
  match batch with
  | [] => Return (self, fs)
  | paper :: rest =>
      '(self', fs') ← save_paper paper self fs;
      save_all rest self' fs'
  end.

End PaperDatabase.

End Store.

(* ===================================================================== *)
(** ** iros24.py *)
(* ===================================================================== *)

Module Iros24.
Import Py.

Record Paper : Type := {
  paper_no : value;
  authors : value;
  title : value;
  arxiv_pdf : value;
  arxiv_abstract : value
}.

(** [Paper.__init__] *)
Definition Paper_init (paper_no authors title : value) : Paper :=
  {| paper_no := paper_no; authors := authors; title := title;
     arxiv_pdf := VNone; arxiv_abstract := VNone |}.

Definition to_dict (self : Paper) : value :=
  VDict [("paper_no", paper_no self); ("authors", authors self);
         ("title", title self); ("arxiv_pdf", arxiv_pdf self);
         ("arxiv_abstract", arxiv_abstract self)].

Definition from_dict (data : value) : outcome Paper :=
  no ← subscript data "paper_no";
  au ← subscript data "authors";
  ti ← subscript data "title";
  pdf ← get data "arxiv_pdf";
  abs ← get data "arxiv_abstract";
  Return {| paper_no := no; authors := au; title := ti;
            arxiv_pdf := pdf; arxiv_abstract := abs |}.

(** [PaperDatabase("dataset")]: the file is [<output_dir>/iros24.json] and
    the identity key is [paper_no]. *)
Definition PaperDatabase_init (json_load : string → option value) (now : string)
    (output_dir : string) (fs : Store.filesystem) :=
  Store.__init__ from_dict paper_no json_load true now
    output_dir (Store.os_path_join output_dir "iros24.json") fs.

Definition save_paper (json_dump : value → string) :=
  Store.save_paper to_dict paper_no json_dump.

(** *** Normalisation *)

Definition normalize_title (title : string) : string :=
  let normalized :=
    Py.map lower (Py.filter (λ c, isalnum c || isspace c) title) in
  join " " (split normalized).

Definition normalize_author_name (name : string) : string :=
  let normalized :=
    Py.map lower (Py.filter (λ c, isalnum c || isspace c) name) in
  join " " (split normalized).

(** *** Normalisation beyond code point 255

    Above, a title is text of the code points 0..255, where [c.lower()] is
    one character.  Elsewhere in Unicode [c.lower()] can be several
    characters, and not all of them alphanumeric.  Here a text is a list of
    characters of any alphabet and the tables of [str] are parameters:
    [c.isalnum()], [c.isspace()], the characters of [c.lower()], and the
    blank [' ']. *)
Module Unicode.
Section Tables.

Context {char : Type}.
Variables isalnum isspace : char → bool.
Variable lower : char → list char.
Variable blank : char.

(** [s.split()]: the maximal runs of non-whitespace characters. *)
Fixpoint split (s : list char) : list (list char) :=
  match s with
  | [] => []
  | c :: s' =>
      if isspace c then split s'
      else match s' with
           | [] => [[c]]
           | c' :: _ =>
               if isspace c' then [c] :: split s'
               else match split s' with
                    | w :: ws => (c :: w) :: ws
                    | [] => [[c]]
                    end
           end
  end.

(** [sep.join(parts)] *)
Fixpoint join (sep : list char) (parts : list (list char)) : list char :=
  match parts with
  | [] => []
  | [w] => w
  | w :: ws => w ++ sep ++ join sep ws
  end.

(** [c.isalnum() or c.isspace()] *)
Definition kept (c : char) : bool := isalnum c || isspace c.

(** [c.lower() for c in title if c.isalnum() or c.isspace()], character by
    character. *)
Definition lowered (c : char) : list char := if kept c then lower c else [].

Definition normalize_title (title : list char) : list char :=
  let normalized := title ≫= lowered in
  join [blank] (split normalized).

(** A character of a normal form: alphanumeric, and its own lower case. *)
Definition settled (c : char) : Prop := isalnum c = true ∧ lower c = [c].

(** A character whose lower case, when it is kept, is made of whitespace
    and settled characters.  Every character of the code points 0..255 is
    one; U+0130 is not, for its lower case ends in the combining dot
    U+0307, which is not alphanumeric. *)
Definition tame (c : char) : Prop :=
  kept c = true → Forall (λ d, isspace d = true ∨ settled d) (lower c).

End Tables.
End Unicode.

Definition get_last_names (authors_str : string) : gset string :=
  let authors := strip <$> split_on "," authors_str in
  foldl (λ last_names author,
           let parts := split (strip author) in
           match last parts with
           | Some part => last_names ∪ {[normalize_author_name part]}
           | None => last_names
           end)
        ∅ authors.

(** *** The arXiv resolver *)

(** One [<entry>] of the Atom feed, as the loop reads it: the text of its
    [<title>], the text of the [<name>] of each [<author>], the [title] and
    [href] attributes of each [<link>], and the text of its [<summary>] when
    there is one.  The feed's schema gives every such element a text. *)
Record link : Type := {
  link_title : option string;
  link_href : string
}.

Record entry : Type := {
  entry_title : string;
  entry_authors : list string;
  entry_links : list link;
  entry_summary : option string
}.

Inductive event : Type :=
| HttpGet (url : string)
| Sleep (seconds : N).

Definition Qltb (x y : Q) : bool := negb (Qle_bool y x).

Section Resolver.

(** [SequenceMatcher(None, a, b).ratio()] *)
Variable ratio : string → string → Q.
(** [urllib.parse.quote] *)
Variable quote : string → string.
(** [session.get(url, timeout=10)] then [raise_for_status()]: the body, or
    [None] when a [RequestException] is raised (after the adapter's own
    retries). *)
Variable session_get : string → option string.
(** [ET.fromstring(text).findall('{...}entry')], [None] on [ParseError] *)
Variable findall_entries : string → option (list entry).

Definition calculate_title_similarity (title1 title2 : string) : Q :=
  let norm_title1 := normalize_title title1 in
  let norm_title2 := normalize_title title2 in
  ratio norm_title1 norm_title2.

(** The first [<link title="pdf">] *)
Fixpoint find_pdf_url (links : list link) : option string :=
  match links with
  | [] => None
  | l :: links' =>
      if decide (link_title l = Some "pdf") then Some (link_href l)
      else find_pdf_url links'
  end.

(** The [for entry in entries] loop. *)
Fixpoint scan_entries (paper_title : string) (iros_last_names : gset string)
    (min_title_similarity : Q) (entries : list entry)
    : option string * option string :=
  match entries with
  | [] => (None, None)
  | entry :: rest =>
      let title_similarity :=
        calculate_title_similarity paper_title (entry_title entry) in
      if Qltb title_similarity min_title_similarity
      then scan_entries paper_title iros_last_names min_title_similarity rest
      else
        match entry_authors entry with
        | [] => scan_entries paper_title iros_last_names min_title_similarity rest
        | arxiv_authors =>
            let arxiv_last_names := get_last_names (join ", " arxiv_authors) in
            let common_authors := iros_last_names ∩ arxiv_last_names in
            if decide (common_authors = ∅)
            then scan_entries paper_title iros_last_names min_title_similarity rest
            else
              let pdf_url := find_pdf_url (entry_links entry) in
              let abstract := strip <$> entry_summary entry in
              (pdf_url, abstract)
        end
  end.

(** The two gates of section 4.3, as tests on one candidate taken alone:
    the title similarity reaches the threshold; the two sets of last names
    meet. *)
Definition title_gate (paper_title : string) (min_title_similarity : Q)
    (candidate : entry) : bool :=
  negb (Qltb (calculate_title_similarity paper_title (entry_title candidate))
             min_title_similarity).

Definition author_gate (paper_authors : string) (candidate : entry) : bool :=
  bool_decide (get_last_names paper_authors
               ∩ get_last_names (join ", " (entry_authors candidate)) ≠ ∅).

Definition passes_both_gates (paper_title paper_authors : string)
    (min_title_similarity : Q) (candidate : entry) : bool :=
  title_gate paper_title min_title_similarity candidate
  && author_gate paper_authors candidate.

(** What the resolver hands back for an accepted candidate. *)
Definition matched_fields (candidate : entry) : option string * option string :=
  (find_pdf_url (entry_links candidate), strip <$> entry_summary candidate).

Definition query_url (paper_title : string) (max_results : N) : string :=
  let query := "ti:" +:+ paper_title in
  "http://export.arxiv.org/api/query?search_query=" +:+ quote query
  +:+ "&max_results=" +:+ pretty max_results.

(** [search_arxiv_for_paper]: the calls it makes, in order, and its result. *)
Definition search_arxiv_for_paper (paper_title paper_authors : string)
    (max_results : N) (min_title_similarity : Q)
    : list event * (option string * option string) :=
  let url := query_url paper_title max_results in
  match session_get url with
  | None => ([HttpGet url], (None, None))
  | Some text =>
      let iros_last_names := get_last_names paper_authors in
      match findall_entries text with
      | None => ([HttpGet url; Sleep 3], (None, None))
      | Some entries =>
          ([HttpGet url; Sleep 3],
           scan_entries paper_title iros_last_names min_title_similarity entries)
      end
  end.

(** The defaults of the signature: [max_results=5],
    [min_title_similarity=0.8]. *)
Definition default_max_results : N := 5.
Definition default_min_title_similarity : Q := 8 # 10.

(** *** One iteration of the loop of [main] *)

(** [existing_paper and existing_paper.arxiv_pdf] *)
Definition already_resolved (existing_paper : option Paper) : bool :=
  match existing_paper with
  | Some existing => truthy (arxiv_pdf existing)
  | None => false
  end.

Definition opt_value (o : option string) : value :=
  match o with Some s => VStr s | None => VNone end.

(** The body of [for idx, paper in enumerate(papers, start=1)], for a row
    [(paper_no, authors, title)] of the accepted-papers table. *)
Definition main_step (json_dump : value → string)
    (row : string * string * string)
    (db : Store.PaperDatabase (Paper:=Paper)) (fs : Store.filesystem)
    : list event * outcome (Store.PaperDatabase (Paper:=Paper) * Store.filesystem) :=
  let '(no, au, ti) := row in
  let paper := Paper_init (VStr no) (VStr au) (VStr ti) in
  let existing_paper := Store.get_paper no db in
  if already_resolved existing_paper then ([], Return (db, fs))
  else
    let '(trace, (pdf_url, abstract)) :=
      search_arxiv_for_paper ti au default_max_results
        default_min_title_similarity in
    let paper :=
      if truthy_str pdf_url
      then {| paper_no := paper_no paper; authors := authors paper;
              title := title paper; arxiv_pdf := opt_value pdf_url;
              arxiv_abstract :=
                if truthy_str abstract then opt_value abstract
                else arxiv_abstract paper |}
      else paper in
    (trace, save_paper json_dump paper db fs).

End Resolver.

End Iros24.

(* ===================================================================== *)
(** ** cvpr.py *)
(* ===================================================================== *)

Module Cvpr.
Import Py.

(** *** RetryingSession *)

(** The arguments [RetryingSession.__init__] hands to [Retry(...)]. *)
Record Retry : Type := {
  total : Z;
  read : Z;
  connect : Z;
  backoff_factor : Q;
  status_forcelist : list Z
}.

Record RetryingSession : Type := {
  max_retries : Retry
}.

Definition RetryingSession_init (retries : Z) (backoff_factor : Q)
    (status_forcelist : list Z) : RetryingSession :=
  {| max_retries :=
       {| total := retries; read := retries; connect := retries;
          backoff_factor := backoff_factor;
          status_forcelist := status_forcelist |} |}.

(** [RetryingSession()] *)
Definition default_session : RetryingSession :=
  RetryingSession_init 3 (3 # 2) [500; 502; 503; 504]%Z.

(** What one attempt on the wire gives. *)
Inductive attempt : Type :=
| ConnectFailure
| ReadFailure
| Status (code : Z) (body : string).

(** The retry loop itself is not part of the sources: [RetryingSession]
    only configures [urllib3]'s [Retry] and mounts it on the session's
    adapter, and the code that counts attempts is that library's.  The four
    definitions below follow section 4.2 of the specification: one budget
    per failure class -- connect failures, read failures and responses whose
    status is in the forced list -- next to the overall one. *)

(** Modelled from the spec: the bookkeeping of one failed attempt, missing
    from the sources (it is [urllib3]'s).  A failure spends one unit of the
    overall budget and one of its own class. *)
Definition increment (r : Retry) (a : attempt) : Retry :=
  match a with
  | ConnectFailure =>
      {| total := total r - 1; read := read r; connect := connect r - 1;
         backoff_factor := backoff_factor r;
         status_forcelist := status_forcelist r |}
  | ReadFailure =>
      {| total := total r - 1; read := read r - 1; connect := connect r;
         backoff_factor := backoff_factor r;
         status_forcelist := status_forcelist r |}
  | Status _ _ =>
      {| total := total r - 1; read := read r; connect := connect r;
         backoff_factor := backoff_factor r;
         status_forcelist := status_forcelist r |}
  end.

(** Modelled from the spec: the test that the retries are used up, missing
    from the sources.  A budget is overdrawn. *)
Definition is_exhausted (r : Retry) : bool :=
  (Z.min (total r) (Z.min (read r) (connect r)) <? 0)%Z.

(** Modelled from the spec: which attempts count as failures to be retried,
    missing from the sources.  Connect failures, read failures, and the
    statuses of the forced list. *)
Definition is_retry (r : Retry) (a : attempt) : bool :=
  match a with
  | ConnectFailure | ReadFailure => true
  | Status code _ => bool_decide (code ∈ status_forcelist r)
  end.

(** Modelled from the spec: the adapter's loop, missing from the sources.
    [transport i] is what the [i]-th attempt gives; a failed attempt is
    followed by another one until the retries are used up, and then the
    failure is raised.  The result is the number of attempts made and the
    response, or the exception that reaches the caller. *)
Fixpoint send (fuel : nat) (transport : nat → attempt) (i : nat) (r : Retry)
    : nat * outcome (Z * string) :=
  match fuel with
  | O => (i, Raise MaxRetryError)
  | S fuel' =>
      let a := transport i in
      let again :=
        let r' := increment r a in
        if is_exhausted r' then (S i, Raise MaxRetryError)
        else send fuel' transport (S i) r' in
      match a with
      | Status code body =>
          if is_retry r a then again else (S i, Return (code, body))
      | ConnectFailure | ReadFailure => again
      end
  end.

(** A transport on which every attempt fails in a way the session retries. *)
Definition always_fails (r : Retry) (transport : nat → attempt) : Prop :=
  ∀ i, is_retry r (transport i) = true.

(** [RetryingSession.get]: every failure lowers [total], so
    [total + 1] rounds always suffice. *)
Definition RetryingSession_get (self : RetryingSession) (transport : nat → attempt)
    : nat * outcome (Z * string) :=
  send (S (Z.to_nat (total (max_retries self)))) transport 0 (max_retries self).

(** *** Paper and PaperDatabase *)

Record Paper : Type := {
  title : value;
  authors : value;
  paper_id : value;
  pdf_url : value;
  arxiv_url : value;
  abstract : value;
  supplemental_url : value
}.

Definition Paper_init (title authors : value) : Paper :=
  {| title := title; authors := authors; paper_id := VNone; pdf_url := VNone;
     arxiv_url := VNone; abstract := VNone; supplemental_url := VNone |}.

Definition to_dict (self : Paper) : value :=
  VDict [("paper_id", paper_id self); ("title", title self);
         ("authors", authors self); ("pdf_url", pdf_url self);
         ("arxiv_url", arxiv_url self); ("abstract", abstract self);
         ("supplemental_url", supplemental_url self)].

Definition from_dict (data : value) : outcome Paper :=
  ti ← subscript data "title";
  au ← subscript data "authors";
  id ← get data "paper_id";
  pdf ← get data "pdf_url";
  arx ← get data "arxiv_url";
  abs ← get data "abstract";
  sup ← get data "supplemental_url";
  Return {| title := ti; authors := au; paper_id := id; pdf_url := pdf;
            arxiv_url := arx; abstract := abs; supplemental_url := sup |}.

(** [f"cvpr{str(year)[-2:]}.json"] *)
Definition basename (year : Z) : string :=
  "cvpr" +:+ last_chars 2 (pretty year) +:+ ".json".

(** [PaperDatabase(output_dir, year)]: the identity key is [title]. *)
Definition PaperDatabase_init (json_load : string → option value) (now : string)
    (output_dir : string) (year : Z) (fs : Store.filesystem) :=
  Store.__init__ from_dict title json_load true now
    output_dir (Store.os_path_join output_dir (basename year)) fs.

Definition save_paper (json_dump : value → string) :=
  Store.save_paper to_dict title json_dump.

(** *** process_paper_element *)

(** [existing_paper.abstract and existing_paper.pdf_url], the test under
    "Check if paper already exists and has all data". *)
Definition has_all_data (existing_paper : Paper) : bool :=
  truthy (abstract existing_paper) && truthy (pdf_url existing_paper).

(** The first [<a>] of a [<dt class="ptitle">] *)
Record anchor : Type := {
  a_text : string;
  a_href : string
}.

Section Process.

(** [fetch_paper_details(href, session, paper_count)]: the paper read from
    its page, [None] when the page could not be fetched or parsed. *)
Variable fetch_paper_details : string → Z → option Paper.
Variable json_dump : value → string.

Definition process_paper_element (paper_count : Z) (paper_elem : option anchor)
    (db : Store.PaperDatabase (Paper:=Paper)) (fs : Store.filesystem)
    : outcome (option Paper * Store.PaperDatabase (Paper:=Paper) * Store.filesystem) :=
  match paper_elem with
  | None => Return (None, db, fs)
  | Some title_link =>
      let title := join " " (split (strip (a_text title_link))) in
      let skip :=
        if Store.has_paper title db then
          match Store.get_paper title db with
          | Some existing_paper =>
              if has_all_data existing_paper then Some existing_paper else None
          | None => None
          end
        else None in
      match skip with
      | Some existing_paper => Return (Some existing_paper, db, fs)
      | None =>
          match fetch_paper_details (a_href title_link) paper_count with
          | Some paper =>
              '(db', fs') ← save_paper json_dump paper db fs;
              Return (Some paper, db', fs')
          | None => Return (None, db, fs)
          end
      end
  end.

End Process.

(** *** parse_paper_page and fetch_paper_details *)

(** A paper's page, as [parse_paper_page] looks at it. *)
Record paper_page : Type := {
  (** [content] of [<meta name="citation_title">] *)
  citation_title : option string;
  (** text of [<div id="papertitle">] *)
  papertitle : option string;
  (** [content] of every [<meta name="citation_author">] *)
  citation_authors : list string;
  (** text of [<div id="authors">] *)
  authors_div : option string;
  (** text of [<div id="abstract">] *)
  abstract_div : option string;
  (** [content] of [<meta name="citation_pdf_url">] *)
  citation_pdf_url : option string;
  (** [href] of the first [<a>] whose [href] matches [.*\.pdf$] *)
  pdf_anchor : option string;
  (** [href] of every [<a>], in document order *)
  anchors : list (option string)
}.

Record paper_info : Type := {
  info_title : option string;
  info_authors : list string;
  info_abstract : option string;
  info_pdf_url : option string;
  info_arxiv_url : option string;
  info_supplemental_url : option string
}.

Definition base_url : string := "https://openaccess.thecvf.com".

(** One round of [for link in soup.find_all('a')], on the pair
    [(arxiv_url, supplemental_url)]. *)
Definition link_step (urls : option string * option string)
    (link : option string) : option string * option string :=
  let href := default "" link in
  if is_empty href then urls
  else if contains "arxiv.org" href then (Some href, urls.2)
  else if contains "supplemental" (lower_str href) then
    (urls.1, Some (if startswith "http" href then href else base_url +:+ href))
  else urls.

(** The body of the [try] block of [parse_paper_page]. *)
Definition parse_paper_page (soup : paper_page) : paper_info :=
  let title :=
    match citation_title soup with
    | Some content => Some content
    | None => strip <$> papertitle soup
    end in
  let authors :=
    match citation_authors soup with
    | [] =>
        match authors_div soup with
        | Some text =>
            let authors_text := default "" (head (split_on ";" text)) in
            strip <$> split_on "," authors_text
        | None => []
        end
    | author_metas => author_metas
    end in
  let abstract := strip <$> abstract_div soup in
  let pdf_url :=
    match citation_pdf_url soup with
    | Some content => Some content
    | None =>
        match pdf_anchor soup with
        | Some href =>
            if negb (startswith "http" href) then Some (base_url +:+ href)
            else Some href
        | None => None
        end
    end in
  let '(arxiv_url, supplemental_url) := foldl link_step (None, None) (anchors soup) in
  {| info_title := title; info_authors := authors; info_abstract := abstract;
     info_pdf_url := pdf_url; info_arxiv_url := arxiv_url;
     info_supplemental_url := supplemental_url |}.

Definition opt_value (o : option string) : value :=
  match o with Some s => VStr s | None => VNone end.

(** [fetch_paper_details(title_link, session, paper_count)];
    [get_page url] is the page behind [url], [None] when fetching or
    parsing it raised. *)
Definition fetch_paper_details (get_page : string → option paper_page)
    (title_link : string) (paper_count : Z) : option Paper :=
  let full_url := base_url +:+ title_link in
  match get_page full_url with
  | None => None
  | Some soup =>
      let paper_info := parse_paper_page soup in
      Some {| title := opt_value (info_title paper_info);
              authors := VList (VStr <$> info_authors paper_info);
              paper_id := VInt paper_count;
              pdf_url := opt_value (info_pdf_url paper_info);
              arxiv_url := opt_value (info_arxiv_url paper_info);
              abstract := opt_value (info_abstract paper_info);
              supplemental_url := opt_value (info_supplemental_url paper_info) |}
  end.

(** *** scrape_cvpr_papers *)

(** One round of the [for] loop of [scrape_cvpr_papers], on the store and
    on the counters [(papers_with_new_info, papers_skipped)]; an exception
    leaves the loop. *)
Definition scrape_round (get_page : string → option paper_page)
    (json_dump : value → string) (paper_count : Z) (paper_elem : option anchor)
    (db : Store.PaperDatabase (Paper:=Paper)) (fs : Store.filesystem)
    (counters : nat * nat)
    : outcome (Store.PaperDatabase (Paper:=Paper) * Store.filesystem * (nat * nat)) :=
  let '(papers_with_new_info, papers_skipped) := counters in
  '(paper, db, fs) ← process_paper_element (fetch_paper_details get_page)
                       json_dump paper_count paper_elem db fs;
  match paper with
  | None => Return (db, fs, (papers_with_new_info, papers_skipped))
  | Some paper =>
      k ← hash (title paper);
      if dict_in k (Store.papers db) && has_all_data paper
      then Return (db, fs, (papers_with_new_info, S papers_skipped))
      else Return (db, fs, (S papers_with_new_info, papers_skipped))
  end.

End Cvpr.

(* ===================================================================== *)
(** ** nature.py *)
(* ===================================================================== *)

Module Nature.
Import Py.

(** *** The landing page, as [fetch_doi_abstract] looks at it *)

(** An element returned by a selector: its [.string], its [content]
    attribute, and [get_text(" ", strip=True)]. *)
Record element : Type := {
  el_string : option string;
  el_content : option string;
  el_text : string
}.

Record page : Type := {
  (** [soup.select_one(selector)] *)
  select_one : string → option element;
  (** [soup.find("meta", attrs={"name": "dc.type"})] *)
  find_dc_type : option element;
  (** group 1 of the ["contentInfo"] pattern searched in the raw text *)
  contentInfo_authors : option string
}.

Inductive kind : Type := json_ld | meta | html.

Definition ABSTRACT_PATTERNS : list (string * kind) :=
  [ ("script[type='application/ld+json']", json_ld);
    ("meta[name='dc.description'], meta[name='description']", meta);
    ("#Abs1-content, .Abstracts, .abstr, div[id*='abstract']", html) ].

Inductive event : Type :=
| HttpGet (url : string).

Section Fetch.

(** [requests.get(url, ...)] then [raise_for_status()] then
    [BeautifulSoup(resp.text, "html.parser")]; [None] when the request
    raises. *)
Variable landing_page : string → option page.
(** [requests.get(url)], [raise_for_status()] and [.json()] on the Crossref
    API; [None] when any of them raises. *)
Variable crossref_json : string → option value.
(** [json.loads] *)
Variable json_loads : string → option value.
(** [BeautifulSoup(s, "html.parser").get_text(" ", strip=True)] *)
Variable soup_text : string → string.
(** [re.sub(r"</?jats:[^>]+>", "", s)] *)
Variable sub_jats : string → string.

(** [BeautifulSoup(v, "html.parser")] takes text; any other value raises. *)
Definition soup_text_of (v : value) : outcome string :=
  match v with
  | VStr s => Return (soup_text s)
  | _ => Raise TypeError
  end.

(** [data.get("description") or (data.get("mainEntity") or {}).get("description")] *)
Definition json_ld_candidate (data : value) : outcome value :=
  description ← get data "description";
  if truthy description then Return description
  else
    mainEntity ← get data "mainEntity";
    get (if truthy mainEntity then mainEntity else VDict []) "description".

(** What one round of the loop does to [abstract_text]. *)
Inductive round : Type :=
| Continue
| Break (abstract_text : string).

(** The [try] block of the [json_ld] branch; [None] stands for reaching
    its end without [break]. *)
Definition json_ld_branch (element : element) : outcome (option string) :=
  data ← match el_string element with
         | Some s =>
             if is_empty s then Return (VDict [])
             else match json_loads s with
                  | Some data => Return data
                  | None => Raise JSONDecodeError
                  end
         | None => Return (VDict [])
         end;
  candidate ← json_ld_candidate data;
  if truthy candidate
  then text ← soup_text_of candidate; Return (Some text)
  else Return None.

(** The body of [for selector, kind in ABSTRACT_PATTERNS]. *)
Definition loop_body (soup : page) (pattern : string * kind) : round :=
  let '(selector, kind) := pattern in
  match select_one soup selector with
  | None => Continue
  | Some element =>
      match kind with
      | json_ld =>
          match json_ld_branch element with
          | Return (Some text) => Break text
          | Return None => Continue
          | Raise _ => Continue
          end
      | meta =>
          let content := el_content element in
          if truthy_str content
          then Break (strip (default "" content))
          else Continue
      | html => Break (el_text element)
      end
  end.

(** The loop: [abstract_text] when it ends. *)
Fixpoint extract_abstract (soup : page) (patterns : list (string * kind))
    : option string :=
  match patterns with
  | [] => None
  | pattern :: rest =>
      match loop_body soup pattern with
      | Break abstract_text => Some abstract_text
      | Continue => extract_abstract soup rest
      end
  end.

(** What one strategy assigns when it is the only one tried. *)
Definition strategy_alone (soup : page) (pattern : string * kind) : option string :=
  extract_abstract soup [pattern].

(** The first value that is set, in order. *)
Fixpoint first_set (values : list (option string)) : option string :=
  match values with
  | [] => None
  | Some v :: _ => Some v
  | None :: rest => first_set rest
  end.

Definition crossref_url (doi : string) : string :=
  "https://api.crossref.org/works/" +:+ doi.

(** The [try] block of the Crossref step: the new [abstract_text], if it
    assigns one. *)
Definition crossref_abstract (doi : string) : option string :=
  match crossref_json (crossref_url doi) with
  | None => None
  | Some body =>
      match (message ← subscript body "message"; get message "abstract") with
      | Raise _ => None
      | Return abstract =>
          if truthy abstract then
            match abstract with
            | VStr s => Some (soup_text (sub_jats s))
            | _ => None
            end
          else None
      end
  end.

(** [fetch_doi_abstract(doi_or_url)]: the requests it makes, in order, and
    [(abstract, authors)] or [None]. *)
Definition fetch_doi_abstract (doi_or_url : string)
    : list event * option (string * value) :=
  let url := if startswith "http" doi_or_url then doi_or_url
             else "https://doi.org/" +:+ doi_or_url in
  match landing_page url with
  | None => ([HttpGet url], None)
  | Some soup =>
      let is_original :=
        match find_dc_type soup with
        | Some dc_type =>
            String.eqb (Py.map lower (default "" (el_content dc_type)))
                       "originalpaper"
        | None => false
        end in
      if negb is_original then ([HttpGet url], None)
      else
        let authors :=
          match contentInfo_authors soup with
          | Some m => default (VList []) (json_loads m)
          | None => VList []
          end in
        let abstract_text := extract_abstract soup ABSTRACT_PATTERNS in
        let '(trace, abstract_text) :=
          match abstract_text with
          | None =>
              if startswith "10." doi_or_url
              then ([HttpGet url; HttpGet (crossref_url doi_or_url)],
                    crossref_abstract doi_or_url)
              else ([HttpGet url], None)
          | Some _ => ([HttpGet url], abstract_text)
          end in
        if truthy_str abstract_text
        then (trace, Some (default "" abstract_text, authors))
        else (trace, None)
  end.

(** Names for three parts of [fetch_doi_abstract]: the address it fetches,
    its test on the [dc.type] tag, and the author list it returns. *)
Definition landing_url (doi_or_url : string) : string :=
  if startswith "http" doi_or_url then doi_or_url
  else "https://doi.org/" +:+ doi_or_url.

Definition declares_original (soup : page) : bool :=
  match find_dc_type soup with
  | Some dc_type =>
      String.eqb (Py.map lower (default "" (el_content dc_type))) "originalpaper"
  | None => false
  end.

Definition page_authors (soup : page) : value :=
  match contentInfo_authors soup with
  | Some m => default (VList []) (json_loads m)
  | None => VList []
  end.

End Fetch.

(** *** Paper and PaperDatabase *)

Record Paper : Type := {
  journal : value;
  paper_id : value;
  title : value;
  authors : value;
  publication_date : value;
  paper_link : value;
  doi : value;
  abstract : value;
  keywords : value
}.

Definition to_dict (self : Paper) : value :=
  VDict [("journal", journal self); ("paper_id", paper_id self);
         ("title", title self); ("authors", authors self);
         ("publication_date", publication_date self);
         ("paper_url", paper_link self); ("doi", doi self);
         ("abstract", abstract self); ("keywords", keywords self)].

Definition from_dict (data : value) : outcome Paper :=
  id ← subscript data "paper_id";
  ti ← subscript data "title";
  jo ← subscript data "journal";
  date ← get data "publication_date";
  lnk ← get data "paper_link";
  doi ← get data "doi";
  abs ← get data "abstract";
  kw ← get data "keywords";
  au ← get data "authors";
  Return {| journal := jo; paper_id := id; title := ti; authors := au;
            publication_date := date; paper_link := lnk; doi := doi;
            abstract := abs; keywords := kw |}.

(** [PaperDatabase(output_dir, filename)]: the identity key is [paper_id];
    the handler renames without testing for the file again. *)
Definition PaperDatabase_init (json_load : string → option value) (now : string)
    (output_dir filename : string) (fs : Store.filesystem) :=
  Store.__init__ from_dict paper_id json_load false now
    output_dir (Store.os_path_join output_dir filename) fs.

Definition save_paper (json_dump : value → string) :=
  Store.save_paper to_dict paper_id json_dump.

(** *** reconstruct_abstract and extract_keywords *)

(** [words.sort(key=lambda t: t[0])]: a stable sort, so pairs with the same
    position keep the order they had. *)
Fixpoint insert_by_position (x : Z * string) (l : list (Z * string))
    : list (Z * string) :=
  match l with
  | [] => [x]
  | y :: l' =>
      if (x.1 <=? y.1)%Z then x :: y :: l' else y :: insert_by_position x l'
  end.

Definition sort_by_position (l : list (Z * string)) : list (Z * string) :=
  foldr insert_by_position [] l.

(** [(pos, word) for word, positions in inverted_index.items() for pos in positions] *)
Definition positioned_words (inverted_index : list (string * list Z))
    : list (Z * string) :=
  inverted_index ≫= λ '(word, positions), (λ pos, (pos, word)) <$> positions.

(** [reconstruct_abstract]: the index maps each word to the positions it
    occupies; [None] and the empty index give the empty text. *)
Definition reconstruct_abstract (inverted_index : option (list (string * list Z)))
    : string :=
  match inverted_index with
  | None | Some [] => ""
  | Some index =>
      let words := sort_by_position (positioned_words index) in
      join " " (snd <$> words)
  end.

(** The words of a text with the positions they occupy, counted from
    [start]: what an inverted index describes. *)
Fixpoint numbered (start : Z) (words : list string) : list (Z * string) :=
  match words with
  | [] => []
  | word :: rest => (start, word) :: numbered (start + 1) rest
  end.

(** A keyword or a concept of an OpenAlex work: its [display_name] and its
    [score], when it has them. *)
Record tag : Type := {
  display_name : option string;
  score : option Q
}.

(** [x.get("score", 0)] *)
Definition score_of (x : tag) : Q := default 0%Q (score x).

(** [sorted(concepts_list, key=..., reverse=True)]: highest score first,
    equal scores in the order they had. *)
Fixpoint insert_by_score (x : tag) (l : list tag) : list tag :=
  match l with
  | [] => [x]
  | y :: l' =>
      if Qle_bool (score_of y) (score_of x) then x :: y :: l'
      else y :: insert_by_score x l'
  end.

Definition sorted_by_score (l : list tag) : list tag :=
  foldr insert_by_score [] l.

(** [x.get("display_name", "") for x in tags if x.get("display_name")] *)
Definition display_names (tags : list tag) : list string :=
  omap (λ x, if truthy_str (display_name x) then display_name x else None) tags.

(** [[kw for kw in keywords if not (kw.lower() in seen or seen.add(kw.lower()))]] *)
Fixpoint unique_keywords (seen : gset string) (keywords : list string)
    : list string :=
  match keywords with
  | [] => []
  | kw :: rest =>
      if decide (lower_str kw ∈ seen) then unique_keywords seen rest
      else kw :: unique_keywords ({[lower_str kw]} ∪ seen) rest
  end.

(** The list [unique] of [extract_keywords]. *)
Definition keyword_list (keywords_list concepts_list : list tag) : list string :=
  let keywords :=
    display_names keywords_list
    ++ display_names (take 5 (sorted_by_score concepts_list)) in
  unique_keywords ∅ keywords.

Definition extract_keywords (keywords_list concepts_list : list tag) : string :=
  join "; " (keyword_list keywords_list concepts_list).

End Nature.

(* ===================================================================== *)
(** ** science.py *)
(* ===================================================================== *)

Module Science.
Import Py.

Section Fetch.

(** group 1 of [re.search(r"(10\.\d{4,9}/[-._;()/:A-Z0-9]+)", s, re.I)] *)
Variable search_doi : string → option string.
(** [requests.get(url, timeout=timeout)], [raise_for_status()] and
    [.json()]; [None] when one of them raises (a [RequestException], or
    the [ValueError] of a body that is not JSON). *)
Variable crossref_json : string → option value.
(** [BeautifulSoup(s, "html.parser").get_text(" ", strip=True)] *)
Variable soup_text : string → string.
(** [str(v)], as an f-string formats a value that is not already text *)
Variable str : value → string.

Definition format (v : value) : string :=
  match v with
  | VStr s => s
  | _ => str v
  end.

(** [v == s] for a text [s] *)
Definition eq_str (v : value) (s : string) : bool :=
  match v with
  | VStr s' => String.eqb s' s
  | _ => false
  end.

(** [data.get(k, d)] *)
Definition get_default (data : value) (k : string) (d : value) : outcome value :=
  match data with
  | VDict kv => Return (default d (assoc k kv))
  | _ => Raise AttributeError
  end.

(** [f"{author.get('given', '')} {author.get('family', '')}".strip()] *)
Definition author_name (author : value) : outcome string :=
  given ← get_default author "given" (VStr "");
  family ← get_default author "family" (VStr "");
  Return (strip (format given +:+ " " +:+ format family)).

Fixpoint author_names (author_list : list value) : outcome (list string) :=
  match author_list with
  | [] => Return []
  | author :: rest =>
      name ← author_name author;
      names ← author_names rest;
      Return (name :: names)
  end.

(** The statements of the [try] block after the request. *)
Definition read_message (data : value) : outcome (option (string * list string)) :=
  message ← get_default data "message" (VDict []);
  type ← get message "type";
  if negb (eq_str type "journal-article") then Return None
  else
    abstract_html ← get message "abstract";
    if negb (truthy abstract_html) then Return None
    else
      abstract ← match abstract_html with
                 | VStr s => Return (soup_text s)
                 | _ => Raise TypeError
                 end;
      author_list ← get_default message "author" (VList []);
      items ← iter author_list;
      authors ← author_names items;
      if is_empty abstract || bool_decide (authors = [])
         || (len abstract <? 200)%nat
      then Return None
      else Return (Some (abstract, authors)).

(** [fetch_doi_abstract]: the handlers turn [RequestException],
    [KeyError], [TypeError] and [ValueError] into [None]; anything else
    leaves the function. *)
Definition fetch_doi_abstract (doi_or_url : string)
    : outcome (option (string * list string)) :=
  match search_doi doi_or_url with
  | None => Return None
  | Some doi =>
      let url := "https://api.crossref.org/works/" +:+ doi in
      match crossref_json url with
      | None => Return None
      | Some data =>
          match read_message data with
          | Raise (KeyError _) | Raise TypeError | Raise JSONDecodeError
          | Raise RequestException => Return None
          | r => r
          end
      end
  end.

End Fetch.

(** *** Paper *)

Record Paper : Type := {
  journal : value;
  paper_id : value;
  title : value;
  authors : value;
  publication_date : value;
  paper_link : value;
  doi : value;
  abstract : value;
  keywords : value
}.

Definition to_dict (self : Paper) : value :=
  VDict [("journal", journal self); ("paper_id", paper_id self);
         ("title", title self); ("authors", authors self);
         ("publication_date", publication_date self);
         ("paper_url", paper_link self); ("doi", doi self);
         ("abstract", abstract self); ("keywords", keywords self)].

Definition from_dict (data : value) : outcome Paper :=
  id ← subscript data "paper_id";
  ti ← subscript data "title";
  jo ← subscript data "journal";
  date ← get data "publication_date";
  lnk ← get data "paper_url";
  doi ← get data "doi";
  abs ← get data "abstract";
  kw ← get data "keywords";
  au ← get data "authors";
  Return {| journal := jo; paper_id := id; title := ti; authors := au;
            publication_date := date; paper_link := lnk; doi := doi;
            abstract := abs; keywords := kw |}.

End Science.

(* ===================================================================== *)
(** ** The completeness invariant of the specification *)
(* ===================================================================== *)

Module Spec.
Import Py.

(** Section 3, in its own words: a record is complete iff [abstractText]
    is non-empty and at least one of [primaryLink] / [pdfLink] is
    non-empty. *)
Definition isComplete (abstractText primaryLink pdfLink : value) : bool :=
  truthy abstractText && (truthy primaryLink || truthy pdfLink).

(** Section 4.4, in its own words: "try an ordered list of strategies
    until one yields a non-empty value; return the first success, or empty
    if all fail".  [values] holds what each strategy yields on its own. *)
Fixpoint first_non_empty (values : list (option string)) : option string :=
  match values with
  | [] => None
  | v :: rest => if truthy_str v then v else first_non_empty rest
  end.

End Spec.

(* ===================================================================== *)
(** ** Sample data *)
(* ===================================================================== *)

(** Concrete pages, feeds and files on which the statements below are
    exercised. *)

Module Fixtures.
Import Py.

(** *** An arXiv feed for "Deep Residual Learning" by "He, Zhang" *)

Definition no_quote (s : string) : string := s.
Definition online (url : string) : option string := Some "<feed/>".
Definition offline (url : string) : option string := None.
Definition feed_of (entries : list Iros24.entry) (text : string)
    : option (list Iros24.entry) := Some entries.

Definition pdf_link (href : string) : Iros24.link :=
  {| Iros24.link_title := Some "pdf"; Iros24.link_href := href |}.
Definition abs_link (href : string) : Iros24.link :=
  {| Iros24.link_title := None; Iros24.link_href := href |}.

(** Same title up to punctuation and case, two shared last names. *)
Definition resnet : Iros24.entry :=
  {| Iros24.entry_title := "deep residual learning!!";
     Iros24.entry_authors := ["Kaiming He"; "Xiangyu Zhang"; "Jian Sun"];
     Iros24.entry_links := [abs_link "http://arxiv.org/abs/1512.03385v1";
                            pdf_link "http://arxiv.org/pdf/1512.03385v1"];
     Iros24.entry_summary := Some "  Deeper neural networks are more difficult to train.  " |}.

(** A near-identical title, one shared last name, ranked first. *)
Definition resnet_draft : Iros24.entry :=
  {| Iros24.entry_title := "Deep Residual Learnin";
     Iros24.entry_authors := ["Kaiming He"];
     Iros24.entry_links := [pdf_link "http://arxiv.org/pdf/1512.00001v1"];
     Iros24.entry_summary := Some "A draft." |}.

(** The same title by other people. *)
Definition namesake : Iros24.entry :=
  {| Iros24.entry_title := "Deep Residual Learning";
     Iros24.entry_authors := ["Ada Lovelace"; "Alan Turing"];
     Iros24.entry_links := [pdf_link "http://arxiv.org/pdf/0000.00001v1"];
     Iros24.entry_summary := Some "Unrelated." |}.

(** Another paper by the same people. *)
Definition other_work : Iros24.entry :=
  {| Iros24.entry_title := "Identity Mappings in Deep Networks";
     Iros24.entry_authors := ["Kaiming He"; "Xiangyu Zhang"];
     Iros24.entry_links := [pdf_link "http://arxiv.org/pdf/1603.05027v3"];
     Iros24.entry_summary := Some "Follow-up." |}.

(** *** Transports *)

(** Refuses the connection, then stalls, then answers 503 for ever. *)
Definition flaky_for_ever (i : nat) : Cvpr.attempt :=
  match i with
  | 0 => Cvpr.ConnectFailure
  | 1 => Cvpr.ReadFailure
  | _ => Cvpr.Status 503 "Service Unavailable"
  end.

(** *** Store files *)

Definition dq : string := String (ascii_of_nat 34) EmptyString.
Definition q (s : string) : string := dq +:+ s +:+ dq.

(** A compact rendering of a value, standing for [json.dump] in the
    examples (no indentation, no escapes). *)
Fixpoint dumps (v : value) : string :=
  match v with
  | VNone => "null"
  | VBool true => "true"
  | VBool false => "false"
  | VInt n => pretty n
  | VStr s => q s
  | VList l => "[" +:+ join ", " (List.map dumps l) +:+ "]"
  | VDict d =>
      "{" +:+ join ", " (List.map (λ kv, let '(k, x) := kv in
                                          q k +:+ ": " +:+ dumps x) d)
      +:+ "}"
  end.

(** A CVPR record with an abstract and a PDF link. *)
Definition attention : Cvpr.Paper :=
  {| Cvpr.title := VStr "Attention Is All You Need";
     Cvpr.authors := VList [VStr "Ashish Vaswani"; VStr "Noam Shazeer"];
     Cvpr.paper_id := VInt 1;
     Cvpr.pdf_url := VStr "https://openaccess.thecvf.com/attention.pdf";
     Cvpr.arxiv_url := VNone;
     Cvpr.abstract := VStr "The dominant sequence transduction models.";
     Cvpr.supplemental_url := VNone |}.

(** A CVPR record with an abstract and an arXiv link, but no PDF link. *)
Definition preprint_only : Cvpr.Paper :=
  {| Cvpr.title := VStr "Segment Anything";
     Cvpr.authors := VList [VStr "Alexander Kirillov"];
     Cvpr.paper_id := VInt 2;
     Cvpr.pdf_url := VNone;
     Cvpr.arxiv_url := VStr "https://arxiv.org/abs/2304.02643";
     Cvpr.abstract := VStr "We introduce the Segment Anything project.";
     Cvpr.supplemental_url := VNone |}.

(** An IROS record with a PDF link and no abstract. *)
Definition pdf_without_abstract : Iros24.Paper :=
  {| Iros24.paper_no := VStr "17";
     Iros24.authors := VStr "He, Zhang";
     Iros24.title := VStr "Deep Residual Learning";
     Iros24.arxiv_pdf := VStr "http://arxiv.org/pdf/1512.03385v1";
     Iros24.arxiv_abstract := VNone |}.

(** A store file whose first element is a record and whose second element
    lacks the required keys. *)
Definition second_record_bad : string :=
  "[" +:+ dumps (Cvpr.to_dict attention) +:+ ", {}]".

(** A store file cut short in the middle of a write. *)
Definition truncated : string := "[{" +:+ q "paper_id" +:+ ": 1, " +:+ q "tit".

(** [json.load] on the files above; any other text is taken not to
    decode. *)
Definition json_load (bytes : string) : option value :=
  if String.eqb bytes second_record_bad
  then Some (VList [Cvpr.to_dict attention; VDict []])
  else if String.eqb bytes "[]" then Some (VList [])
  else None.

Definition disk (path bytes : string) : Store.filesystem :=
  {| Store.dirs := {["dataset"]}; Store.files := {[path := bytes]} |}.

Definition empty_cvpr_db : Store.PaperDatabase (Paper:=Cvpr.Paper) :=
  {| Store.output_dir := "dataset"; Store.filename := "dataset/cvpr25.json";
     Store.papers := [] |}.

(** *** Landing pages *)

Definition no_element : option Nature.element := None.

Definition an_element (inner content : option string) (text : string)
    : option Nature.element :=
  Some {| Nature.el_string := inner; Nature.el_content := content;
          Nature.el_text := text |}.

(** A page of an original paper on which the three selectors of
    [ABSTRACT_PATTERNS] find the given elements. *)
Definition original_paper (ld meta html : option Nature.element) : Nature.page :=
  {| Nature.select_one := λ selector,
       match List.find (λ p, String.eqb selector p.1) Nature.ABSTRACT_PATTERNS with
       | Some (_, Nature.json_ld) => ld
       | Some (_, Nature.meta) => meta
       | Some (_, Nature.html) => html
       | None => None
       end;
     Nature.find_dc_type := an_element None (Some "OriginalPaper") "";
     Nature.contentInfo_authors := None |}.

Definition ld_text : string :=
  "{" +:+ q "description" +:+ ": " +:+ q "Structured abstract." +:+ "}".

(** JSON-LD block, description tag and visible block all present. *)
Definition rich_page : Nature.page :=
  original_paper (an_element (Some ld_text) None "")
                 (an_element None (Some " Described abstract. ") "")
                 (an_element None None "Visible abstract.").

(** A description tag holding one blank, and a visible abstract. *)
Definition blank_description_page : Nature.page :=
  original_paper no_element
                 (an_element None (Some " ") "")
                 (an_element None None "Visible abstract.").

(** Nothing to extract from the page itself. *)
Definition bare_page : Nature.page :=
  original_paper no_element no_element no_element.

Definition serve (soup : Nature.page) (url : string) : option Nature.page :=
  Some soup.

(** [json.loads] on the block above; any other text is taken not to
    decode. *)
Definition json_loads (text : string) : option value :=
  if String.eqb text ld_text
  then Some (VDict [("description", VStr "Structured abstract.")])
  else None.

(** Text without markup: only the surrounding blanks go. *)
Definition plain_text (s : string) : string := strip s.
Definition no_jats (s : string) : string := s.

(** A Crossref answer carrying a very short abstract. *)
Definition crossref_short (url : string) : option value :=
  Some (VDict [("message", VDict [("type", VStr "journal-article");
                                  ("abstract", VStr "Short.");
                                  ("author", VList [VDict [("given", VStr "Ada");
                                                           ("family", VStr "Lovelace")]])])]).

Definition whole_as_doi (s : string) : option string := Some s.
Definition no_str (v : value) : string := "".

(** *** A store saved once *)

Definition saved_once : value := VList [Cvpr.to_dict attention].

(** [json.load] on the file that holds [saved_once]. *)
Definition json_load_saved (bytes : string) : option value :=
  if String.eqb bytes (dumps saved_once) then Some saved_once else None.

(** *** The IROS store before the first run *)

Definition empty_iros_db : Store.PaperDatabase (Paper:=Iros24.Paper) :=
  {| Store.output_dir := "dataset"; Store.filename := "dataset/iros24.json";
     Store.papers := [] |}.

Definition resnet_row : string * string * string :=
  ("17", "He, Zhang", "Deep Residual Learning").

(** *** An inverted index and some tags *)

(** "the cat the sat", word by word. *)
Definition the_cat_index : list (string * list Z) :=
  [("the", [0; 2]%Z); ("cat", [1]%Z); ("sat", [3]%Z)].

Definition named (name : string) (s : Q) : Nature.tag :=
  {| Nature.display_name := Some name; Nature.score := Some s |}.

(** *** A CVPR paper page *)

Definition cvpr_page : Cvpr.paper_page :=
  {| Cvpr.citation_title := Some "Attention Is All You Need";
     Cvpr.papertitle := None;
     Cvpr.citation_authors := ["Ashish Vaswani"; "Noam Shazeer"];
     Cvpr.authors_div := None;
     Cvpr.abstract_div := Some "  The dominant sequence transduction models. ";
     Cvpr.citation_pdf_url := None;
     Cvpr.pdf_anchor := Some "/content/papers/attention.pdf";
     Cvpr.anchors := [Some "/content/papers/attention.pdf"; None;
                      Some "/content/supplemental/attention-supp.pdf";
                      Some "http://arxiv.org/abs/1706.03762"] |}.

Definition cvpr_site (url : string) : option Cvpr.paper_page := Some cvpr_page.

Definition attention_link : Cvpr.anchor :=
  {| Cvpr.a_text := "  Attention Is  All You Need ";
     Cvpr.a_href := "/content/attention.html" |}.

(** *** A Crossref answer that is a list, not an object *)

Definition crossref_list (url : string) : option value := Some (VList []).

(** *** A Crossref answer carrying an abstract of more than 200 characters *)

Definition long_abstract : string :=
  "We report a measurement of the thermal conductance of a single molecule held between two gold electrodes at room temperature, and we show that the conductance is set by the phonon transmission of the junction rather than by its length.".

Definition crossref_long (url : string) : option value :=
  Some (VDict [("message", VDict [("type", VStr "journal-article");
                                  ("abstract", VStr long_abstract);
                                  ("author", VList [VDict [("given", VStr "Ada");
                                                           ("family", VStr "Lovelace")]])])]).

End Fixtures.

(* ===================================================================== *)
(** * Properties *)
(* ===================================================================== *)

(** ** Strings *)

Section StringFacts.
Import Py.

Lemma lstrip_whitespace s :
  all_chars isspace s = true → lstrip s = "".
Proof.
  induction s as [|c s IH]; simpl; [done|].
  intros [Hc Hs]%andb_prop. rewrite Hc. auto.
Qed.

Lemma strip_whitespace s :
  all_chars isspace s = true → strip s = "".
Proof. intros H. unfold strip. by rewrite lstrip_whitespace. Qed.

Lemma split_on_nonempty sep s : split_on sep s ≠ [].
Proof.
  destruct s as [|c s]; simpl; [done|].
  destruct (Ascii.eqb c sep); [done|]. by destruct (split_on sep s).
Qed.

(** Cutting a string of blanks and separators at the separators leaves
    pieces of blanks. *)
Lemma split_on_whitespace sep s :
  all_chars (λ c, isspace c || Ascii.eqb c sep) s = true →
  Forall (λ w, all_chars isspace w = true) (split_on sep s).
Proof.
  induction s as [|c s IH]; simpl.
  - intros _. by constructor.
  - intros [Hc Hs]%andb_prop. specialize (IH Hs).
    destruct (Ascii.eqb c sep) eqn:Hsep.
    + by constructor.
    + rewrite orb_false_r in Hc.
      destruct (split_on sep s) as [|w ws] eqn:Hsplit.
      * constructor; [simpl; by rewrite Hc | constructor].
      * inversion_clear IH as [|? ? Hw Hws].
        constructor; [simpl; by rewrite Hc, Hw | done].
Qed.

End StringFacts.

(** ** The matching blocks of difflib *)

Section DifflibFacts.
Import Difflib.
Local Open Scope nat_scope.

Lemma common_prefix_le a b : common_prefix a b ≤ String.length a.
Proof.
  revert b. induction a as [|x a IH]; intros [|y b]; simpl; try lia.
  destruct (Ascii.eqb x y); [|lia]. specialize (IH b). lia.
Qed.

Lemma best_in_b_le a b j :
  (best_in_b a b j).2 ≤ String.length a.
Proof.
  revert j. induction b as [|y b IH]; intros j; [simpl; lia|].
  cbn [best_in_b]. specialize (IH (S j)).
  destruct (best_in_b a b (S j)) as [j' k'].
  destruct (k' <=? common_prefix a (String y b))%nat; simpl in *;
    [apply common_prefix_le|done].
Qed.

(** A block found from position [i0] on lies inside [a]. *)
Lemma find_longest_match_in a b i0 :
  let '(i, _, k) := find_longest_match a b i0 in
  i0 ≤ i ∧ i - i0 + k ≤ String.length a.
Proof.
  revert i0. induction a as [|x a IH]; intros i0; [simpl; lia|].
  cbn [find_longest_match].
  pose proof (best_in_b_le (String x a) b 0) as Hk.
  destruct (best_in_b (String x a) b 0) as [j k].
  specialize (IH (S i0)).
  destruct (find_longest_match a b (S i0)) as [[i' j'] k'].
  destruct (k' <=? k)%nat; simpl in *; lia.
Qed.

Lemma length_take n s : String.length (take n s) ≤ n.
Proof.
  revert s. induction n as [|n IH]; intros [|c s]; simpl; try lia.
  specialize (IH s). lia.
Qed.

Lemma length_drop n s : String.length (Py.drop n s) = String.length s - n.
Proof.
  revert s. induction n as [|n IH]; intros [|c s]; simpl; try lia. apply IH.
Qed.

Lemma matches_fuel_irrelevant n fuel1 fuel2 a b :
  String.length a ≤ n →
  String.length a < fuel1 → String.length a < fuel2 →
  matches fuel1 a b = matches fuel2 a b.
Proof.
  revert fuel1 fuel2 a b.
  induction n as [|n IH]; intros [|fuel1] [|fuel2] a b Hn H1 H2; try lia.
  - simpl. destruct a; [|simpl in Hn; lia]. done.
  - cbn [matches].
    pose proof (find_longest_match_in a b 0) as Hin.
    destruct (find_longest_match a b 0) as [[i j] k].
    destruct (k =? 0)%nat eqn:Hk; [done|]. apply Nat.eqb_neq in Hk.
    pose proof (length_take i a) as Htake.
    pose proof (length_drop (i + k) a) as Hdrop.
    rewrite (IH fuel1 fuel2 (take i a)) by lia.
    by rewrite (IH fuel1 fuel2 (Py.drop (i + k) a)) by lia.
Qed.

(** The rounds [ratio] allows are enough: more of them change nothing. *)
Lemma matches_fuel fuel a b :
  String.length a < fuel →
  matches fuel a b = matches (S (String.length a)) a b.
Proof.
  intros. apply (matches_fuel_irrelevant (String.length a)); lia.
Qed.

End DifflibFacts.

(** ** The resolver of iros24.py *)

Section ResolverFacts.
Import Py Iros24.

Variable ratio : string → string → Q.
Variable quote : string → string.
Variable session_get : string → option string.
Variable findall_entries : string → option (list entry).

Local Abbreviation scan := (scan_entries ratio).
Local Abbreviation passes := (passes_both_gates ratio).
Local Abbreviation search :=
  (search_arxiv_for_paper ratio quote session_get findall_entries).

Lemma get_last_names_no_author : get_last_names (join ", " []) = ∅.
Proof. reflexivity. Qed.

(** One round of the loop, read through the two gates. *)
Lemma scan_entries_cons paper_title paper_authors min e rest :
  scan paper_title (get_last_names paper_authors) min (e :: rest) =
  if passes paper_title paper_authors min e then matched_fields e
  else scan paper_title (get_last_names paper_authors) min rest.
Proof.
  unfold passes_both_gates, title_gate, author_gate. simpl.
  destruct (Qltb _ min); simpl; [done|].
  destruct (entry_authors e) as [|a l] eqn:Hauthors.
  - rewrite get_last_names_no_author, bool_decide_eq_false_2; [done|].
    intros H. apply H. apply (right_absorb_L _ _).
  - destruct (decide (_ = ∅)) as [Hdisjoint|Hmeet].
    + by rewrite bool_decide_eq_false_2 by auto.
    + by rewrite bool_decide_eq_true_2.
Qed.

Lemma scan_entries_all_fail paper_title paper_authors min entries :
  Forall (λ e, passes paper_title paper_authors min e = false) entries →
  scan paper_title (get_last_names paper_authors) min entries = (None, None).
Proof.
  induction 1 as [|e rest He _ IH]; [done|].
  by rewrite scan_entries_cons, He.
Qed.

Lemma scan_entries_first_pass paper_title paper_authors min pre e post :
  Forall (λ e, passes paper_title paper_authors min e = false) pre →
  passes paper_title paper_authors min e = true →
  scan paper_title (get_last_names paper_authors) min (pre ++ e :: post)
  = matched_fields e.
Proof.
  intros Hpre He. induction Hpre as [|x pre Hx _ IH]; simpl app.
  - by rewrite scan_entries_cons, He.
  - by rewrite scan_entries_cons, Hx.
Qed.

Lemma scan_entries_skip paper_title paper_authors min pre e post :
  passes paper_title paper_authors min e = false →
  scan paper_title (get_last_names paper_authors) min (pre ++ e :: post)
  = scan paper_title (get_last_names paper_authors) min (pre ++ post).
Proof.
  intros He. induction pre as [|x pre IH]; simpl app.
  - by rewrite scan_entries_cons, He.
  - rewrite !scan_entries_cons. by rewrite IH.
Qed.

Lemma scan_entries_accepted paper_title paper_authors min entries :
  scan paper_title (get_last_names paper_authors) min entries = (None, None)
  ∨ Exists (λ e, passes paper_title paper_authors min e = true
                 ∧ scan paper_title (get_last_names paper_authors) min entries
                   = matched_fields e) entries.
Proof.
  induction entries as [|e rest IH]; [by left|].
  rewrite scan_entries_cons.
  destruct (passes paper_title paper_authors min e) eqn:He.
  - right. by constructor.
  - destruct IH as [IH|IH]; [by left|right]. by apply Exists_cons_tl.
Qed.

(** The result of a call is that of the loop over the entries of the
    feed, or no match when there is no feed. *)
Lemma search_result paper_title paper_authors max_results min :
  (search paper_title paper_authors max_results min).2 =
  match session_get (query_url quote paper_title max_results) with
  | Some text =>
      match findall_entries text with
      | Some entries =>
          scan paper_title (get_last_names paper_authors) min entries
      | None => (None, None)
      end
  | None => (None, None)
  end.
Proof.
  unfold search_arxiv_for_paper.
  destruct (session_get _) as [text|]; [|done].
  by destruct (findall_entries text).
Qed.

End ResolverFacts.

Section ResolverClaims.
Import Py Iros24.

Variable ratio : string → string → Q.
Variable quote : string → string.
Variable session_get : string → option string.
Variable findall_entries : string → option (list entry).

Local Abbreviation scan := (scan_entries ratio).
Local Abbreviation search :=
  (search_arxiv_for_paper ratio quote session_get findall_entries).

Lemma passes_both_gates_false paper_title paper_authors min e :
  title_gate ratio paper_title min e = false
  ∨ author_gate paper_authors e = false →
  passes_both_gates ratio paper_title paper_authors min e = false.
Proof.
  unfold passes_both_gates. intros [->| ->]; [done|]. apply andb_false_r.
Qed.

(** C1.  Both gates are hard.  A candidate whose title similarity is under
    the threshold plays no part in the outcome, whatever its authors; a
    candidate whose last names miss those of the paper plays no part,
    whatever its title.  What the loop returns is no match or the fields of
    a candidate that passes both gates, and when every candidate of the feed
    fails a gate the call returns [(None, None)]. *)
Theorem C1_resolver_hard_gates paper_title paper_authors max_results min :
  let names := get_last_names paper_authors in
  (∀ pre e post,
     title_gate ratio paper_title min e = false →
     scan paper_title names min (pre ++ e :: post)
     = scan paper_title names min (pre ++ post))
  ∧ (∀ pre e post,
       author_gate paper_authors e = false →
       scan paper_title names min (pre ++ e :: post)
       = scan paper_title names min (pre ++ post))
  ∧ (∀ entries,
       scan paper_title names min entries = (None, None)
       ∨ Exists (λ e, title_gate ratio paper_title min e = true
                      ∧ author_gate paper_authors e = true
                      ∧ scan paper_title names min entries = matched_fields e)
           entries)
  ∧ ((∀ text entries,
        session_get (query_url quote paper_title max_results) = Some text →
        findall_entries text = Some entries →
        Forall (λ e, title_gate ratio paper_title min e = false
                     ∨ author_gate paper_authors e = false) entries) →
     (search paper_title paper_authors max_results min).2 = (None, None)).
Proof.
  intros names. repeat split.
  - intros pre e post He. apply scan_entries_skip, passes_both_gates_false.
    by left.
  - intros pre e post He. apply scan_entries_skip, passes_both_gates_false.
    by right.
  - intros entries.
    destruct (scan_entries_accepted ratio paper_title paper_authors min entries)
      as [Hnone|Hsome]; [by left|right].
    eapply Exists_impl; [exact Hsome|]. simpl.
    intros e [[Ht Ha]%andb_prop Hr]. auto.
  - intros Hfeed. rewrite search_result.
    destruct (session_get _) as [text|] eqn:Hget; [|done].
    destruct (findall_entries text) as [entries|] eqn:Hparse; [|done].
    apply scan_entries_all_fail.
    eapply Forall_impl; [exact (Hfeed text entries eq_refl Hparse)|]. simpl.
    intros e. apply passes_both_gates_false.
Qed.

(** C5.  The loop returns at the first candidate, in the order of the
    feed, that passes both gates -- its PDF link and its abstract --
    whichever candidates follow it, and so also when a later one passes
    both gates with a title closer to the paper's. *)
Theorem C5_first_passing_candidate paper_title paper_authors min pre e post :
  Forall (λ x, passes_both_gates ratio paper_title paper_authors min x = false)
    pre →
  passes_both_gates ratio paper_title paper_authors min e = true →
  scan paper_title (get_last_names paper_authors) min (pre ++ e :: post)
  = (find_pdf_url (entry_links e), strip <$> entry_summary e).
Proof. apply scan_entries_first_pass. Qed.

Lemma get_last_names_blank authors_str :
  all_chars (λ c, isspace c || Ascii.eqb c ",") authors_str = true →
  get_last_names authors_str = ∅.
Proof.
  intros H. unfold get_last_names.
  pose proof (split_on_whitespace "," authors_str H) as Hpieces.
  generalize (∅ : gset string).
  induction Hpieces as [|w ws Hw _ IH]; intros acc; simpl; [done|].
  rewrite (strip_whitespace w Hw). simpl. apply IH.
Qed.

(** C10.  An author string made of blanks and commas only yields no last
    name; no candidate can then pass the author gate, and the call returns
    [(None, None)] for every feed, threshold and similarity measure. *)
Theorem C10_blank_authors_never_match paper_title paper_authors max_results min :
  all_chars (λ c, isspace c || Ascii.eqb c ",") paper_authors = true →
  get_last_names paper_authors = ∅
  ∧ (∀ e, author_gate paper_authors e = false)
  ∧ (search paper_title paper_authors max_results min).2 = (None, None).
Proof.
  intros Hblank. pose proof (get_last_names_blank _ Hblank) as Hnames.
  assert (Hgate : ∀ e, author_gate paper_authors e = false).
  { intros e. unfold author_gate. rewrite Hnames.
    apply bool_decide_eq_false_2. intros Hne. apply Hne.
    apply (left_absorb_L _ _). }
  repeat split; [done|done|].
  rewrite search_result.
  destruct (session_get _) as [text|]; [|done].
  destruct (findall_entries text) as [entries|]; [|done].
  apply scan_entries_all_fail, Forall_forall. intros e _.
  apply passes_both_gates_false. by right.
Qed.

(** C7 (as amended).  The three-second pause comes after a request that
    returned, and then whatever the response holds -- a feed that does not
    parse, no acceptable candidate, or a match.  A request that fails ends
    the call at once: [(None, None)] with no pause. *)
Theorem C7_delay_after_answered_request paper_title paper_authors max_results min :
  let url := query_url quote paper_title max_results in
  (∀ text, session_get url = Some text →
     (search paper_title paper_authors max_results min).1
     = [HttpGet url; Sleep 3])
  ∧ (session_get url = None →
     search paper_title paper_authors max_results min
     = ([HttpGet url], (None, None))).
Proof.
  intros url. unfold search_arxiv_for_paper. fold url. split.
  - intros text ->. by destruct (findall_entries text).
  - by intros ->.
Qed.

End ResolverClaims.

(** The end-to-end scenario of section 8: the candidate whose title
    differs by case and punctuation only, and which shares two last names,
    is resolved to its PDF link and its stripped abstract. *)
Example end_to_end_scenario :
  Iros24.search_arxiv_for_paper Difflib.ratio Fixtures.no_quote Fixtures.online
    (Fixtures.feed_of [Fixtures.namesake; Fixtures.resnet])
    "Deep Residual Learning" "He, Zhang" 5 (8 # 10)
  = ([Iros24.HttpGet
        "http://export.arxiv.org/api/query?search_query=ti:Deep Residual Learning&max_results=5";
      Iros24.Sleep 3],
     (Some "http://arxiv.org/pdf/1512.03385v1",
      Some "Deeper neural networks are more difficult to train.")).
Proof. vm_compute. reflexivity. Qed.

Lemma C1_resolver_hard_gates_witness :
  (Iros24.search_arxiv_for_paper Difflib.ratio Fixtures.no_quote Fixtures.online
     (Fixtures.feed_of [Fixtures.namesake; Fixtures.other_work])
     "Deep Residual Learning" "He, Zhang" 5 (8 # 10)).2 = (None, None).
Proof.
  apply (C1_resolver_hard_gates Difflib.ratio Fixtures.no_quote Fixtures.online
           (Fixtures.feed_of [Fixtures.namesake; Fixtures.other_work])).
  intros text entries _ [= <-].
  constructor; [right|constructor; [left|constructor]];
    vm_compute; reflexivity.
Defined.

Lemma C5_first_passing_candidate_witness :
  Iros24.scan_entries Difflib.ratio "Deep Residual Learning"
    (Iros24.get_last_names "He, Zhang") (8 # 10)
    ([Fixtures.namesake; Fixtures.other_work]
       ++ Fixtures.resnet_draft :: [Fixtures.resnet])
  = (Some "http://arxiv.org/pdf/1512.00001v1", Some "A draft.")
  ∧ Iros24.passes_both_gates Difflib.ratio "Deep Residual Learning" "He, Zhang"
      (8 # 10) Fixtures.resnet = true
  ∧ (Iros24.calculate_title_similarity Difflib.ratio "Deep Residual Learning"
       (Iros24.entry_title Fixtures.resnet_draft)
     < Iros24.calculate_title_similarity Difflib.ratio "Deep Residual Learning"
         (Iros24.entry_title Fixtures.resnet))%Q.
Proof.
  split; [|split].
  - apply (C5_first_passing_candidate Difflib.ratio "Deep Residual Learning"
             "He, Zhang" (8 # 10) [Fixtures.namesake; Fixtures.other_work]
             Fixtures.resnet_draft [Fixtures.resnet]).
    + constructor; [|constructor; [|constructor]]; vm_compute; reflexivity.
    + vm_compute; reflexivity.
  - vm_compute; reflexivity.
  - vm_compute; reflexivity.
Defined.

Lemma C10_blank_authors_never_match_witness :
  Iros24.get_last_names " , ,, " = ∅
  ∧ (∀ e, Iros24.author_gate " , ,, " e = false)
  ∧ (Iros24.search_arxiv_for_paper Difflib.ratio Fixtures.no_quote
       Fixtures.online (Fixtures.feed_of [Fixtures.resnet])
       "Deep Residual Learning" " , ,, " 5 (8 # 10)).2 = (None, None).
Proof.
  apply (C10_blank_authors_never_match Difflib.ratio Fixtures.no_quote
           Fixtures.online (Fixtures.feed_of [Fixtures.resnet])).
  vm_compute; reflexivity.
Defined.

Lemma C7_delay_after_answered_request_witness :
  (Iros24.search_arxiv_for_paper Difflib.ratio Fixtures.no_quote Fixtures.online
     (Fixtures.feed_of [Fixtures.resnet])
     "Deep Residual Learning" "He, Zhang" 5 (8 # 10)).1
  = [Iros24.HttpGet
       (Iros24.query_url Fixtures.no_quote "Deep Residual Learning" 5);
     Iros24.Sleep 3].
Proof.
  apply (proj1 (C7_delay_after_answered_request Difflib.ratio Fixtures.no_quote
                  Fixtures.online (Fixtures.feed_of [Fixtures.resnet])
                  "Deep Residual Learning" "He, Zhang" 5 (8 # 10)) "<feed/>").
  reflexivity.
Defined.

(** C7, as first stated, fails: when the request raises, the call returns
    before the pause. *)
Lemma C7_no_delay_after_failed_request :
  Iros24.Sleep 3
  ∉ (Iros24.search_arxiv_for_paper Difflib.ratio Fixtures.no_quote
       Fixtures.offline (Fixtures.feed_of [Fixtures.resnet])
       "Deep Residual Learning" "He, Zhang" 5 (8 # 10)).1.
Proof. vm_compute. intros H. repeat (inversion_clear H as [|? ? ? H']; rename H' into H). Qed.

(** ** The retrying session of cvpr.py *)

Section RetryFacts.
Import Py Cvpr.

Lemma is_retry_increment r a b : is_retry (increment r a) b = is_retry r b.
Proof. by destruct a, b. Qed.

Lemma total_increment r a : total (increment r a) = (total r - 1)%Z.
Proof. by destruct a. Qed.

(** While no class budget is below the overall one, the overall budget
    decides. *)
Lemma is_exhausted_total r :
  (total r ≤ read r)%Z → (total r ≤ connect r)%Z →
  is_exhausted r = bool_decide (total r < 0)%Z.
Proof.
  intros Hr Hc. unfold is_exhausted.
  rewrite !Z.min_l by lia.
  destruct (Z.ltb_spec (total r) 0);
    [by rewrite bool_decide_eq_true_2 | by rewrite bool_decide_eq_false_2 by lia].
Qed.

Lemma send_always_fails fuel transport i r :
  always_fails r transport →
  (0 ≤ total r)%Z → (total r ≤ read r)%Z → (total r ≤ connect r)%Z →
  Z.to_nat (total r) < fuel →
  send fuel transport i r = (i + Z.to_nat (total r) + 1, Raise MaxRetryError).
Proof.
  revert i r. induction fuel as [|fuel IH]; intros i r Hfail H0 Hr Hc Hfuel;
    [lia|].
  simpl. pose proof (Hfail i) as Hi.
  assert (Hagain :
    (let r' := increment r (transport i) in
     if is_exhausted r' then (S i, Raise MaxRetryError)
     else send fuel transport (S i) r')
    = (i + Z.to_nat (total r) + 1, Raise MaxRetryError : outcome (Z * string))).
  { simpl. rewrite is_exhausted_total;
      [|destruct (transport i); simpl; lia..].
    rewrite total_increment. case_bool_decide as Hlast.
    - f_equal. lia.
    - rewrite IH.
      + rewrite total_increment. f_equal. lia.
      + intros j. rewrite is_retry_increment. apply Hfail.
      + rewrite total_increment. lia.
      + destruct (transport i); simpl; lia.
      + destruct (transport i); simpl; lia.
      + rewrite total_increment. lia. }
  destruct (transport i) as [| |code body] eqn:Ha; try exact Hagain.
  rewrite Hi. exact Hagain.
Qed.

(** The rounds [RetryingSession_get] allows are enough on every transport:
    more of them change nothing. *)
Lemma send_fuel fuel transport i r :
  Z.to_nat (total r) < fuel →
  send fuel transport i r = send (S (Z.to_nat (total r))) transport i r.
Proof.
  revert i r. induction fuel as [|fuel IH]; intros i r Hfuel; [lia|].
  assert (Hagain :
    (let r' := increment r (transport i) in
     if is_exhausted r' then (S i, Raise MaxRetryError : outcome (Z * string))
     else send fuel transport (S i) r')
    = (let r' := increment r (transport i) in
       if is_exhausted r' then (S i, Raise MaxRetryError)
       else send (Z.to_nat (total r)) transport (S i) r')).
  { simpl. destruct (is_exhausted (increment r (transport i))) eqn:Hex; [done|].
    assert (0 ≤ total (increment r (transport i)))%Z as Hpos.
    { unfold is_exhausted in Hex. apply Z.ltb_ge in Hex. lia. }
    rewrite total_increment in Hpos.
    rewrite IH by (rewrite total_increment; lia).
    rewrite total_increment. f_equal. lia. }
  simpl. destruct (transport i) as [| |code body]; try exact Hagain.
  destruct (is_retry r (Status code body)); [exact Hagain|done].
Qed.

(** C6.  Against a transport whose every attempt fails -- the connection
    is refused, the read fails, or the status is one of the forced ones, in
    any mixture -- a session built with [retries = R] makes exactly [R + 1]
    attempts and then raises to its caller. *)
Theorem C6_retry_bound retries backoff statuses transport :
  (0 ≤ retries)%Z →
  always_fails (max_retries (RetryingSession_init retries backoff statuses))
    transport →
  RetryingSession_get (RetryingSession_init retries backoff statuses) transport
  = (Z.to_nat (retries + 1), Raise MaxRetryError).
Proof.
  intros Hretries Hfail. unfold RetryingSession_get.
  rewrite send_always_fails; simpl; try lia; [|done].
  f_equal. lia.
Qed.

End RetryFacts.

Lemma C6_retry_bound_witness :
  Cvpr.RetryingSession_get Cvpr.default_session Fixtures.flaky_for_ever
  = (4, Py.Raise Py.MaxRetryError).
Proof.
  apply (C6_retry_bound 3 (3 # 2) [500; 502; 503; 504]%Z Fixtures.flaky_for_ever).
  - lia.
  - intros [|[|i]]; vm_compute; reflexivity.
Defined.

(** ** Ordered dictionaries *)

Section DictFacts.
Import Py.
Context {V : Type}.
Implicit Types (k : key) (v : V) (d : dict V).

Lemma dict_get_set_eq k v d : dict_get k (dict_set k v d) = Some v.
Proof.
  induction d as [|[k' v'] d IH]; simpl.
  - by rewrite decide_True.
  - destruct (decide (k = k')) as [->|Hne]; simpl.
    + by rewrite decide_True.
    + by rewrite decide_False.
Qed.

Lemma dict_get_set_ne k k' v d :
  k ≠ k' → dict_get k' (dict_set k v d) = dict_get k' d.
Proof.
  intros Hne. induction d as [|[k'' v''] d IH]; simpl.
  - by rewrite decide_False by done.
  - destruct (decide (k = k'')) as [->|Hne']; simpl.
    + by rewrite !decide_False by done.
    + by rewrite IH.
Qed.

(** Assigning to the same key again changes nothing, positions included. *)
Lemma dict_set_idem k v d : dict_set k v (dict_set k v d) = dict_set k v d.
Proof.
  induction d as [|[k' v'] d IH]; simpl.
  - by rewrite decide_True.
  - destruct (decide (k = k')) as [->|Hne]; simpl.
    + by rewrite decide_True.
    + by rewrite decide_False, IH.
Qed.

(** An assignment to a key that is present keeps the keys and their
    order; otherwise the key goes to the end. *)
Lemma dict_set_keys k v d :
  (dict_set k v d).*1 = if dict_in k d then d.*1 else d.*1 ++ [k].
Proof.
  unfold dict_in. induction d as [|[k' v'] d IH]; [done|].
  cbn [dict_set dict_get].
  destruct (decide (k = k')) as [->|Hne]; [done|].
  rewrite !fmap_cons, IH. by destruct (dict_get k d).
Qed.

End DictFacts.

(** ** The store *)

Section StoreFacts.
Import Py Store.
Context {Paper : Type}.
Variable from_dict : value → outcome Paper.
Variable to_dict : Paper → value.
Variable identity : Paper → value.
Variable json_load : string → option value.
Variable json_dump : value → string.

Lemma append_neq s t : t ≠ "" → s +:+ t ≠ s.
Proof.
  intros Ht H. apply Ht. induction s as [|c s IH]; [done|].
  apply IH. by injection H.
Qed.

Lemma backup_name_fresh (self : PaperDatabase (Paper:=Paper)) now :
  backup_name self now ≠ filename self.
Proof. unfold backup_name. by apply append_neq. Qed.

Lemma load_loop_app good rest ps :
  load_loop from_dict identity (good ++ rest) ps =
  match load_loop from_dict identity good ps with
  | (ps', None) => load_loop from_dict identity rest ps'
  | stopped => stopped
  end.
Proof.
  revert ps. induction good as [|x good IH]; intros ps; simpl; [done|].
  destruct (from_dict x) as [paper|e]; [|done].
  destruct (hash (identity paper)) as [k|e]; [|done]. apply IH.
Qed.

(** A failed load: the file is moved to the backup name with its bytes,
    the constructor returns, and the mapping is the one the loop had
    reached. *)
Lemma load_failure guarded now (self : PaperDatabase (Paper:=Paper)) fs bytes ps e :
  files fs !! filename self = Some bytes →
  try_load from_dict identity json_load bytes (papers self) = (ps, Some e) →
  ∃ fs',
    _load_existing_papers from_dict identity json_load guarded now self fs
    = Return (set_papers self ps, fs')
    ∧ files fs' !! filename self = None
    ∧ files fs' !! backup_name self now = Some bytes
    ∧ (∀ p, p ≠ filename self → p ≠ backup_name self now →
         files fs' !! p = files fs !! p).
Proof.
  intros Hfile Hload. unfold _load_existing_papers.
  set (fs0 := if os_path_exists _ fs then fs else os_makedirs _ fs).
  assert (Hfiles : files fs0 = files fs) by (unfold fs0; by destruct os_path_exists).
  rewrite Hfiles, Hfile, Hload.
  rewrite bool_decide_eq_true_2 by eauto. rewrite andb_false_r.
  unfold os_rename. rewrite Hfiles, Hfile. simpl.
  eexists. split; [reflexivity|]. simpl.
  pose proof (backup_name_fresh self now) as Hfresh.
  split; [|split].
  - rewrite lookup_insert_ne by done. apply lookup_delete_eq.
  - apply lookup_insert_eq.
  - intros p Hp Hb. rewrite lookup_insert_ne by done.
    by rewrite lookup_delete_ne.
Qed.

Lemma try_load_undecodable bytes ps ps' e :
  json_load bytes = None →
  try_load from_dict identity json_load bytes ps = (ps', Some e) → ps' = ps.
Proof. unfold try_load. intros ->. congruence. Qed.

Lemma try_load_not_iterable bytes data ps ps' e e' :
  json_load bytes = Some data → iter data = Raise e' →
  try_load from_dict identity json_load bytes ps = (ps', Some e) → ps' = ps.
Proof. unfold try_load. intros -> ->. congruence. Qed.

Lemma try_load_prefix bytes good bad rest ps0 ps ps' e :
  json_load bytes = Some (VList (good ++ bad :: rest)) →
  load_loop from_dict identity good ps0 = (ps, None) →
  bad_element from_dict identity bad →
  try_load from_dict identity json_load bytes ps0 = (ps', Some e) → ps' = ps.
Proof.
  unfold try_load. intros -> Hgood Hbad. simpl.
  rewrite load_loop_app, Hgood. simpl.
  destruct Hbad as [[e' ->]|(paper & e' & -> & ->)]; congruence.
Qed.

(** One [save_paper], when the identity key hashes. *)
Lemma save_paper_returns paper k (self : PaperDatabase (Paper:=Paper)) fs :
  hash (identity paper) = Return k →
  save_paper to_dict identity json_dump paper self fs
  = Return (set_papers self (dict_set k paper (papers self)),
            write_file (filename self)
              (json_dump (VList (to_dict <$> dict_values
                                   (dict_set k paper (papers self))))) fs).
Proof. unfold save_paper. by intros ->. Qed.

Lemma write_file_idem p bytes fs :
  write_file p bytes (write_file p bytes fs) = write_file p bytes fs.
Proof. unfold write_file. simpl. by rewrite insert_insert_eq. Qed.

Lemma save_paper_twice paper k (self : PaperDatabase (Paper:=Paper)) fs self1 fs1 :
  hash (identity paper) = Return k →
  save_paper to_dict identity json_dump paper self fs = Return (self1, fs1) →
  save_paper to_dict identity json_dump paper self1 fs1 = Return (self1, fs1).
Proof.
  intros Hk. rewrite (save_paper_returns _ _ _ _ Hk). intros [= <- <-].
  rewrite (save_paper_returns _ _ _ _ Hk). unfold set_papers. simpl.
  by rewrite dict_set_idem, write_file_idem.
Qed.

(** Construction over a file whose load fails. *)
Lemma init_failure guarded now output_dir filename fs bytes ps e :
  files fs !! filename = Some bytes →
  try_load from_dict identity json_load bytes [] = (ps, Some e) →
  ∃ db fs',
    __init__ from_dict identity json_load guarded now output_dir filename fs
    = Return (db, fs')
    ∧ files fs' !! filename = None
    ∧ files fs' !! (filename +:+ ".bak." +:+ now) = Some bytes
    ∧ papers db = ps
    ∧ (json_load bytes = None → ps = [])
    ∧ (∀ data e', json_load bytes = Some data → iter data = Raise e' → ps = [])
    ∧ (∀ good bad rest ps_good,
         json_load bytes = Some (VList (good ++ bad :: rest)) →
         load_loop from_dict identity good [] = (ps_good, None) →
         bad_element from_dict identity bad →
         ps = ps_good).
Proof.
  intros Hfile Hload. unfold __init__.
  set (self := {| output_dir := output_dir; filename := filename; papers := [] |}).
  destruct (load_failure guarded now self fs bytes ps e Hfile Hload)
    as (fs' & Hinit & Hgone & Hbackup & _).
  exists (set_papers self ps), fs'. repeat split; try done.
  - intros Hjson. by eapply try_load_undecodable.
  - intros data e' Hjson Hiter. by eapply try_load_not_iterable.
  - intros good bad rest ps_good Hjson Hgood Hbad.
    by eapply try_load_prefix.
Qed.

End StoreFacts.

Section StoreClaims.
Import Py Store.

(** C8.  [save_paper] puts the record under its identity key -- replacing
    the record found there, in place, or appending a new key -- leaves every
    other key alone and rewrites the file with the whole mapping.  Saving the
    same record again returns the very same mapping and the very same file
    system: the second write stores the same bytes. *)
Theorem C8_upsert_idempotent json_dump paper k
    (db : PaperDatabase (Paper:=Cvpr.Paper)) fs :
  hash (Cvpr.title paper) = Return k →
  ∃ db1 fs1,
    Cvpr.save_paper json_dump paper db fs = Return (db1, fs1)
    ∧ Cvpr.save_paper json_dump paper db1 fs1 = Return (db1, fs1)
    ∧ dict_get k (papers db1) = Some paper
    ∧ (∀ k', k ≠ k' → dict_get k' (papers db1) = dict_get k' (papers db))
    ∧ (papers db1).*1
      = (if dict_in k (papers db) then (papers db).*1 else (papers db).*1 ++ [k])
    ∧ files fs1 !! filename db
      = Some (json_dump (VList (Cvpr.to_dict <$> dict_values (papers db1))))
    ∧ (∀ p, p ≠ filename db → files fs1 !! p = files fs !! p).
Proof.
  intros Hk. unfold Cvpr.save_paper.
  pose proof (save_paper_returns Cvpr.to_dict Cvpr.title json_dump paper k db fs Hk)
    as Hsave.
  eexists _, _. split; [exact Hsave|]. split; [|repeat split].
  - by apply (save_paper_twice _ _ _ _ k db fs).
  - apply dict_get_set_eq.
  - intros k' Hne. by apply dict_get_set_ne.
  - apply dict_set_keys.
  - simpl. apply lookup_insert_eq.
  - intros p Hp. simpl. by rewrite lookup_insert_ne.
Qed.

(** C2 (as amended).  When the load of an existing file raises -- the text
    does not decode, the document cannot be iterated, or an element is not a
    mapping with the required keys -- the constructor returns normally, the
    file is gone from its name and its bytes are under
    [<name>.bak.<timestamp>].  The mapping is the one the loop had reached:
    empty when the text does not decode, and otherwise the records of the
    elements that come before the first bad one.  Both for cvpr.py and for
    nature.py. *)
Theorem C2_load_failure_is_quarantined json_load now output_dir fs bytes :
  (∀ year ps e,
     let filename := os_path_join output_dir (Cvpr.basename year) in
     files fs !! filename = Some bytes →
     try_load Cvpr.from_dict Cvpr.title json_load bytes [] = (ps, Some e) →
     ∃ db fs',
       Cvpr.PaperDatabase_init json_load now output_dir year fs = Return (db, fs')
       ∧ files fs' !! filename = None
       ∧ files fs' !! (filename +:+ ".bak." +:+ now) = Some bytes
       ∧ papers db = ps
       ∧ (json_load bytes = None → ps = [])
       ∧ (∀ data e', json_load bytes = Some data → iter data = Raise e' → ps = [])
       ∧ (∀ good bad rest ps_good,
            json_load bytes = Some (VList (good ++ bad :: rest)) →
            load_loop Cvpr.from_dict Cvpr.title good [] = (ps_good, None) →
            bad_element Cvpr.from_dict Cvpr.title bad →
            ps = ps_good))
  ∧ (∀ name ps e,
       let filename := os_path_join output_dir name in
       files fs !! filename = Some bytes →
       try_load Nature.from_dict Nature.paper_id json_load bytes [] = (ps, Some e) →
       ∃ db fs',
         Nature.PaperDatabase_init json_load now output_dir name fs = Return (db, fs')
         ∧ files fs' !! filename = None
         ∧ files fs' !! (filename +:+ ".bak." +:+ now) = Some bytes
         ∧ papers db = ps
         ∧ (json_load bytes = None → ps = [])
         ∧ (∀ data e', json_load bytes = Some data → iter data = Raise e' → ps = [])
         ∧ (∀ good bad rest ps_good,
              json_load bytes = Some (VList (good ++ bad :: rest)) →
              load_loop Nature.from_dict Nature.paper_id good [] = (ps_good, None) →
              bad_element Nature.from_dict Nature.paper_id bad →
              ps = ps_good)).
Proof.
  split.
  - intros year ps e filename Hfile Hload.
    by apply (init_failure Cvpr.from_dict Cvpr.title json_load true now
                output_dir filename fs bytes ps e).
  - intros name ps e filename Hfile Hload.
    by apply (init_failure Nature.from_dict Nature.paper_id json_load false now
                output_dir filename fs bytes ps e).
Qed.

(** C3 (as amended).  In cvpr.py the test that lets [process_paper_element]
    return the stored record untouched is: abstract non-empty and PDF link
    non-empty; the arXiv link is not looked at.  In iros24.py the test that
    lets [main] skip a paper is: arXiv PDF link non-empty; the abstract is
    not looked at. *)
Theorem C3_skip_tests :
  (∀ p : Cvpr.Paper,
     Cvpr.has_all_data p = true
     ↔ truthy (Cvpr.abstract p) = true ∧ truthy (Cvpr.pdf_url p) = true)
  ∧ (∀ fetch_paper_details json_dump paper_count title_link db fs p,
       get_paper (join " " (split (strip (Cvpr.a_text title_link)))) db = Some p →
       Cvpr.process_paper_element fetch_paper_details json_dump paper_count
         (Some title_link) db fs
       = if Cvpr.has_all_data p then Return (Some p, db, fs)
         else match fetch_paper_details (Cvpr.a_href title_link) paper_count with
              | Some paper =>
                  '(db', fs') ← Cvpr.save_paper json_dump paper db fs;
                  Return (Some paper, db', fs')
              | None => Return (None, db, fs)
              end)
  ∧ (∀ existing : option Iros24.Paper,
       Iros24.already_resolved existing = true
       ↔ ∃ p, existing = Some p ∧ truthy (Iros24.arxiv_pdf p) = true)
  ∧ (∀ ratio quote session_get findall_entries json_dump no au ti db fs,
       Iros24.already_resolved (get_paper no db) = true →
       Iros24.main_step ratio quote session_get findall_entries json_dump
         (no, au, ti) db fs
       = ([], Return (db, fs))).
Proof.
  split; [|split; [|split]].
  - intros p. unfold Cvpr.has_all_data. apply andb_true_iff.
  - intros fetch json_dump paper_count title_link db fs p Hp.
    unfold Cvpr.process_paper_element, has_paper, dict_in.
    unfold get_paper in Hp |- *. rewrite Hp.
    by destruct (Cvpr.has_all_data p).
  - intros existing. split.
    + destruct existing as [p|]; simpl; [eauto|done].
    + by intros (p & -> & Hp).
  - intros ratio quote session_get findall_entries json_dump no au ti db fs H.
    unfold Iros24.main_step. by rewrite H.
Qed.

End StoreClaims.

Lemma C8_upsert_idempotent_witness :
  ∃ db1 fs1,
    Cvpr.save_paper Fixtures.dumps Fixtures.attention Fixtures.empty_cvpr_db
      (Fixtures.disk "dataset/cvpr25.json" "[]") = Py.Return (db1, fs1)
    ∧ Cvpr.save_paper Fixtures.dumps Fixtures.attention db1 fs1
      = Py.Return (db1, fs1).
Proof.
  destruct (C8_upsert_idempotent Fixtures.dumps Fixtures.attention
              (Py.KStr "Attention Is All You Need") Fixtures.empty_cvpr_db
              (Fixtures.disk "dataset/cvpr25.json" "[]"))
    as (db1 & fs1 & Hfirst & Hsecond & _).
  - reflexivity.
  - exists db1, fs1. split; assumption.
Defined.

Lemma C2_load_failure_is_quarantined_witness :
  ∃ db fs',
    Cvpr.PaperDatabase_init Fixtures.json_load "20250101_120000" "dataset" 2025
      (Fixtures.disk "dataset/cvpr25.json" Fixtures.truncated) = Py.Return (db, fs')
    ∧ Store.files fs' !! "dataset/cvpr25.json" = None
    ∧ Store.files fs' !! "dataset/cvpr25.json.bak.20250101_120000"
      = Some Fixtures.truncated
    ∧ Store.papers db = [].
Proof.
  destruct (proj1 (C2_load_failure_is_quarantined Fixtures.json_load
                     "20250101_120000" "dataset"
                     (Fixtures.disk "dataset/cvpr25.json" Fixtures.truncated)
                     Fixtures.truncated)
              2025%Z [] Py.JSONDecodeError)
    as (db & fs' & Hinit & Hgone & Hbackup & Hpapers & _).
  - vm_compute; reflexivity.
  - vm_compute; reflexivity.
  - exists db, fs'. repeat split; assumption.
Defined.

Lemma C3_skip_tests_witness :
  Cvpr.process_paper_element (λ _ _, None) Fixtures.dumps 1
    (Some {| Cvpr.a_text := "  Attention Is  All You Need ";
             Cvpr.a_href := "/content/attention.html" |})
    (Store.set_papers Fixtures.empty_cvpr_db
       [(Py.KStr "Attention Is All You Need", Fixtures.attention)])
    (Fixtures.disk "dataset/cvpr25.json" "[]")
  = Py.Return
      (Some Fixtures.attention,
       Store.set_papers Fixtures.empty_cvpr_db
         [(Py.KStr "Attention Is All You Need", Fixtures.attention)],
       Fixtures.disk "dataset/cvpr25.json" "[]").
Proof.
  apply (proj1 (proj2 C3_skip_tests) (λ _ _, None) Fixtures.dumps 1%Z
           {| Cvpr.a_text := "  Attention Is  All You Need ";
              Cvpr.a_href := "/content/attention.html" |}
           (Store.set_papers Fixtures.empty_cvpr_db
              [(Py.KStr "Attention Is All You Need", Fixtures.attention)])
           (Fixtures.disk "dataset/cvpr25.json" "[]") Fixtures.attention).
  vm_compute; reflexivity.
Defined.

(** C2, as first stated, fails: a file whose second element is bad is
    quarantined, yet the record read from its first element stays in the
    mapping. *)
Lemma C2_partial_load_is_kept :
  (Store.try_load Cvpr.from_dict Cvpr.title Fixtures.json_load
     Fixtures.second_record_bad []).2 = Some (Py.KeyError "title")
  ∧ match Cvpr.PaperDatabase_init Fixtures.json_load "20250101_120000"
            "dataset" 2025
            (Fixtures.disk "dataset/cvpr25.json" Fixtures.second_record_bad) with
    | Py.Return (db, fs') =>
        Store.files fs' !! "dataset/cvpr25.json.bak.20250101_120000"
        = Some Fixtures.second_record_bad
        ∧ Store.papers db
          = [(Py.KStr "Attention Is All You Need", Fixtures.attention)]
        ∧ Store.papers db ≠ []
    | Py.Raise _ => False
    end.
Proof. split; [vm_compute; reflexivity|]. vm_compute. by repeat split. Qed.

(** C3, as first stated, fails on both collectors: cvpr.py re-fetches a
    record that has an abstract and an arXiv link but no PDF link, and
    iros24.py skips a record that has a PDF link but no abstract. *)
Lemma C3_arxiv_link_alone_is_not_enough :
  (Spec.isComplete (Cvpr.abstract Fixtures.preprint_only)
     (Cvpr.arxiv_url Fixtures.preprint_only)
     (Cvpr.pdf_url Fixtures.preprint_only) = true
   ∧ Cvpr.has_all_data Fixtures.preprint_only = false)
  ∧ (Spec.isComplete (Iros24.arxiv_abstract Fixtures.pdf_without_abstract)
       Py.VNone (Iros24.arxiv_pdf Fixtures.pdf_without_abstract) = false
     ∧ Iros24.already_resolved (Some Fixtures.pdf_without_abstract) = true).
Proof. by vm_compute. Qed.

(** ** The extraction chain of nature.py and the Crossref fallback *)

Section ExtractionFacts.
Import Py Nature.

Variable landing_page : string → option page.
Variable crossref_json : string → option value.
Variable json_loads : string → option value.
Variable soup_text : string → string.
Variable sub_jats : string → string.

Local Abbreviation extract := (extract_abstract json_loads soup_text).
Local Abbreviation alone := (strategy_alone json_loads soup_text).
Local Abbreviation fetch :=
  (fetch_doi_abstract landing_page crossref_json json_loads soup_text sub_jats).

Lemma extract_abstract_cons soup pattern rest :
  extract soup (pattern :: rest) =
  match alone soup pattern with
  | Some abstract_text => Some abstract_text
  | None => extract soup rest
  end.
Proof.
  unfold strategy_alone. simpl.
  by destruct (loop_body json_loads soup_text soup pattern).
Qed.

Lemma extract_abstract_first_set soup patterns :
  extract soup patterns = first_set (alone soup <$> patterns).
Proof.
  induction patterns as [|pattern rest IH]; [done|].
  rewrite extract_abstract_cons, fmap_cons. simpl.
  by destruct (alone soup pattern).
Qed.

Lemma first_set_None values :
  first_set values = None ↔ Forall (λ v, v = None) values.
Proof.
  induction values as [|[v|] rest IH]; simpl.
  - split; [constructor|done].
  - split; [done|]. by inversion 1.
  - rewrite IH. split; [by constructor|]. by inversion 1.
Qed.

Lemma extract_abstract_None soup patterns :
  extract soup patterns = None
  ↔ Forall (λ pattern, alone soup pattern = None) patterns.
Proof. by rewrite extract_abstract_first_set, first_set_None, Forall_fmap. Qed.

Lemma length_app s t :
  String.length (s +:+ t) = String.length s + String.length t.
Proof. induction s as [|c s IH]; simpl; [done|]. by rewrite IH. Qed.

(** The two addresses of a call are never the same one. *)
Lemma landing_url_not_crossref doi_or_url :
  landing_url doi_or_url ≠ crossref_url doi_or_url.
Proof.
  unfold landing_url, crossref_url.
  destruct (startswith "http" doi_or_url).
  - intros H%(f_equal String.length). rewrite length_app in H. simpl in H. lia.
  - intros H. injection H as H. discriminate.
Qed.

(** [fetch_doi_abstract] on a page that was fetched and declares an
    original paper. *)
Lemma fetch_after_extraction doi_or_url soup :
  landing_page (landing_url doi_or_url) = Some soup →
  declares_original soup = true →
  fetch doi_or_url =
  match extract soup ABSTRACT_PATTERNS with
  | Some abstract_text =>
      ([HttpGet (landing_url doi_or_url)],
       if is_empty abstract_text then None
       else Some (abstract_text, page_authors json_loads soup))
  | None =>
      if startswith "10." doi_or_url
      then ([HttpGet (landing_url doi_or_url); HttpGet (crossref_url doi_or_url)],
            match crossref_abstract crossref_json soup_text sub_jats doi_or_url with
            | Some abstract_text =>
                if is_empty abstract_text then None
                else Some (abstract_text, page_authors json_loads soup)
            | None => None
            end)
      else ([HttpGet (landing_url doi_or_url)], None)
  end.
Proof.
  unfold fetch_doi_abstract, landing_url, declares_original, page_authors.
  intros -> ->. cbn [negb].
  destruct (extract soup ABSTRACT_PATTERNS) as [t|].
  - cbn. by destruct (is_empty t).
  - destruct (startswith "10." doi_or_url); [|done].
    destruct (crossref_abstract _ _ _ _) as [t|]; [|done].
    cbn. by destruct (is_empty t).
Qed.

(** Without such a page there is one request and no result. *)
Lemma fetch_without_page doi_or_url :
  match landing_page (landing_url doi_or_url) with
  | Some soup => declares_original soup = false
  | None => True
  end →
  fetch doi_or_url = ([HttpGet (landing_url doi_or_url)], None).
Proof.
  unfold fetch_doi_abstract, landing_url, declares_original.
  destruct (landing_page _) as [soup|]; [|done]. by intros ->.
Qed.

(** When the Crossref address is requested. *)
Lemma crossref_requested doi_or_url :
  HttpGet (crossref_url doi_or_url) ∈ (fetch doi_or_url).1 →
  ∃ soup,
    landing_page (landing_url doi_or_url) = Some soup
    ∧ declares_original soup = true
    ∧ extract soup ABSTRACT_PATTERNS = None
    ∧ startswith "10." doi_or_url = true.
Proof.
  pose proof (landing_url_not_crossref doi_or_url) as Hne.
  assert (Hone : HttpGet (crossref_url doi_or_url)
                 ∉ [HttpGet (landing_url doi_or_url)]).
  { intros Hin%list_elem_of_singleton. congruence. }
  destruct (landing_page (landing_url doi_or_url)) as [soup|] eqn:Hpage.
  - destruct (declares_original soup) eqn:Horig.
    + rewrite (fetch_after_extraction _ _ Hpage Horig).
      destruct (extract soup ABSTRACT_PATTERNS) as [t|] eqn:Hextract; [done|].
      destruct (startswith "10." doi_or_url) eqn:Hdoi; [|done].
      intros _. by exists soup.
    + rewrite fetch_without_page; [done|]. by rewrite Hpage.
  - rewrite fetch_without_page; [done|]. by rewrite Hpage.
Qed.

End ExtractionFacts.

Section ScienceFacts.
Import Py Science.

Variable search_doi : string → option string.
Variable crossref_json : string → option value.
Variable soup_text : string → string.
Variable str : value → string.

Lemma read_message_quality data abstract authors :
  read_message soup_text str data = Return (Some (abstract, authors)) →
  (200 ≤ len abstract)%nat ∧ authors ≠ [].
Proof.
  unfold read_message, mbind, outcome_bind, bind.
  repeat (case_match; try done).
  intros [= <- <-].
  match goal with
  | H : _ || _ || _ = false |- _ =>
      apply orb_false_elim in H as [[_ Hau]%orb_false_elim Hlen]
  end.
  split.
  - apply Nat.ltb_ge in Hlen. exact Hlen.
  - by apply bool_decide_eq_false in Hau.
Qed.

Lemma fetch_doi_abstract_quality doi_or_url abstract authors :
  fetch_doi_abstract search_doi crossref_json soup_text str doi_or_url
  = Return (Some (abstract, authors)) →
  (200 ≤ len abstract)%nat ∧ authors ≠ [].
Proof.
  unfold fetch_doi_abstract.
  destruct (search_doi doi_or_url) as [doi|]; [|done].
  destruct (crossref_json _) as [data|]; [|done].
  destruct (read_message soup_text str data) as [r|e] eqn:Hread.
  - intros [= ->]. by eapply read_message_quality.
  - by destruct e.
Qed.

End ScienceFacts.

Section ExtractionClaims.
Import Py.

Variable landing_page : string → option Nature.page.
Variable crossref_json : string → option value.
Variable json_loads : string → option value.
Variable soup_text : string → string.
Variable sub_jats : string → string.
Variable search_doi : string → option string.
Variable str : value → string.

Local Abbreviation extract := (Nature.extract_abstract json_loads soup_text).
Local Abbreviation alone := (Nature.strategy_alone json_loads soup_text).
Local Abbreviation fetch :=
  (Nature.fetch_doi_abstract landing_page crossref_json json_loads soup_text
     sub_jats).

(** The loop of [fetch_doi_abstract], strategy by strategy: it tries the
    patterns in the declared order -- JSON-LD block, description tag,
    visible block -- and stops at the first strategy that assigns
    [abstract_text]; a value assigned by the JSON-LD strategy is the result
    whatever the later strategies would assign, and [abstract_text] stays
    unset only when no strategy assigns anything. *)
Lemma loop_stops_at_first_assignment soup :
  Nature.ABSTRACT_PATTERNS.*2 = [Nature.json_ld; Nature.meta; Nature.html]
  ∧ (∀ patterns,
       extract soup patterns = Nature.first_set (alone soup <$> patterns))
  ∧ (∀ selector rest abstract_text,
       Nature.ABSTRACT_PATTERNS = (selector, Nature.json_ld) :: rest →
       alone soup (selector, Nature.json_ld) = Some abstract_text →
       extract soup Nature.ABSTRACT_PATTERNS = Some abstract_text)
  ∧ (extract soup Nature.ABSTRACT_PATTERNS = None
     ↔ Forall (λ pattern, alone soup pattern = None) Nature.ABSTRACT_PATTERNS)
  ∧ (∀ doi_or_url abstract_text,
       landing_page (Nature.landing_url doi_or_url) = Some soup →
       Nature.declares_original soup = true →
       extract soup Nature.ABSTRACT_PATTERNS = Some abstract_text →
       fetch doi_or_url
       = ([Nature.HttpGet (Nature.landing_url doi_or_url)],
          if is_empty abstract_text then None
          else Some (abstract_text, Nature.page_authors json_loads soup))).
Proof.
  split; [done|]. split; [apply extract_abstract_first_set|].
  split; [|split].
  - intros selector rest abstract_text -> Hld.
    by rewrite extract_abstract_cons, Hld.
  - apply extract_abstract_None.
  - intros doi_or_url abstract_text Hpage Horig Hextract.
    by rewrite (fetch_after_extraction _ _ _ _ _ _ _ Hpage Horig), Hextract.
Qed.

(** Away from blank values the loop is the chain of section 4.4: when no
    strategy on its own assigns the empty text, the loop yields the first
    non-empty value, in the declared order. *)
Lemma loop_yields_first_non_empty soup patterns :
  Forall (λ pattern, alone soup pattern ≠ Some "") patterns →
  extract soup patterns = Spec.first_non_empty (alone soup <$> patterns).
Proof.
  rewrite extract_abstract_first_set.
  induction 1 as [|pattern patterns Hpattern _ IH]; [done|].
  rewrite fmap_cons. cbn [Nature.first_set Spec.first_non_empty].
  destruct (alone soup pattern) as [[|c t]|]; [done|done|exact IH].
Qed.

(** C9 (as amended).  In nature.py the Crossref request is made only after
    the page was fetched and no page-level strategy assigned a value (and
    the argument is a bare DOI); its text is then accepted as soon as it is
    non-empty -- there is no minimum length there.  The minimum length is in
    science.py, where Crossref is the only source: an abstract shorter than
    200 characters, or one that comes without authors, is never returned. *)
Theorem C9_crossref_fallback doi_or_url :
  (Nature.HttpGet (Nature.crossref_url doi_or_url) ∈ (fetch doi_or_url).1 →
   ∃ soup,
     landing_page (Nature.landing_url doi_or_url) = Some soup
     ∧ Forall (λ pattern, alone soup pattern = None) Nature.ABSTRACT_PATTERNS
     ∧ startswith "10." doi_or_url = true)
  ∧ (∀ soup abstract_text,
       landing_page (Nature.landing_url doi_or_url) = Some soup →
       Nature.declares_original soup = true →
       extract soup Nature.ABSTRACT_PATTERNS = None →
       startswith "10." doi_or_url = true →
       Nature.crossref_abstract crossref_json soup_text sub_jats doi_or_url
       = Some abstract_text →
       abstract_text ≠ "" →
       (fetch doi_or_url).2
       = Some (abstract_text, Nature.page_authors json_loads soup))
  ∧ (∀ abstract authors,
       Science.fetch_doi_abstract search_doi crossref_json soup_text str
         doi_or_url = Return (Some (abstract, authors)) →
       (200 ≤ len abstract)%nat ∧ authors ≠ []).
Proof.
  split; [|split].
  - intros Hin.
    destruct (crossref_requested _ _ _ _ _ _ Hin)
      as (soup & Hpage & _ & Hextract & Hdoi).
    exists soup. repeat split; [done| |done].
    by apply extract_abstract_None.
  - intros soup abstract_text Hpage Horig Hextract Hdoi Hcr Hne.
    rewrite (fetch_after_extraction _ _ _ _ _ _ _ Hpage Horig).
    rewrite Hextract, Hdoi, Hcr. simpl. by destruct abstract_text.
  - intros abstract authors. apply fetch_doi_abstract_quality.
Qed.

End ExtractionClaims.

Lemma C9_crossref_fallback_witness :
  (Nature.fetch_doi_abstract (Fixtures.serve Fixtures.bare_page)
     Fixtures.crossref_short Fixtures.json_loads Fixtures.plain_text
     Fixtures.no_jats "10.1038/x").2
  = Some ("Short.", Py.VList []).
Proof.
  apply (proj1 (proj2
           (C9_crossref_fallback (Fixtures.serve Fixtures.bare_page)
              Fixtures.crossref_short Fixtures.json_loads Fixtures.plain_text
              Fixtures.no_jats Fixtures.whole_as_doi Fixtures.no_str
              "10.1038/x"))
           Fixtures.bare_page "Short.");
    [vm_compute; reflexivity..|discriminate].
Defined.

(** C4.  The chain is to return the first non-empty value, and the guards
    [if candidate:] and [if content:] are there to pass over empty ones; but
    they test the value before it is stripped.  On a page declaring an
    original paper, with no JSON-LD block, a description tag whose content is
    one blank and a visible block holding the abstract, the first non-empty
    value is the visible block's, yet the loop stops at the description tag
    with the empty text, the visible block is never read, Crossref is not
    asked, and the function returns [None] after its single request. *)
Lemma C4_blank_description_stops_the_chain :
  Spec.first_non_empty
    (Nature.strategy_alone Fixtures.json_loads Fixtures.plain_text
       Fixtures.blank_description_page <$> Nature.ABSTRACT_PATTERNS)
  = Some "Visible abstract."
  ∧ Nature.extract_abstract Fixtures.json_loads Fixtures.plain_text
      Fixtures.blank_description_page Nature.ABSTRACT_PATTERNS = Some ""
  ∧ Nature.fetch_doi_abstract (Fixtures.serve Fixtures.blank_description_page)
      Fixtures.crossref_short Fixtures.json_loads Fixtures.plain_text
      Fixtures.no_jats "10.1038/x"
    = ([Nature.HttpGet "https://doi.org/10.1038/x"], None).
Proof. by vm_compute. Qed.

(** C9, as first stated, fails: nature.py returns a Crossref abstract of
    six characters, which science.py turns down. *)
Lemma C9_short_crossref_abstract_is_returned :
  Nature.fetch_doi_abstract (Fixtures.serve Fixtures.bare_page)
    Fixtures.crossref_short Fixtures.json_loads Fixtures.plain_text
    Fixtures.no_jats "10.1038/x"
  = ([Nature.HttpGet "https://doi.org/10.1038/x";
      Nature.HttpGet "https://api.crossref.org/works/10.1038/x"],
     Some ("Short.", Py.VList []))
  ∧ Science.fetch_doi_abstract Fixtures.whole_as_doi Fixtures.crossref_short
      Fixtures.plain_text Fixtures.no_str "10.1038/x" = Py.Return None.
Proof. by vm_compute. Qed.

(* ===================================================================== *)
(** * Further properties of the collectors *)
(* ===================================================================== *)

(** ** Records and their dictionaries *)

Section PaperRoundTrips.
Import Py.

(** X1.  In cvpr.py and iros24.py a record survives the trip through its
    dictionary: [from_dict] reads back every attribute [to_dict] wrote. *)
Theorem X1_paper_round_trip :
  (∀ p : Cvpr.Paper, Cvpr.from_dict (Cvpr.to_dict p) = Return p)
  ∧ (∀ p : Iros24.Paper, Iros24.from_dict (Iros24.to_dict p) = Return p).
Proof. split; by intros []. Qed.

(** X2.  In nature.py the trip loses the paper link: [to_dict] writes it
    under ["paper_url"], [from_dict] looks for ["paper_link"], finds nothing
    and leaves [None]; every other attribute comes back.  science.py reads
    the key that is written, and nothing is lost. *)
Theorem X2_nature_round_trip_drops_link :
  (∀ p : Nature.Paper,
     Nature.from_dict (Nature.to_dict p)
     = Return {| Nature.journal := Nature.journal p;
                 Nature.paper_id := Nature.paper_id p;
                 Nature.title := Nature.title p;
                 Nature.authors := Nature.authors p;
                 Nature.publication_date := Nature.publication_date p;
                 Nature.paper_link := VNone;
                 Nature.doi := Nature.doi p;
                 Nature.abstract := Nature.abstract p;
                 Nature.keywords := Nature.keywords p |})
  ∧ (∀ p : Science.Paper, Science.from_dict (Science.to_dict p) = Return p).
Proof. split; by intros []. Qed.

End PaperRoundTrips.

(** ** The store: its invariant, reloading, distinct identities *)

Section DictInvariants.
Import Py.
Context {V : Type}.
Implicit Types (k : key) (v : V) (d : dict V).

Lemma dict_in_keys k d : dict_in k d = true ↔ k ∈ d.*1.
Proof.
  unfold dict_in. induction d as [|[k' v'] d IH]; simpl.
  - split; [done|]. by intros ?%elem_of_nil.
  - rewrite elem_of_cons. destruct (decide (k = k')) as [->|Hne].
    + split; [by left|done].
    + rewrite <- IH. split; [by right|]. by intros [?|?].
Qed.

Lemma dict_set_fresh k v d : k ∉ d.*1 → dict_set k v d = d ++ [(k, v)].
Proof.
  induction d as [|[k' v'] d IH]; simpl; [done|].
  rewrite not_elem_of_cons. intros [Hne Hnotin].
  rewrite decide_False by done. by rewrite IH.
Qed.

Lemma dict_set_NoDup k v d : NoDup d.*1 → NoDup (dict_set k v d).*1.
Proof.
  intros Hd. rewrite dict_set_keys.
  destruct (dict_in k d) eqn:Hin; [done|].
  apply NoDup_app. repeat split; [done| |apply NoDup_singleton].
  intros x Hx ->%list_elem_of_singleton.
  apply dict_in_keys in Hx. congruence.
Qed.

Lemma dict_set_Forall (P : key * V → Prop) k v d :
  Forall P d → P (k, v) → Forall P (dict_set k v d).
Proof.
  intros Hd Hkv. induction Hd as [|[k' v'] d Hx Hd IH]; simpl.
  - by constructor.
  - destruct (decide (k = k')) as [<-|Hne]; by constructor.
Qed.

Lemma dict_set_length k v d :
  length (dict_set k v d) = if dict_in k d then length d else S (length d).
Proof.
  rewrite <- (length_fmap fst (dict_set k v d)), dict_set_keys.
  destruct (dict_in k d); rewrite ?List.length_app, length_fmap; simpl; lia.
Qed.

Lemma dict_set_elem_of_keys k k' v d :
  k' ∈ (dict_set k v d).*1 ↔ k' = k ∨ k' ∈ d.*1.
Proof.
  rewrite dict_set_keys. destruct (dict_in k d) eqn:Hin.
  - apply dict_in_keys in Hin. split; [by right|]. by intros [->|?].
  - rewrite elem_of_app, list_elem_of_singleton. tauto.
Qed.

End DictInvariants.

Section StoreInvariant.
Import Py Store.
Context {Paper : Type}.
Variable from_dict : value → outcome Paper.
Variable to_dict : Paper → value.
Variable identity : Paper → value.
Variable json_load : string → option value.
Variable json_dump : value → string.

Local Abbreviation keyed := (keyed_by_identity identity).

Lemma keyed_dict_set paper k ps :
  hash (identity paper) = Return k → keyed ps → keyed (dict_set k paper ps).
Proof.
  intros Hk [Hkeys Hnodup]. split.
  - by apply dict_set_Forall.
  - by apply dict_set_NoDup.
Qed.

Lemma keyed_load_loop data ps :
  keyed ps → keyed (load_loop from_dict identity data ps).1.
Proof.
  revert ps. induction data as [|x data IH]; intros ps Hps; simpl; [done|].
  destruct (from_dict x) as [paper|e]; [|done].
  destruct (hash (identity paper)) as [k|e] eqn:Hk; [|done].
  by apply IH, keyed_dict_set.
Qed.

Lemma keyed_try_load bytes ps :
  keyed ps → keyed (try_load from_dict identity json_load bytes ps).1.
Proof.
  intros Hps. unfold try_load.
  destruct (json_load bytes) as [data|]; [|done].
  destruct (iter data) as [items|e]; [|done].
  by apply keyed_load_loop.
Qed.

(** Whatever the file holds, the store that [__init__] returns is keyed by
    identity. *)
Lemma keyed_init guarded now output_dir filename fs db fs' :
  __init__ from_dict identity json_load guarded now output_dir filename fs
  = Return (db, fs') →
  keyed (papers db).
Proof.
  unfold __init__, _load_existing_papers. simpl.
  assert (Hnil : keyed []) by (split; constructor).
  destruct (files _ !! filename) as [bytes|]; [|by intros [= <- _]].
  pose proof (keyed_try_load bytes [] Hnil) as Hloaded.
  destruct (try_load from_dict identity json_load bytes []) as [ps [e|]];
    [|by intros [= <- _]].
  destruct (_ && _); [by intros [= <- _]|].
  destruct (os_rename _ _ _) as [fs2|e2]; [|done]. by intros [= <- _].
Qed.

Lemma keyed_save_paper paper (db db1 : PaperDatabase (Paper:=Paper)) fs fs1 :
  save_paper to_dict identity json_dump paper db fs = Return (db1, fs1) →
  keyed (papers db) →
  keyed (papers db1)
  ∧ (length (papers db) ≤ length (papers db1) ≤ S (length (papers db)))%nat
  ∧ (∀ k, k ∈ (papers db).*1 → k ∈ (papers db1).*1).
Proof.
  unfold save_paper, mbind, outcome_bind, bind.
  destruct (hash (identity paper)) as [k|e] eqn:Hk; [|done].
  intros [= <- _] Hdb. simpl. split; [by apply keyed_dict_set|]. split.
  - rewrite dict_set_length. destruct (dict_in k (papers db)); lia.
  - intros k' Hk'. apply dict_set_elem_of_keys. by right.
Qed.

(** Reading back what was dumped rebuilds the mapping, record for record
    and in the same order. *)
Lemma load_loop_dumped acc ps :
  (∀ p, from_dict (to_dict p) = Return p) →
  keyed (acc ++ ps) →
  load_loop from_dict identity (to_dict <$> dict_values ps) acc
  = (acc ++ ps, None).
Proof.
  intros Hrt. unfold dict_values. revert acc.
  induction ps as [|[k p] ps IH]; intros acc Hkeyed.
  - by rewrite app_nil_r.
  - rewrite !fmap_cons. cbn [load_loop snd]. rewrite Hrt.
    pose proof Hkeyed as [Hkeys Hnodup].
    assert (hash (identity p) = Return k) as ->.
    { apply Forall_app in Hkeys as [_ Hkeys]. by inversion Hkeys. }
    rewrite fmap_app, fmap_cons in Hnodup.
    apply NoDup_app in Hnodup as (_ & Hfresh & _).
    rewrite dict_set_fresh.
    + rewrite (IH (acc ++ [(k, p)])); by rewrite <- app_assoc.
    + intros Hin. apply (Hfresh k Hin). by left.
Qed.

End StoreInvariant.

Section StoreComposition.
Import Py Store.
Context {Paper : Type}.
Variable from_dict : value → outcome Paper.
Variable to_dict : Paper → value.
Variable identity : Paper → value.
Variable json_load : string → option value.
Variable json_dump : value → string.

Local Abbreviation keyed := (keyed_by_identity identity).

Lemma save_paper_file paper (db db1 : PaperDatabase (Paper:=Paper)) fs fs1 :
  save_paper to_dict identity json_dump paper db fs = Return (db1, fs1) →
  output_dir db1 = output_dir db ∧ filename db1 = filename db
  ∧ dirs fs1 = dirs fs
  ∧ files fs1 !! filename db1
    = Some (json_dump (VList (to_dict <$> dict_values (papers db1)))).
Proof.
  unfold save_paper, mbind, outcome_bind, bind.
  destruct (hash (identity paper)) as [k|e]; [|done].
  intros [= <- <-]. simpl. repeat split. apply lookup_insert_eq.
Qed.

(** Constructing the store again over what [save_paper] wrote. *)
Lemma reload_after_save guarded now paper (db db1 : PaperDatabase (Paper:=Paper))
    fs fs1 :
  (∀ p, from_dict (to_dict p) = Return p) →
  keyed (papers db) →
  save_paper to_dict identity json_dump paper db fs = Return (db1, fs1) →
  json_load (json_dump (VList (to_dict <$> dict_values (papers db1))))
  = Some (VList (to_dict <$> dict_values (papers db1))) →
  ∃ fs2,
    __init__ from_dict identity json_load guarded now
      (output_dir db1) (filename db1) fs1 = Return (db1, fs2)
    ∧ files fs2 = files fs1.
Proof.
  intros Hrt Hdb Hsave Hcodec.
  destruct (keyed_save_paper _ _ _ _ _ _ _ _ Hsave Hdb) as (Hdb1 & _).
  destruct (save_paper_file _ _ _ _ _ Hsave) as (_ & _ & _ & Hfile).
  unfold __init__, _load_existing_papers. simpl.
  set (fs0 := if os_path_exists _ fs1 then fs1 else os_makedirs _ fs1).
  assert (Hfiles : files fs0 = files fs1)
    by (unfold fs0; by destruct os_path_exists).
  rewrite Hfiles, Hfile. unfold try_load. rewrite Hcodec. simpl.
  rewrite (load_loop_dumped from_dict to_dict identity [] (papers db1) Hrt Hdb1).
  simpl. exists fs0. split; [|done]. by destruct db1.
Qed.

(** A batch of saves, each of a record whose identity hashes. *)
Lemma save_all_keys batch ks (db : PaperDatabase (Paper:=Paper)) fs :
  Forall2 (λ paper k, hash (identity paper) = Return k) batch ks →
  keyed (papers db) →
  ∃ db' fs',
    save_all to_dict identity json_dump batch db fs = Return (db', fs')
    ∧ keyed (papers db')
    ∧ (∀ k, k ∈ (papers db').*1 ↔ k ∈ (papers db).*1 ∨ k ∈ ks).
Proof.
  intros Hbatch. revert db fs.
  induction Hbatch as [|paper k batch ks Hk _ IH]; intros db fs Hdb.
  - exists db, fs. split; [done|]. split; [done|]. intros k.
    rewrite elem_of_nil. tauto.
  - cbn [save_all]. unfold save_paper, mbind, outcome_bind, bind.
    rewrite Hk. cbn.
    set (db1 := set_papers db (dict_set k paper (papers db))).
    destruct (IH db1 (_save_to_file to_dict json_dump db1 fs))
      as (db' & fs' & Hsave & Hkeyed & Hkeys).
    { by apply keyed_dict_set. }
    exists db', fs'. split; [exact Hsave|]. split; [done|].
    intros k'. rewrite Hkeys. simpl.
    rewrite dict_set_elem_of_keys, elem_of_cons. tauto.
Qed.

End StoreComposition.

Section StoreExtras.
Import Py Store.

(** X3.  Whatever the file holds -- nothing, a clean document, a document
    with a bad element or one that does not decode -- the store that
    [PaperDatabase(output_dir, year)] returns has every record under the key
    of its own title and no key twice.  [save_paper] keeps that shape, never
    drops a key, and adds at most one. *)
Theorem X3_store_keyed_by_title json_load json_dump now output_dir year fs
    db fs' :
  Cvpr.PaperDatabase_init json_load now output_dir year fs = Return (db, fs') →
  keyed_by_identity Cvpr.title (papers db)
  ∧ (∀ paper db1 fs1,
       Cvpr.save_paper json_dump paper db fs' = Return (db1, fs1) →
       keyed_by_identity Cvpr.title (papers db1)
       ∧ (length (papers db) ≤ length (papers db1) ≤ S (length (papers db)))%nat
       ∧ (∀ k, k ∈ (papers db).*1 → k ∈ (papers db1).*1)).
Proof.
  intros Hinit.
  assert (Hdb : keyed_by_identity Cvpr.title (papers db))
    by (by eapply keyed_init).
  split; [done|]. intros paper db1 fs1 Hsave.
  by eapply keyed_save_paper.
Qed.

(** X4.  What [save_paper] writes is what the constructor reads: building
    the store again over the file system left by a save gives back the same
    mapping, record for record and in the same order, without touching any
    file -- provided [json.load] decodes what [json.dump] wrote. *)
Theorem X4_save_then_reload json_load json_dump now year paper
    (db db1 : PaperDatabase (Paper:=Cvpr.Paper)) fs fs1 :
  keyed_by_identity Cvpr.title (papers db) →
  filename db = os_path_join (output_dir db) (Cvpr.basename year) →
  Cvpr.save_paper json_dump paper db fs = Return (db1, fs1) →
  json_load (json_dump (VList (Cvpr.to_dict <$> dict_values (papers db1))))
  = Some (VList (Cvpr.to_dict <$> dict_values (papers db1))) →
  ∃ fs2,
    Cvpr.PaperDatabase_init json_load now (output_dir db) year fs1
    = Return (db1, fs2)
    ∧ files fs2 = files fs1.
Proof.
  intros Hdb Hname Hsave Hcodec.
  destruct (save_paper_file _ _ _ _ _ _ _ _ Hsave) as (Hdir & Hfile & _).
  unfold Cvpr.PaperDatabase_init. rewrite <- Hname, <- Hdir, <- Hfile.
  apply (reload_after_save Cvpr.from_dict Cvpr.to_dict Cvpr.title json_load
           json_dump true now paper db db1 fs fs1);
    [by intros []|exact Hdb|exact Hsave|exact Hcodec].
Qed.

(** X5.  Identities stay distinct: after any batch of saves into a fresh
    store the mapping holds one record per distinct title of the batch, so
    as many records as the batch has distinct titles. *)
Theorem X5_one_record_per_title json_dump batch ks
    (db : PaperDatabase (Paper:=Cvpr.Paper)) fs :
  papers db = [] →
  Forall2 (λ paper k, hash (Cvpr.title paper) = Return k) batch ks →
  ∃ db' fs',
    save_all Cvpr.to_dict Cvpr.title json_dump batch db fs = Return (db', fs')
    ∧ NoDup (papers db').*1
    ∧ (∀ k, k ∈ (papers db').*1 ↔ k ∈ ks)
    ∧ length (papers db') = length (remove_dups ks).
Proof.
  intros Hempty Hbatch.
  destruct (save_all_keys Cvpr.to_dict Cvpr.title json_dump batch ks db fs Hbatch)
    as (db' & fs' & Hsave & [_ Hnodup] & Hkeys).
  { rewrite Hempty. split; constructor. }
  assert (Hsame : ∀ k, k ∈ (papers db').*1 ↔ k ∈ ks).
  { intros k. rewrite Hkeys, Hempty. simpl. rewrite elem_of_nil. tauto. }
  exists db', fs'. repeat split; try done; try apply Hsame.
  rewrite <- (length_fmap fst (papers db')).
  apply Permutation_length, NoDup_Permutation;
    [done|apply NoDup_remove_dups|].
  intros k. by rewrite Hsame, elem_of_remove_dups.
Qed.

End StoreExtras.

Lemma X3_store_keyed_by_title_witness :
  ∃ db fs',
    Cvpr.PaperDatabase_init Fixtures.json_load "20250101_120000" "dataset" 2025
      (Fixtures.disk "dataset/cvpr25.json" Fixtures.second_record_bad)
    = Py.Return (db, fs')
    ∧ Store.keyed_by_identity Cvpr.title (Store.papers db).
Proof.
  destruct (Cvpr.PaperDatabase_init Fixtures.json_load "20250101_120000"
              "dataset" 2025
              (Fixtures.disk "dataset/cvpr25.json" Fixtures.second_record_bad))
    as [[db fs']|e] eqn:Hinit.
  - exists db, fs'. split; [reflexivity|].
    exact (proj1 (X3_store_keyed_by_title Fixtures.json_load Fixtures.dumps
                    "20250101_120000" "dataset" 2025
                    (Fixtures.disk "dataset/cvpr25.json"
                       Fixtures.second_record_bad)
                    db fs' Hinit)).
  - vm_compute in Hinit. discriminate.
Defined.

Lemma X4_save_then_reload_witness :
  ∃ db1 fs1 fs2,
    Cvpr.save_paper Fixtures.dumps Fixtures.attention Fixtures.empty_cvpr_db
      (Fixtures.disk "dataset/cvpr25.json" "[]") = Py.Return (db1, fs1)
    ∧ Cvpr.PaperDatabase_init Fixtures.json_load_saved "20250101_120000"
        "dataset" 2025 fs1 = Py.Return (db1, fs2)
    ∧ Store.files fs2 = Store.files fs1.
Proof.
  pose (db1 := Store.set_papers Fixtures.empty_cvpr_db
                 [(Py.KStr "Attention Is All You Need", Fixtures.attention)]).
  pose (fs1 := Store.write_file "dataset/cvpr25.json"
                 (Fixtures.dumps Fixtures.saved_once)
                 (Fixtures.disk "dataset/cvpr25.json" "[]")).
  destruct (X4_save_then_reload Fixtures.json_load_saved Fixtures.dumps
              "20250101_120000" 2025 Fixtures.attention Fixtures.empty_cvpr_db
              db1 (Fixtures.disk "dataset/cvpr25.json" "[]") fs1)
    as (fs2 & Hinit & Hfiles).
  - split; constructor.
  - vm_compute; reflexivity.
  - reflexivity.
  - vm_compute; reflexivity.
  - exists db1, fs1, fs2. split; [reflexivity|]. split; [exact Hinit|exact Hfiles].
Defined.

Lemma X5_one_record_per_title_witness :
  ∃ db' fs',
    Store.save_all Cvpr.to_dict Cvpr.title Fixtures.dumps
      [Fixtures.attention; Fixtures.preprint_only; Fixtures.attention]
      Fixtures.empty_cvpr_db (Fixtures.disk "dataset/cvpr25.json" "[]")
    = Py.Return (db', fs')
    ∧ length (Store.papers db') = 2.
Proof.
  destruct (X5_one_record_per_title Fixtures.dumps
              [Fixtures.attention; Fixtures.preprint_only; Fixtures.attention]
              [Py.KStr "Attention Is All You Need"; Py.KStr "Segment Anything";
               Py.KStr "Attention Is All You Need"]
              Fixtures.empty_cvpr_db (Fixtures.disk "dataset/cvpr25.json" "[]"))
    as (db' & fs' & Hsave & _ & _ & Hlen).
  - reflexivity.
  - repeat constructor.
  - exists db', fs'. split; [exact Hsave|]. rewrite Hlen. vm_compute. reflexivity.
Defined.

(** ** Normal forms of titles *)

Section NormalForms.
Import Iros24.Unicode.

Context {char : Type}.
Variables isalnum isspace : char → bool.
Variable lower : char → list char.
Variable blank : char.

Hypothesis blank_isspace : isspace blank = true.
Hypothesis blank_lower : lower blank = [blank].

Local Abbreviation words := (split isspace).
Local Abbreviation keep := (kept isalnum isspace).
Local Abbreviation low := (lowered isalnum isspace lower).
Local Abbreviation normal := (normalize_title isalnum isspace lower blank).
Local Abbreviation is_settled := (settled isalnum lower).
Local Abbreviation is_tame := (tame isalnum isspace lower).

(** [split] cuts at whitespace: its words are not empty, hold no
    whitespace, and are made of characters of the text. *)
Lemma split_words (P : char → Prop) s :
  Forall (λ c, isspace c = true ∨ P c) s →
  Forall (λ w, w ≠ [] ∧ Forall (λ c, isspace c = false ∧ P c) w) (words s).
Proof.
  induction s as [|c s IH]; [by constructor|].
  intros Hcs. inversion_clear Hcs as [|? ? Hc Hs]. specialize (IH Hs).
  cbn [split]. destruct (isspace c) eqn:Hspace; [done|].
  destruct Hc as [Hc|Hc]; [congruence|].
  assert (Hone : [c] ≠ [] ∧ Forall (λ c, isspace c = false ∧ P c) [c]).
  { split; [done|]. constructor; [done|constructor]. }
  destruct s as [|c' s']; [constructor; [exact Hone|constructor]|].
  destruct (isspace c') eqn:Hspace'; [by constructor|].
  destruct (words (c' :: s')) as [|w ws];
    [constructor; [exact Hone|constructor]|].
  inversion_clear IH as [|? ? [_ Hw] Hws].
  constructor; [|done]. split; [done|]. by constructor.
Qed.

Lemma split_word_then_blank w r :
  w ≠ [] → Forall (λ c, isspace c = false) w →
  words (w ++ blank :: r) = w :: words r.
Proof.
  induction w as [|c w IH]; [done|]. intros _ Hcw.
  inversion_clear Hcw as [|? ? Hc Hw].
  change ((c :: w) ++ blank :: r) with (c :: (w ++ blank :: r)).
  cbn [split]. rewrite Hc.
  destruct w as [|c2 w']; [cbn [app split]; by rewrite !blank_isspace|].
  change ((c2 :: w') ++ blank :: r) with (c2 :: (w' ++ blank :: r)) in *.
  pose proof Hw as Hw'. inversion_clear Hw' as [|? ? Hc2 _]. rewrite Hc2.
  by rewrite (IH ltac:(done) Hw).
Qed.

Lemma split_word w :
  w ≠ [] → Forall (λ c, isspace c = false) w → words w = [w].
Proof.
  induction w as [|c w IH]; [done|]. intros _ Hcw.
  inversion_clear Hcw as [|? ? Hc Hw]. cbn [split]. rewrite Hc.
  destruct w as [|c2 w']; [done|].
  pose proof Hw as Hw'. inversion_clear Hw' as [|? ? Hc2 _]. rewrite Hc2.
  by rewrite (IH ltac:(done) Hw).
Qed.

Lemma split_join ws :
  Forall (λ w, w ≠ [] ∧ Forall (λ c, isspace c = false) w) ws →
  words (join [blank] ws) = ws.
Proof.
  induction 1 as [|w ws [Hne Hw] Hws IH]; [done|].
  destruct ws as [|w2 ws]; [by apply split_word|].
  change (join [blank] (w :: w2 :: ws))
    with (w ++ blank :: join [blank] (w2 :: ws)).
  by rewrite split_word_then_blank, IH.
Qed.

(** Blanks and settled characters pass the filter and the lowering
    unchanged. *)
Lemma settled_fixed s :
  Forall (λ c, c = blank ∨ is_settled c) s → s ≫= low = s.
Proof.
  induction 1 as [|c s Hc _ IH]; [done|].
  rewrite bind_cons, IH. unfold lowered, kept.
  destruct Hc as [->|[Halnum Hlower]].
  - by rewrite blank_isspace, orb_true_r, blank_lower.
  - by rewrite Halnum, Hlower.
Qed.

Lemma join_chars (P : char → Prop) ws :
  P blank → Forall (Forall P) ws → Forall P (join [blank] ws).
Proof.
  intros Hblank. induction 1 as [|w ws Hw Hws IH]; [constructor|].
  destruct ws as [|w2 ws]; [done|].
  change (join [blank] (w :: w2 :: ws))
    with (w ++ blank :: join [blank] (w2 :: ws)).
  apply Forall_app. split; [done|]. by constructor.
Qed.

(** The text between lowering and splitting, for a tame title. *)
Lemma lowered_chars title :
  Forall is_tame title →
  Forall (λ d, isspace d = true ∨ is_settled d) (title ≫= low).
Proof.
  induction 1 as [|c title Hc _ IH]; [constructor|].
  rewrite bind_cons. apply Forall_app. split; [|done].
  unfold lowered. destruct (keep c) eqn:Hkept; [by apply Hc|constructor].
Qed.

Lemma filter_kept title : List.filter keep title ≫= low = title ≫= low.
Proof.
  induction title as [|c title IH]; [done|]. cbn [List.filter].
  destruct (keep c) eqn:Hkept.
  - by rewrite !bind_cons, IH.
  - rewrite bind_cons, IH. unfold lowered. by rewrite Hkept.
Qed.

(** X6.  [normalize_title] over any alphabet, whatever its tables, as long
    as the blank is whitespace and its own lower case.  The result is made
    of non-empty words without whitespace, one blank between two words and
    none at either end.  The characters that are neither alphanumeric nor
    whitespace do not matter, and neither does the case: two titles whose
    characters are kept alike and lowered alike, one by one, give the same
    result.  For a title of tame characters only -- as every title of the
    code points 0..255 is -- the words are made of alphanumeric characters
    that are their own lower case, and normalising again changes nothing.
    Tameness is needed there: the lower case of U+0130 ends in a combining
    dot that the second pass drops. *)
Theorem X6_normalize_title_normal_form title :
  (∃ ws, normal title = join [blank] ws
         ∧ Forall (λ w, w ≠ [] ∧ Forall (λ c, isspace c = false) w) ws)
  ∧ normal (List.filter keep title) = normal title
  ∧ (∀ title',
       Forall2 (λ c c', keep c = keep c' ∧ lower c = lower c') title title' →
       normal title' = normal title)
  ∧ (Forall is_tame title →
     (∃ ws, normal title = join [blank] ws
            ∧ Forall (λ w, w ≠ [] ∧ Forall is_settled w) ws)
     ∧ normal (normal title) = normal title).
Proof.
  split; [|split; [|split]].
  - exists (words (title ≫= low)). split; [done|].
    eapply Forall_impl;
      [apply (split_words (λ _, True)), Forall_forall; auto|].
    intros w [Hne Hw]. split; [done|].
    eapply Forall_impl; [exact Hw|]. by intros c [Hc _].
  - unfold normalize_title. by rewrite filter_kept.
  - intros title' Halike. unfold normalize_title. f_equal. f_equal.
    induction Halike as [|c c' title title' [Hkept Hlower] _ IH]; [done|].
    rewrite !bind_cons, IH. unfold lowered. by rewrite Hkept, Hlower.
  - intros Htame.
    pose proof (split_words is_settled _ (lowered_chars title Htame)) as Hwords.
    set (ws := words (title ≫= low)) in *.
    assert (Hsettled : Forall (λ w, w ≠ [] ∧ Forall is_settled w) ws).
    { eapply Forall_impl; [exact Hwords|]. intros w [Hne Hw].
      split; [done|]. eapply Forall_impl; [exact Hw|]. by intros c [_ Hc]. }
    assert (Hsolid : Forall (λ w, w ≠ [] ∧ Forall (λ c, isspace c = false) w) ws).
    { eapply Forall_impl; [exact Hwords|]. intros w [Hne Hw].
      split; [done|]. eapply Forall_impl; [exact Hw|]. by intros c [Hc _]. }
    split; [by exists ws|].
    unfold normalize_title. fold ws.
    rewrite settled_fixed, split_join; [done|done|].
    apply (join_chars (λ c, c = blank ∨ is_settled c)); [by left|].
    eapply Forall_impl; [exact Hsettled|]. intros w [_ Hw].
    eapply Forall_impl; [exact Hw|]. by right.
Qed.

End NormalForms.

(** The titles of the code points 0..255: the tables above, read on
    lists, are an instance of the general ones, and every character is
    tame. *)
Section Latin1.
Import Py.

Local Abbreviation chars_of := list_ascii_of_string.
Local Abbreviation lower1 := (λ c : ascii, [lower c]).

Lemma lower_lower c : lower (lower c) = lower c.
Proof. destruct c as [[] [] [] [] [] [] [] []]; reflexivity. Qed.

Lemma isalnum_lower c : isalnum (lower c) = isalnum c.
Proof. destruct c as [[] [] [] [] [] [] [] []]; reflexivity. Qed.

Lemma isspace_lower c : isspace (lower c) = isspace c.
Proof. destruct c as [[] [] [] [] [] [] [] []]; reflexivity. Qed.

Lemma latin1_tame c : Iros24.Unicode.tame isalnum isspace lower1 c.
Proof.
  unfold Iros24.Unicode.tame, Iros24.Unicode.kept, Iros24.Unicode.settled.
  intros Hkept. constructor; [|constructor].
  rewrite isspace_lower, isalnum_lower, lower_lower.
  destruct (isalnum c); [by right|]. by left.
Qed.

Lemma chars_of_app s t : chars_of (s +:+ t) = chars_of s ++ chars_of t.
Proof. induction s as [|c s IH]; simpl; [done|]. by rewrite IH. Qed.

Lemma chars_of_normalized s :
  chars_of (Py.map lower (Py.filter (λ c, isalnum c || isspace c) s))
  = chars_of s ≫= Iros24.Unicode.lowered isalnum isspace lower1.
Proof.
  induction s as [|c s IH]; [done|].
  cbn [Py.filter chars_of]. rewrite bind_cons. unfold Iros24.Unicode.lowered at 1.
  unfold Iros24.Unicode.kept.
  destruct (isalnum c || isspace c); [|exact IH].
  cbn [Py.map chars_of app]. by rewrite IH.
Qed.

Lemma chars_of_split s :
  chars_of <$> split s = Iros24.Unicode.split isspace (chars_of s).
Proof.
  induction s as [|c s IH]; [done|].
  cbn [split chars_of Iros24.Unicode.split].
  destruct (isspace c); [exact IH|].
  destruct s as [|c' s']; [done|].
  cbn [chars_of] in IH |- *.
  destruct (isspace c'); [by rewrite fmap_cons, IH|].
  rewrite <- IH. by destruct (split (String c' s')).
Qed.

Lemma chars_of_join ws :
  chars_of (join " " ws) = Iros24.Unicode.join [" "%char] (chars_of <$> ws).
Proof.
  induction ws as [|w ws IH]; [done|].
  destruct ws as [|w2 ws]; [done|].
  change (join " " (w :: w2 :: ws)) with (w +:+ String " " (join " " (w2 :: ws))).
  rewrite chars_of_app. cbn [chars_of]. by rewrite IH.
Qed.

(** [Iros24.normalize_title] is [Iros24.Unicode.normalize_title] at the
    tables of the code points 0..255. *)
Lemma normalize_title_latin1 title :
  chars_of (Iros24.normalize_title title)
  = Iros24.Unicode.normalize_title isalnum isspace lower1 " "%char
      (chars_of title).
Proof.
  unfold Iros24.normalize_title, Iros24.Unicode.normalize_title.
  by rewrite chars_of_join, chars_of_split, chars_of_normalized.
Qed.

End Latin1.

Lemma X6_normalize_title_normal_form_witness :
  Iros24.Unicode.normalize_title Py.isalnum Py.isspace (λ c, [Py.lower c])
    " "%char
    (Iros24.Unicode.normalize_title Py.isalnum Py.isspace (λ c, [Py.lower c])
       " "%char (list_ascii_of_string "  Deep Residual-LEARNING "))
  = Iros24.Unicode.normalize_title Py.isalnum Py.isspace (λ c, [Py.lower c])
      " "%char (list_ascii_of_string "  Deep Residual-LEARNING ").
Proof.
  apply (X6_normalize_title_normal_form Py.isalnum Py.isspace
           (λ c, [Py.lower c]) " "%char).
  - reflexivity.
  - reflexivity.
  - apply Forall_forall. intros c _. apply latin1_tame.
Defined.

(** ** Sets of last names *)

Section LastNames.
Import Py Iros24.

Lemma split_on_app sep a b :
  split_on sep (a +:+ String sep b) = split_on sep a ++ split_on sep b.
Proof.
  induction a as [|c a IH]; simpl.
  - by rewrite Ascii.eqb_refl.
  - rewrite IH. destruct (Ascii.eqb c sep); [done|].
    pose proof (split_on_nonempty sep a) as Hne.
    by destruct (split_on sep a).
Qed.

(** The step of the loop of [get_last_names]. *)
Local Abbreviation add_last_name :=
  (λ (last_names : gset string) (author : string),
     match last (split (strip author)) with
     | Some part => last_names ∪ {[normalize_author_name part]}
     | None => last_names
     end).

Lemma foldl_add_last_name acc authors :
  foldl add_last_name acc authors = acc ∪ foldl add_last_name ∅ authors.
Proof.
  revert acc. induction authors as [|author authors IH]; intros acc; simpl.
  - by rewrite (right_id_L ∅ (∪)).
  - rewrite (IH (match last (split (strip author)) with
                 | Some part => acc ∪ {[normalize_author_name part]}
                 | None => acc
                 end)).
    rewrite (IH (match last (split (strip author)) with
                 | Some part => ∅ ∪ {[normalize_author_name part]}
                 | None => ∅
                 end)).
    destruct (last (split (strip author)));
      by rewrite (left_id_L ∅ (∪)), ?(assoc_L (∪)).
Qed.

Lemma get_last_names_app a b :
  get_last_names (a +:+ String "," b) = get_last_names a ∪ get_last_names b.
Proof.
  unfold get_last_names.
  rewrite split_on_app, fmap_app, foldl_app.
  by rewrite foldl_add_last_name.
Qed.

(** X7.  The last names of a comma-separated list are those of its parts:
    the set for [a,b] is the union of the sets for [a] and for [b].  So the
    order in which authors are listed does not matter, and listing the same
    authors twice adds nothing. *)
Theorem X7_last_names_of_a_list a b :
  get_last_names (a +:+ String "," b) = get_last_names a ∪ get_last_names b
  ∧ get_last_names (a +:+ String "," b) = get_last_names (b +:+ String "," a)
  ∧ get_last_names (a +:+ String "," a) = get_last_names a.
Proof.
  rewrite !get_last_names_app. split; [done|]. split.
  - apply (comm_L (∪)).
  - apply union_idemp_L.
Qed.

End LastNames.

(** ** The loop of main in iros24.py *)

Section MainLoop.
Import Py Store Iros24.

Variable json_dump : value → string.

(** The record a step saves, from the row and from what the search
    returned. *)
Lemma main_step_searches ratio quote session_get findall_entries no au ti
    (db : PaperDatabase (Paper:=Paper)) fs :
  already_resolved (get_paper no db) = false →
  let found := search_arxiv_for_paper ratio quote session_get findall_entries
                 ti au default_max_results default_min_title_similarity in
  let pdf_url := found.2.1 in
  let abstract := found.2.2 in
  let paper :=
    {| paper_no := VStr no; authors := VStr au; title := VStr ti;
       arxiv_pdf := if truthy_str pdf_url then opt_value pdf_url else VNone;
       arxiv_abstract := if truthy_str pdf_url && truthy_str abstract
                         then opt_value abstract else VNone |} in
  let db' := set_papers db (dict_set (KStr no) paper (papers db)) in
  main_step ratio quote session_get findall_entries json_dump (no, au, ti) db fs
  = (found.1, Return (db', _save_to_file to_dict json_dump db' fs)).
Proof.
  intros Hnew. unfold main_step. rewrite Hnew.
  destruct (search_arxiv_for_paper _ _ _ _ _ _ _ _) as [trace [pdf_url abstract]].
  simpl. by destruct (truthy_str pdf_url), (truthy_str abstract).
Qed.

Lemma truthy_opt_value o : truthy (opt_value o) = truthy_str o.
Proof. by destruct o. Qed.

(** X8.  What a round of [main] leaves behind when it returns, for a paper
    that had no PDF link in the store: the requests made are those of the
    search; the paper sits in the store under its number, with the authors
    and the title of the row; every other record is as it was; and the file
    holds the whole mapping.  The stored record carries the PDF link the
    search returned, if any, and an abstract only together with a PDF link:
    an abstract that comes without one is dropped. *)
Theorem X8_main_step_saves ratio quote session_get findall_entries no au ti
    (db db' : PaperDatabase (Paper:=Paper)) fs fs' trace :
  already_resolved (get_paper no db) = false →
  main_step ratio quote session_get findall_entries json_dump (no, au, ti) db fs
  = (trace, Return (db', fs')) →
  let found := search_arxiv_for_paper ratio quote session_get findall_entries
                 ti au default_max_results default_min_title_similarity in
  trace = found.1
  ∧ (∀ k, k ≠ KStr no → dict_get k (papers db') = dict_get k (papers db))
  ∧ files fs' !! filename db
    = Some (json_dump (VList (to_dict <$> dict_values (papers db'))))
  ∧ ∃ paper,
      get_paper no db' = Some paper
      ∧ paper_no paper = VStr no ∧ authors paper = VStr au ∧ title paper = VStr ti
      ∧ truthy (arxiv_pdf paper) = truthy_str found.2.1
      ∧ (truthy (arxiv_pdf paper) = true → arxiv_pdf paper = opt_value found.2.1)
      ∧ (truthy (arxiv_abstract paper) = true → truthy (arxiv_pdf paper) = true).
Proof.
  intros Hnew Hstep found.
  rewrite (main_step_searches ratio quote session_get findall_entries
             no au ti db fs Hnew) in Hstep.
  cbv zeta in Hstep. fold found in Hstep. clearbody found.
  destruct found as [trace0 [pdf_url abstract]].
  cbn [fst snd] in Hstep |- *. injection Hstep as <- <- <-.
  split; [done|]. split; [|split].
  - intros k Hk. cbn [papers set_papers]. by apply dict_get_set_ne.
  - cbn. apply lookup_insert_eq.
  - eexists. split; [apply dict_get_set_eq|]. cbn.
    split; [done|]. split; [done|]. split; [done|].
    destruct (truthy_str pdf_url) eqn:Hpdf; cbn.
    + by rewrite truthy_opt_value.
    + by split_and!.
Qed.

(** X9.  Resuming.  Once a step has stored a PDF link for a paper, every
    later step on the same row returns at once: no request, no pause, no
    write, whatever the network would answer.  A paper for which no PDF link
    was found is searched again by the next step. *)
Theorem X9_resolved_papers_are_skipped ratio quote session_get findall_entries
    no au ti (db db' : PaperDatabase (Paper:=Paper)) fs fs' trace :
  already_resolved (get_paper no db) = false →
  main_step ratio quote session_get findall_entries json_dump (no, au, ti) db fs
  = (trace, Return (db', fs')) →
  let found := search_arxiv_for_paper ratio quote session_get findall_entries
                 ti au default_max_results default_min_title_similarity in
  ∀ ratio2 quote2 session_get2 findall_entries2,
    (truthy_str found.2.1 = true →
     main_step ratio2 quote2 session_get2 findall_entries2 json_dump
       (no, au, ti) db' fs' = ([], Return (db', fs')))
    ∧ (truthy_str found.2.1 = false →
       (main_step ratio2 quote2 session_get2 findall_entries2 json_dump
          (no, au, ti) db' fs').1
       = (search_arxiv_for_paper ratio2 quote2 session_get2 findall_entries2
            ti au default_max_results default_min_title_similarity).1).
Proof.
  intros Hnew Hstep found ratio2 quote2 session_get2 findall_entries2.
  rewrite (main_step_searches ratio quote session_get findall_entries
             no au ti db fs Hnew) in Hstep.
  cbv zeta in Hstep. fold found in Hstep. clearbody found.
  destruct found as [trace0 [pdf_url abstract]].
  cbn [fst snd] in Hstep |- *.
  injection Hstep as _ <- <-.
  split; intros Hpdf; rewrite Hpdf.
  - unfold main_step, get_paper. cbn [papers set_papers].
    rewrite dict_get_set_eq. cbn [already_resolved arxiv_pdf].
    by rewrite truthy_opt_value, Hpdf.
  - rewrite main_step_searches; [done|].
    unfold get_paper. cbn [papers set_papers]. by rewrite dict_get_set_eq.
Qed.

End MainLoop.

Lemma X8_main_step_saves_witness :
  ∃ db' fs' paper,
    Iros24.main_step Difflib.ratio Fixtures.no_quote Fixtures.online
      (Fixtures.feed_of [Fixtures.namesake; Fixtures.resnet]) Fixtures.dumps
      Fixtures.resnet_row Fixtures.empty_iros_db
      (Fixtures.disk "dataset/iros24.json" "[]")
    = ([Iros24.HttpGet
          (Iros24.query_url Fixtures.no_quote "Deep Residual Learning" 5);
        Iros24.Sleep 3],
       Py.Return (db', fs'))
    ∧ Store.get_paper "17" db' = Some paper
    ∧ Iros24.arxiv_pdf paper = Py.VStr "http://arxiv.org/pdf/1512.03385v1".
Proof.
  destruct (Iros24.main_step Difflib.ratio Fixtures.no_quote Fixtures.online
              (Fixtures.feed_of [Fixtures.namesake; Fixtures.resnet])
              Fixtures.dumps Fixtures.resnet_row Fixtures.empty_iros_db
              (Fixtures.disk "dataset/iros24.json" "[]"))
    as [trace [[db' fs']|e]] eqn:Hstep; [|vm_compute in Hstep; discriminate].
  destruct (X8_main_step_saves Fixtures.dumps Difflib.ratio Fixtures.no_quote
              Fixtures.online
              (Fixtures.feed_of [Fixtures.namesake; Fixtures.resnet])
              "17" "He, Zhang" "Deep Residual Learning"
              Fixtures.empty_iros_db db'
              (Fixtures.disk "dataset/iros24.json" "[]") fs' trace
              eq_refl Hstep)
    as (Htrace & _ & _ & paper & Hget & _ & _ & _ & Htruthy & Hpdf & _).
  exists db', fs', paper. split; [by rewrite Htrace|]. split; [exact Hget|].
  rewrite Hpdf; [reflexivity|]. rewrite Htruthy. vm_compute. reflexivity.
Defined.

Lemma X9_resolved_papers_are_skipped_witness :
  match Iros24.main_step Difflib.ratio Fixtures.no_quote Fixtures.online
          (Fixtures.feed_of [Fixtures.namesake; Fixtures.resnet]) Fixtures.dumps
          Fixtures.resnet_row Fixtures.empty_iros_db
          (Fixtures.disk "dataset/iros24.json" "[]") with
  | (_, Py.Return (db', fs')) =>
      Iros24.main_step Difflib.ratio Fixtures.no_quote Fixtures.online
        (Fixtures.feed_of [Fixtures.namesake]) Fixtures.dumps
        Fixtures.resnet_row db' fs'
      = ([], Py.Return (db', fs'))
  | (_, Py.Raise _) => False
  end.
Proof.
  destruct (Iros24.main_step Difflib.ratio Fixtures.no_quote Fixtures.online
              (Fixtures.feed_of [Fixtures.namesake; Fixtures.resnet])
              Fixtures.dumps Fixtures.resnet_row Fixtures.empty_iros_db
              (Fixtures.disk "dataset/iros24.json" "[]"))
    as [trace [[db' fs']|e]] eqn:Hstep.
  - apply (proj1 (X9_resolved_papers_are_skipped Fixtures.dumps Difflib.ratio
                    Fixtures.no_quote Fixtures.online
                    (Fixtures.feed_of [Fixtures.namesake; Fixtures.resnet])
                    "17" "He, Zhang" "Deep Residual Learning"
                    Fixtures.empty_iros_db db'
                    (Fixtures.disk "dataset/iros24.json" "[]") fs' trace
                    eq_refl Hstep
                    Difflib.ratio Fixtures.no_quote Fixtures.online
                    (Fixtures.feed_of [Fixtures.namesake]))).
    vm_compute. reflexivity.
  - vm_compute in Hstep. discriminate.
Defined.

(** ** Abstracts rebuilt from an inverted index *)

Section InvertedIndex.
Import Py Nature.

Local Abbreviation before := (λ x y : Z * string, (x.1 ≤ y.1)%Z).

Lemma insert_by_position_perm x l : insert_by_position x l ≡ₚ x :: l.
Proof.
  induction l as [|y l IH]; simpl; [done|].
  destruct (x.1 <=? y.1)%Z; [done|]. by rewrite IH, Permutation_swap.
Qed.

Lemma sort_by_position_perm l : sort_by_position l ≡ₚ l.
Proof.
  induction l as [|x l IH]; simpl; [done|].
  by rewrite insert_by_position_perm, IH.
Qed.

Lemma insert_by_position_sorted x l :
  StronglySorted before l → StronglySorted before (insert_by_position x l).
Proof.
  induction 1 as [|y l Hl IH Hy]; simpl.
  - by repeat constructor.
  - destruct (Z.leb_spec x.1 y.1).
    + constructor; [by constructor|]. constructor; [done|].
      eapply Forall_impl; [exact Hy|]. simpl. lia.
    + constructor; [done|]. rewrite insert_by_position_perm.
      constructor; [simpl; lia|done].
Qed.

Lemma sort_by_position_sorted l : StronglySorted before (sort_by_position l).
Proof.
  induction l as [|x l IH]; simpl; [constructor|].
  by apply insert_by_position_sorted.
Qed.

Lemma numbered_from start words x :
  x ∈ numbered start words → (start ≤ x.1)%Z.
Proof.
  revert start. induction words as [|w words IH]; intros start; simpl.
  - by intros ?%elem_of_nil.
  - intros [->|Hx%IH]%elem_of_cons; simpl; lia.
Qed.

Lemma numbered_sorted start words :
  StronglySorted before (numbered start words).
Proof.
  revert start. induction words as [|w words IH]; intros start; simpl;
    constructor; [done|].
  apply Forall_forall. intros x Hx%numbered_from. simpl. lia.
Qed.

Lemma numbered_positions_distinct start words x y :
  x ∈ numbered start words → y ∈ numbered start words → x.1 = y.1 → x = y.
Proof.
  revert start. induction words as [|w words IH]; intros start; simpl.
  - by intros ?%elem_of_nil.
  - intros [->|Hx]%elem_of_cons [->|Hy]%elem_of_cons Heq; simpl in *.
    + done.
    + apply numbered_from in Hy. lia.
    + apply numbered_from in Hx. lia.
    + by eapply IH.
Qed.

Lemma numbered_words start words : (numbered start words).*2 = words.
Proof.
  revert start. induction words as [|w words IH]; intros start; simpl; [done|].
  by rewrite IH.
Qed.

(** X10.  [reconstruct_abstract] undoes the inversion: whenever the index
    lists, in whatever order, exactly the positions [0, 1, 2, ...] of the
    words of a text, the result is that text with one blank between words.
    The missing index and the empty one give the empty text. *)
Theorem X10_reconstruct_abstract_round_trip index words :
  positioned_words index ≡ₚ numbered 0 words →
  reconstruct_abstract (Some index) = join " " words
  ∧ reconstruct_abstract None = ""
  ∧ reconstruct_abstract (Some []) = "".
Proof.
  intros Hindex. split; [|done].
  assert (Hsorted : sort_by_position (positioned_words index) = numbered 0 words).
  { apply (StronglySorted_unique_strong before).
    - intros x y Hx Hy Hxy Hyx.
      rewrite sort_by_position_perm, Hindex in Hx.
      apply (numbered_positions_distinct 0 words); [done|done|]. simpl in *. lia.
    - apply sort_by_position_sorted.
    - apply numbered_sorted.
    - by rewrite sort_by_position_perm. }
  destruct index as [|entry index].
  - simpl in Hindex. apply Permutation_nil in Hindex.
    by destruct words.
  - unfold reconstruct_abstract. by rewrite Hsorted, numbered_words.
Qed.

End InvertedIndex.

Lemma X10_reconstruct_abstract_round_trip_witness :
  Nature.reconstruct_abstract (Some Fixtures.the_cat_index) = "the cat the sat".
Proof.
  apply (X10_reconstruct_abstract_round_trip Fixtures.the_cat_index
           ["the"; "cat"; "the"; "sat"]).
  apply (bool_decide_unpack _). vm_compute. exact I.
Defined.

(** ** Keywords *)

Section Keywords.
Import Py Nature.

Lemma unique_keywords_elem_of seen keywords kw :
  kw ∈ unique_keywords seen keywords →
  (lower_str kw ∉ seen) ∧ kw ∈ keywords.
Proof.
  revert seen. induction keywords as [|k keywords IH]; intros seen; simpl.
  - by intros ?%elem_of_nil.
  - destruct (decide (lower_str k ∈ seen)) as [Hseen|Hnew].
    + intros [? ?]%IH. split; [done|by right].
    + intros [->|[Hkw ?]%IH]%elem_of_cons; [split; [done|by left]|].
      split; [|by right]. intros ?. apply Hkw, elem_of_union. by right.
Qed.

Lemma unique_keywords_NoDup seen keywords :
  NoDup (lower_str <$> unique_keywords seen keywords).
Proof.
  revert seen. induction keywords as [|k keywords IH]; intros seen; simpl.
  - constructor.
  - destruct (decide (lower_str k ∈ seen)) as [Hseen|Hnew]; [apply IH|].
    rewrite fmap_cons. constructor; [|apply IH].
    intros (kw & Heq & [Hkw _]%unique_keywords_elem_of)%list_elem_of_fmap.
    apply Hkw, elem_of_union. left. by apply elem_of_singleton.
Qed.

Lemma unique_keywords_sublist seen keywords :
  unique_keywords seen keywords `sublist_of` keywords.
Proof.
  revert seen. induction keywords as [|k keywords IH]; intros seen; simpl.
  - constructor.
  - destruct (decide (lower_str k ∈ seen)).
    + by apply sublist_cons.
    + by apply sublist_skip.
Qed.

Lemma unique_keywords_covers seen keywords kw :
  kw ∈ keywords →
  lower_str kw ∈ seen
  ∨ lower_str kw ∈ lower_str <$> unique_keywords seen keywords.
Proof.
  revert seen. induction keywords as [|k keywords IH]; intros seen.
  - by intros ?%elem_of_nil.
  - simpl. intros [->|Hkw]%elem_of_cons.
    + destruct (decide (lower_str k ∈ seen)); [by left|right].
      rewrite fmap_cons. by left.
    + destruct (decide (lower_str k ∈ seen)) as [Hseen|Hnew]; [by apply IH|].
      destruct (IH ({[lower_str k]} ∪ seen) Hkw) as [Hin|Hin].
      * apply elem_of_union in Hin as [->%elem_of_singleton|?]; [|by left].
        right. rewrite fmap_cons. by left.
      * right. rewrite fmap_cons. by right.
Qed.

Lemma unique_keywords_prefix seen a b :
  unique_keywords seen a `prefix_of` unique_keywords seen (a ++ b).
Proof.
  revert seen. induction a as [|k a IH]; intros seen; simpl.
  - apply prefix_nil.
  - destruct (decide (lower_str k ∈ seen)); [apply IH|].
    apply prefix_cons, IH.
Qed.

Lemma display_names_elem_of tags name :
  name ∈ display_names tags
  ↔ ∃ x, x ∈ tags ∧ display_name x = Some name ∧ name ≠ "".
Proof.
  unfold display_names. rewrite list_elem_of_omap. split.
  - intros (x & Hx & Hname). exists x. split; [done|].
    destruct (display_name x) as [[|c n]|]; simpl in Hname; by simplify_eq.
  - intros (x & Hx & Hname & Hne). exists x. split; [done|].
    rewrite Hname. by destruct name.
Qed.

Lemma display_names_length tags :
  (length (display_names tags) ≤ length tags)%nat.
Proof.
  induction tags as [|x tags IH]; simpl; [done|].
  destruct (if truthy_str (display_name x) then display_name x else None);
    simpl; lia.
Qed.

(** X11.  The keywords of [extract_keywords]: no two of them agree up to
    case; none is empty; there are at most five more of them than there are
    keyword entries; the keywords proper come first, as they would without
    any concept; and every named keyword entry is there, in some spelling. *)
Theorem X11_keywords_are_unique keywords_list concepts_list :
  let unique := keyword_list keywords_list concepts_list in
  NoDup (lower_str <$> unique)
  ∧ Forall (λ kw, kw ≠ "") unique
  ∧ (length unique ≤ length keywords_list + 5)%nat
  ∧ keyword_list keywords_list [] `prefix_of` unique
  ∧ (∀ x name, x ∈ keywords_list → display_name x = Some name → name ≠ "" →
       lower_str name ∈ lower_str <$> unique).
Proof.
  unfold keyword_list. cbn zeta. split; [apply unique_keywords_NoDup|].
  split; [|split; [|split]].
  - apply Forall_forall. intros kw [_ Hkw]%unique_keywords_elem_of.
    apply elem_of_app in Hkw as [Hkw|Hkw];
      apply display_names_elem_of in Hkw as (x & _ & _ & Hne); done.
  - etransitivity; [apply sublist_length, unique_keywords_sublist|].
    rewrite List.length_app.
    pose proof (display_names_length keywords_list).
    pose proof (display_names_length (take 5 (sorted_by_score concepts_list))).
    pose proof (List.firstn_le_length 5 (sorted_by_score concepts_list)).
    lia.
  - simpl. rewrite app_nil_r. apply unique_keywords_prefix.
  - intros x name Hx Hname Hne.
    destruct (unique_keywords_covers ∅
                (display_names keywords_list
                 ++ display_names (take 5 (sorted_by_score concepts_list))) name)
      as [Hin|Hin]; [|by apply elem_of_empty in Hin|done].
    apply elem_of_app. left. apply display_names_elem_of. eauto.
Qed.

Local Abbreviation outranks := (λ x y : tag, (score_of y <= score_of x)%Q).

Lemma insert_by_score_perm x l : insert_by_score x l ≡ₚ x :: l.
Proof.
  induction l as [|y l IH]; simpl; [done|].
  destruct (Qle_bool _ _); [done|]. by rewrite IH, Permutation_swap.
Qed.

Lemma sorted_by_score_perm l : sorted_by_score l ≡ₚ l.
Proof.
  induction l as [|x l IH]; simpl; [done|].
  by rewrite insert_by_score_perm, IH.
Qed.

Lemma insert_by_score_sorted x l :
  StronglySorted outranks l → StronglySorted outranks (insert_by_score x l).
Proof.
  induction 1 as [|y l Hl IH Hy]; simpl.
  - by repeat constructor.
  - destruct (Qle_bool (score_of y) (score_of x)) eqn:Hle.
    + apply Qle_bool_iff in Hle.
      constructor; [by constructor|]. constructor; [done|].
      eapply Forall_impl; [exact Hy|]. simpl. intros z Hz.
      by eapply Qle_trans.
    + constructor; [done|]. rewrite insert_by_score_perm.
      constructor; [|done]. simpl. apply Qlt_le_weak, Qnot_le_lt.
      intros Hle'. apply Qle_bool_iff in Hle'. congruence.
Qed.

Lemma sorted_by_score_sorted l : StronglySorted outranks (sorted_by_score l).
Proof.
  induction l as [|x l IH]; simpl; [constructor|].
  by apply insert_by_score_sorted.
Qed.

Lemma unique_keywords_up_to_case keywords name :
  name ∈ lower_str <$> unique_keywords ∅ keywords
  ↔ name ∈ lower_str <$> keywords.
Proof.
  rewrite !list_elem_of_fmap. split.
  - intros (kw & -> & [_ Hkw]%unique_keywords_elem_of). eauto.
  - intros (kw & -> & Hkw).
    destruct (unique_keywords_covers ∅ keywords kw Hkw) as [Hin|Hin];
      [by apply elem_of_empty in Hin|].
    by apply list_elem_of_fmap in Hin.
Qed.

(** X12.  The concepts that contribute to [extract_keywords] are the five
    highest-scored ones, a missing score counting as 0: up to case, the
    keywords are exactly the names of the keyword entries and the names of
    the first five concepts of the ranking; the ranking is a rearrangement of
    the concepts in which every concept beyond the fifth scores no higher
    than each of the first five; and with five concepts or fewer the first
    five are all of them. *)
Theorem X12_five_best_concepts keywords_list concepts_list :
  let ranked := sorted_by_score concepts_list in
  (∀ name,
     name ∈ lower_str <$> keyword_list keywords_list concepts_list
     ↔ name ∈ lower_str <$> display_names keywords_list
       ∨ name ∈ lower_str <$> display_names (take 5 ranked))
  ∧ ranked ≡ₚ concepts_list
  ∧ (∀ kept left_out, kept ∈ take 5 ranked → left_out ∈ skipn 5 ranked →
       (score_of left_out <= score_of kept)%Q)
  ∧ ((length concepts_list ≤ 5)%nat → take 5 ranked = ranked).
Proof.
  cbn zeta. split; [|split; [apply sorted_by_score_perm|split]].
  - intros name. unfold keyword_list. cbn zeta.
    by rewrite unique_keywords_up_to_case, fmap_app, elem_of_app.
  - intros kept left_out Hkept Hleft.
    pose proof (sorted_by_score_sorted concepts_list) as Hsorted.
    rewrite <- (firstn_skipn 5 (sorted_by_score concepts_list)) in Hsorted.
    by apply (StronglySorted_app_1_elem_of outranks _ _ kept left_out) in Hsorted.
  - intros Hlen. apply take_ge.
    by rewrite (Permutation_length (sorted_by_score_perm concepts_list)).
Qed.

End Keywords.

Lemma X11_keywords_are_unique_witness :
  Nature.extract_keywords
    [Fixtures.named "Robotics" 0; Fixtures.named "robotics" 0;
     {| Nature.display_name := None; Nature.score := None |}]
    [Fixtures.named "Physics" (1 # 10); Fixtures.named "ROBOTICS" (9 # 10);
     Fixtures.named "Control" (5 # 10)]
  = "Robotics; Control; Physics"
  ∧ Py.lower_str "Robotics"
    ∈ Py.lower_str
        <$> Nature.keyword_list
              [Fixtures.named "Robotics" 0; Fixtures.named "robotics" 0;
               {| Nature.display_name := None; Nature.score := None |}]
              [Fixtures.named "Physics" (1 # 10);
               Fixtures.named "ROBOTICS" (9 # 10);
               Fixtures.named "Control" (5 # 10)].
Proof.
  split; [vm_compute; reflexivity|].
  apply (proj2 (proj2 (proj2 (proj2
           (X11_keywords_are_unique
              [Fixtures.named "Robotics" 0; Fixtures.named "robotics" 0;
               {| Nature.display_name := None; Nature.score := None |}]
              [Fixtures.named "Physics" (1 # 10);
               Fixtures.named "ROBOTICS" (9 # 10);
               Fixtures.named "Control" (5 # 10)]))))
           (Fixtures.named "Robotics" 0) "Robotics").
  - apply list_elem_of_here.
  - reflexivity.
  - discriminate.
Defined.

Lemma X12_five_best_concepts_witness :
  "control"
  ∈ Py.lower_str
      <$> Nature.keyword_list [Fixtures.named "Robotics" 0]
            [Fixtures.named "Physics" (1 # 10); Fixtures.named "Control" (5 # 10)].
Proof.
  apply (proj1 (X12_five_best_concepts [Fixtures.named "Robotics" 0]
                  [Fixtures.named "Physics" (1 # 10);
                   Fixtures.named "Control" (5 # 10)])).
  right. apply (bool_decide_unpack _). vm_compute. exact I.
Defined.

(** ** Landing pages *)

Section LandingPage.
Import Py Nature.

Variable landing_page : string → option page.
Variable crossref_json : string → option value.
Variable json_loads : string → option value.
Variable soup_text : string → string.
Variable sub_jats : string → string.

Local Abbreviation extract := (extract_abstract json_loads soup_text).
Local Abbreviation fetch :=
  (fetch_doi_abstract landing_page crossref_json json_loads soup_text sub_jats).

Lemma http_is_no_doi s : startswith "http" s = true → startswith "10." s = false.
Proof.
  destruct s as [|c s]; [done|]. unfold startswith. cbn [String.prefix].
  destruct (ascii_dec "h" c) as [<-|]; [|done]. by destruct (ascii_dec "1" "h").
Qed.

Lemma is_empty_false s : is_empty s = false ↔ s ≠ "".
Proof. by destruct s. Qed.

(** X13.  [fetch_doi_abstract] of nature.py returns a pair only for a
    landing page that was fetched and declares itself an original paper; the
    abstract of the pair is not empty and is either what the patterns
    extracted from that page or, when they extracted nothing and the
    argument is a bare DOI, what Crossref gave; the authors are those of the
    page in both cases. *)
Theorem X13_only_original_papers doi_or_url abstract authors :
  (fetch doi_or_url).2 = Some (abstract, authors) →
  ∃ soup,
    landing_page (landing_url doi_or_url) = Some soup
    ∧ declares_original soup = true
    ∧ abstract ≠ ""
    ∧ authors = page_authors json_loads soup
    ∧ (extract soup ABSTRACT_PATTERNS = Some abstract
       ∨ extract soup ABSTRACT_PATTERNS = None
         ∧ startswith "10." doi_or_url = true
         ∧ crossref_abstract crossref_json soup_text sub_jats doi_or_url
           = Some abstract).
Proof.
  destruct (landing_page (landing_url doi_or_url)) as [soup|] eqn:Hpage.
  - destruct (declares_original soup) eqn:Horig.
    + rewrite (fetch_after_extraction _ _ _ _ _ _ _ Hpage Horig).
      intros Hres. exists soup.
      destruct (extract soup ABSTRACT_PATTERNS) as [t|] eqn:Hextract.
      * simpl in Hres. destruct (is_empty t) eqn:Ht; [done|].
        injection Hres as <- <-. apply is_empty_false in Ht.
        split_and!; [done..|by left].
      * destruct (startswith "10." doi_or_url) eqn:Hdoi; [|done].
        simpl in Hres.
        destruct (crossref_abstract _ _ _ _) as [t|] eqn:Hcr; [|done].
        destruct (is_empty t) eqn:Ht; [done|].
        injection Hres as <- <-. apply is_empty_false in Ht.
        split_and!; [done..|by right].
    + rewrite fetch_without_page; [done|]. by rewrite Hpage.
  - rewrite fetch_without_page; [done|]. by rewrite Hpage.
Qed.

(** X14.  The requests of one call: the landing page first, then at most
    the Crossref record; and for an argument that is an address rather than
    a DOI the landing page is the only request, whatever the page holds. *)
Theorem X14_address_is_requested_once doi_or_url :
  startswith "http" doi_or_url = true →
  (fetch doi_or_url).1 = [HttpGet doi_or_url]
  ∧ ∀ doi, head (fetch doi).1 = Some (HttpGet (landing_url doi))
           ∧ (length (fetch doi).1 ≤ 2)%nat.
Proof.
  intros Hhttp.
  assert (Hall : ∀ doi,
    (fetch doi).1 = [HttpGet (landing_url doi)]
    ∨ (fetch doi).1 = [HttpGet (landing_url doi); HttpGet (crossref_url doi)]
      ∧ startswith "10." doi = true).
  { intros doi.
    destruct (landing_page (landing_url doi)) as [soup|] eqn:Hpage.
    - destruct (declares_original soup) eqn:Horig.
      + rewrite (fetch_after_extraction _ _ _ _ _ _ _ Hpage Horig).
        destruct (extract soup ABSTRACT_PATTERNS); [by left|].
        destruct (startswith "10." doi); [by right|by left].
      + left. rewrite fetch_without_page; [done|]. by rewrite Hpage.
    - left. rewrite fetch_without_page; [done|]. by rewrite Hpage. }
  split.
  - destruct (Hall doi_or_url) as [->|[_ Hdoi]].
    + unfold landing_url. by rewrite Hhttp.
    + by rewrite (http_is_no_doi _ Hhttp) in Hdoi.
  - intros doi. destruct (Hall doi) as [->|[-> _]]; simpl; split; (done || lia).
Qed.

End LandingPage.

Lemma X13_only_original_papers_witness :
  ∃ soup,
    Fixtures.serve Fixtures.bare_page (Nature.landing_url "10.1038/x") = Some soup
    ∧ Nature.declares_original soup = true
    ∧ "Short." ≠ ""
    ∧ Py.VList [] = Nature.page_authors Fixtures.json_loads soup
    ∧ (Nature.extract_abstract Fixtures.json_loads Fixtures.plain_text soup
         Nature.ABSTRACT_PATTERNS = Some "Short."
       ∨ Nature.extract_abstract Fixtures.json_loads Fixtures.plain_text soup
           Nature.ABSTRACT_PATTERNS = None
         ∧ Py.startswith "10." "10.1038/x" = true
         ∧ Nature.crossref_abstract Fixtures.crossref_short Fixtures.plain_text
             Fixtures.no_jats "10.1038/x" = Some "Short.").
Proof.
  apply (X13_only_original_papers (Fixtures.serve Fixtures.bare_page)
           Fixtures.crossref_short Fixtures.json_loads Fixtures.plain_text
           Fixtures.no_jats "10.1038/x" "Short." (Py.VList [])).
  vm_compute. reflexivity.
Defined.

Lemma X14_address_is_requested_once_witness :
  (Nature.fetch_doi_abstract (Fixtures.serve Fixtures.bare_page)
     Fixtures.crossref_short Fixtures.json_loads Fixtures.plain_text
     Fixtures.no_jats "https://www.nature.com/articles/x").1
  = [Nature.HttpGet "https://www.nature.com/articles/x"].
Proof.
  apply (X14_address_is_requested_once (Fixtures.serve Fixtures.bare_page)
           Fixtures.crossref_short Fixtures.json_loads Fixtures.plain_text
           Fixtures.no_jats "https://www.nature.com/articles/x").
  vm_compute. reflexivity.
Defined.

(** ** The Crossref reader of science.py *)

Section CrossrefReader.
Import Py Science.

Variable search_doi : string → option string.
Variable crossref_json : string → option value.
Variable soup_text : string → string.
Variable str : value → string.

Local Abbreviation fetch := (fetch_doi_abstract search_doi crossref_json soup_text str).

Lemma eq_str_true v s : eq_str v s = true → v = VStr s.
Proof. destruct v; try done. simpl. by intros ->%String.eqb_eq. Qed.

Lemma read_message_type data abstract authors :
  read_message soup_text str data = Return (Some (abstract, authors)) →
  ∃ message,
    get_default data "message" (VDict []) = Return message
    ∧ get message "type" = Return (VStr "journal-article")
    ∧ abstract ≠ "".
Proof.
  unfold read_message, mbind, outcome_bind, bind.
  destruct (get_default data "message" (VDict [])) as [message|]; [|done].
  destruct (get message "type") as [type|] eqn:Hget; [|done].
  destruct (eq_str type "journal-article") eqn:Htype; [|done].
  apply eq_str_true in Htype as ->. cbn [negb].
  repeat (case_match; try done).
  intros [= <- <-]. exists message. split_and!; [done..|].
  match goal with
  | H : _ || _ || _ = false |- _ =>
      apply orb_false_elim in H as [[H _]%orb_false_elim _]
  end.
  intros ->. done.
Qed.

(** X15.  [fetch_doi_abstract] of science.py returns a pair only when a DOI
    was found in its argument, the Crossref record of that DOI was read, and
    the record's type is [journal-article]; the abstract of the pair is not
    empty. *)
Theorem X15_journal_articles_only doi_or_url abstract authors :
  fetch doi_or_url = Return (Some (abstract, authors)) →
  ∃ doi data message,
    search_doi doi_or_url = Some doi
    ∧ crossref_json ("https://api.crossref.org/works/" +:+ doi) = Some data
    ∧ get_default data "message" (VDict []) = Return message
    ∧ get message "type" = Return (VStr "journal-article")
    ∧ abstract ≠ "".
Proof.
  unfold fetch_doi_abstract.
  destruct (search_doi doi_or_url) as [doi|]; [|done].
  destruct (crossref_json _) as [data|] eqn:Hjson; [|done].
  destruct (read_message soup_text str data) as [r|e] eqn:Hread.
  - intros [= ->].
    destruct (read_message_type _ _ _ Hread) as (message & ? & ? & ?).
    by exists doi, data, message.
  - by destruct e.
Qed.

(** X16.  The handlers of [fetch_doi_abstract] do not name
    [AttributeError]: a Crossref body that is not an object, or whose
    [message] is not one, makes the call raise instead of returning
    [None]. *)
Theorem X16_body_that_is_no_object doi_or_url doi data :
  search_doi doi_or_url = Some doi →
  crossref_json ("https://api.crossref.org/works/" +:+ doi) = Some data →
  (∀ kv, data ≠ VDict kv)
  ∨ (∃ kv message, data = VDict kv ∧ assoc "message" kv = Some message
                   ∧ ∀ kv', message ≠ VDict kv') →
  fetch doi_or_url = Raise AttributeError.
Proof.
  intros Hdoi Hjson Hshape. unfold fetch_doi_abstract. rewrite Hdoi, Hjson.
  destruct Hshape as [Hdata|(kv & message & -> & Hmessage & Hno)].
  - by destruct data as [| | | | |kv]; [..|destruct (Hdata kv)].
  - unfold read_message. cbn. rewrite Hmessage. cbn.
    by destruct message as [| | | | |kv']; [..|destruct (Hno kv')].
Qed.

End CrossrefReader.

Lemma X15_journal_articles_only_witness :
  ∃ abstract authors doi data message,
    Science.fetch_doi_abstract Fixtures.whole_as_doi Fixtures.crossref_long
      Fixtures.plain_text Fixtures.no_str "10.1126/x"
    = Py.Return (Some (abstract, authors))
    ∧ Fixtures.whole_as_doi "10.1126/x" = Some doi
    ∧ Fixtures.crossref_long ("https://api.crossref.org/works/" +:+ doi) = Some data
    ∧ Science.get_default data "message" (Py.VDict []) = Py.Return message
    ∧ Py.get message "type" = Py.Return (Py.VStr "journal-article")
    ∧ abstract ≠ "".
Proof.
  destruct (Science.fetch_doi_abstract Fixtures.whole_as_doi Fixtures.crossref_long
              Fixtures.plain_text Fixtures.no_str "10.1126/x")
    as [[[abstract authors]|]|e] eqn:Hfetch;
    [|vm_compute in Hfetch; discriminate..].
  exists abstract, authors.
  destruct (X15_journal_articles_only Fixtures.whole_as_doi Fixtures.crossref_long
              Fixtures.plain_text Fixtures.no_str "10.1126/x" abstract authors
              Hfetch) as (doi & data & message & H).
  exists doi, data, message. split; [reflexivity|exact H].
Defined.

Lemma X16_body_that_is_no_object_witness :
  Science.fetch_doi_abstract Fixtures.whole_as_doi Fixtures.crossref_list
    Fixtures.plain_text Fixtures.no_str "10.1126/x" = Py.Raise Py.AttributeError.
Proof.
  apply (X16_body_that_is_no_object Fixtures.whole_as_doi Fixtures.crossref_list
           Fixtures.plain_text Fixtures.no_str "10.1126/x" "10.1126/x"
           (Py.VList [])); [reflexivity|reflexivity|].
  left. discriminate.
Defined.

(** ** Paper pages of cvpr.py *)

Section PaperPages.
Import Py Store Cvpr.

Lemma contains_nonempty sub s : contains sub s = true → sub ≠ "" → s ≠ "".
Proof. intros Hin Hsub ->. by destruct sub. Qed.

Lemma supplemental_is_absolute href :
  startswith "http" (if startswith "http" href then href else base_url +:+ href)
  = true.
Proof. by destruct (startswith "http" href) eqn:Hhttp. Qed.

Lemma link_step_supplemental urls link :
  (∀ url, urls.2 = Some url → startswith "http" url = true) →
  ∀ url, (link_step urls link).2 = Some url → startswith "http" url = true.
Proof.
  intros Hurls url. unfold link_step.
  destruct (is_empty _); [apply Hurls|].
  destruct (contains "arxiv.org" _); [apply Hurls|].
  destruct (contains "supplemental" _); [|apply Hurls].
  cbn [snd]. intros [= <-]. apply supplemental_is_absolute.
Qed.

Lemma foldl_link_step_supplemental links urls :
  (∀ url, urls.2 = Some url → startswith "http" url = true) →
  ∀ url, (foldl link_step urls links).2 = Some url → startswith "http" url = true.
Proof.
  revert urls. induction links as [|link links IH]; intros urls Hurls; [done|].
  simpl. apply IH. by apply link_step_supplemental.
Qed.

Lemma foldl_link_step_arxiv links urls url :
  (foldl link_step urls links).1 = Some url →
  urls.1 = Some url ∨ Some url ∈ links ∧ contains "arxiv.org" url = true.
Proof.
  revert urls. induction links as [|link links IH]; intros urls; [by left|].
  simpl. intros [Hstep|[Hin Harxiv]]%IH.
  - unfold link_step in Hstep. destruct link as [href|]; simpl in Hstep.
    + destruct (is_empty href); [by left|].
      destruct (contains "arxiv.org" href) eqn:Harxiv.
      * injection Hstep as ->. right. split; [by left|done].
      * destruct (contains "supplemental" _); by left.
    + by left.
  - right. split; [by right|done].
Qed.

Lemma link_step_is_arxiv urls href :
  contains "arxiv.org" href = true → (link_step urls (Some href)).1 = Some href.
Proof.
  intros Harxiv. unfold link_step.
  assert (href ≠ "") as Hne by by eapply contains_nonempty.
  destruct href as [|c href]; [done|].
  change (default "" (Some (String c href))) with (String c href).
  cbn [is_empty]. by rewrite Harxiv.
Qed.

(** X17.  The addresses [parse_paper_page] reads off a page: the address of
    the supplemental material is always absolute; the arXiv address is the
    [href] of one of the page's links, holds [arxiv.org], and is the last
    such link of the page; and without a [citation_pdf_url] tag the PDF
    address, taken from a link, is absolute too. *)
Theorem X17_addresses_of_a_page soup :
  let paper_info := parse_paper_page soup in
  (∀ url, info_supplemental_url paper_info = Some url →
     startswith "http" url = true)
  ∧ (∀ url, info_arxiv_url paper_info = Some url →
       Some url ∈ anchors soup ∧ contains "arxiv.org" url = true)
  ∧ (∀ links href, anchors soup = links ++ [Some href] →
       contains "arxiv.org" href = true →
       info_arxiv_url paper_info = Some href)
  ∧ (∀ url, citation_pdf_url soup = None → info_pdf_url paper_info = Some url →
       startswith "http" url = true).
Proof.
  unfold parse_paper_page. cbn zeta.
  destruct (foldl link_step (None, None) (anchors soup))
    as [arxiv_url supplemental_url] eqn:Hlinks.
  cbn [info_supplemental_url info_arxiv_url info_pdf_url].
  split; [|split; [|split]].
  - intros url ->.
    apply (foldl_link_step_supplemental (anchors soup) (None, None)); [done|].
    by rewrite Hlinks.
  - intros url ->.
    destruct (foldl_link_step_arxiv (anchors soup) (None, None) url) as [?|?];
      [by rewrite Hlinks|done..].
  - intros links href Hanchors Harxiv.
    rewrite Hanchors, foldl_app in Hlinks. cbn [foldl] in Hlinks.
    apply (f_equal fst) in Hlinks. cbn [fst] in Hlinks.
    by rewrite link_step_is_arxiv in Hlinks.
  - intros url ->. destruct (pdf_anchor soup) as [href|]; [|done].
    destruct (startswith "http" href) eqn:Hhttp; cbn [negb]; by intros [= <-].
Qed.

Lemma truthy_info o : truthy (Cvpr.opt_value o) = truthy_str o.
Proof. by destruct o. Qed.

Lemma process_stored_paper fetch json_dump paper_count title_link paper
    (db : PaperDatabase (Paper:=Paper)) fs :
  get_paper (join " " (split (strip (a_text title_link)))) db = Some paper →
  has_all_data paper = true →
  process_paper_element fetch json_dump paper_count (Some title_link) db fs
  = Return (Some paper, db, fs).
Proof.
  intros Hpaper Hall. unfold process_paper_element, has_paper, dict_in.
  unfold get_paper in Hpaper |- *. by rewrite Hpaper, Hall.
Qed.

(** X18.  A paper is fetched once.  When the store has no complete record
    under the title of a link, and the page behind the link gives that very
    title, an abstract and a PDF address, [process_paper_element] stores the
    paper with its number; from then on it returns the stored record for the
    same link without asking for the page, whatever the site would serve and
    whatever number the paper has in the later pass. *)
Theorem X18_a_paper_is_fetched_once get_page json_dump paper_count title_link soup
    (db : PaperDatabase (Paper:=Paper)) fs :
  let title := join " " (split (strip (a_text title_link))) in
  (∀ existing, get_paper title db = Some existing → has_all_data existing = false) →
  get_page (base_url +:+ a_href title_link) = Some soup →
  info_title (parse_paper_page soup) = Some title →
  truthy_str (info_abstract (parse_paper_page soup)) = true →
  truthy_str (info_pdf_url (parse_paper_page soup)) = true →
  ∃ paper db' fs',
    process_paper_element (fetch_paper_details get_page) json_dump paper_count
      (Some title_link) db fs = Return (Some paper, db', fs')
    ∧ paper_id paper = VInt paper_count
    ∧ get_paper title db' = Some paper
    ∧ ∀ get_page' paper_count' fs'',
        process_paper_element (fetch_paper_details get_page') json_dump
          paper_count' (Some title_link) db' fs''
        = Return (Some paper, db', fs'').
Proof.
  intros title Hnew Hpage Htitle Habstract Hpdf.
  set (paper_info := parse_paper_page soup) in *.
  set (paper := {| Cvpr.title := Cvpr.opt_value (info_title paper_info);
                   authors := VList (VStr <$> info_authors paper_info);
                   paper_id := VInt paper_count;
                   pdf_url := Cvpr.opt_value (info_pdf_url paper_info);
                   arxiv_url := Cvpr.opt_value (info_arxiv_url paper_info);
                   abstract := Cvpr.opt_value (info_abstract paper_info);
                   supplemental_url :=
                     Cvpr.opt_value (info_supplemental_url paper_info) |}).
  assert (Hfetch : fetch_paper_details get_page (a_href title_link) paper_count
                   = Some paper).
  { unfold fetch_paper_details. cbn zeta. by rewrite Hpage. }
  assert (Hkey : hash (Cvpr.title paper) = Return (KStr title)).
  { unfold paper. cbn [Cvpr.title]. by rewrite Htitle. }
  assert (Hall : has_all_data paper = true).
  { unfold has_all_data, paper. cbn [abstract pdf_url].
    by rewrite !truthy_info, Habstract, Hpdf. }
  pose proof (save_paper_returns to_dict Cvpr.title json_dump paper (KStr title)
                db fs Hkey) as Hsave.
  set (db' := set_papers db (dict_set (KStr title) paper (papers db))) in *.
  assert (Hstored : get_paper title db' = Some paper).
  { unfold get_paper, db'. cbn [papers set_papers]. apply dict_get_set_eq. }
  eexists paper, db', _. split; [|split; [done|split; [done|]]].
  - unfold process_paper_element. fold title.
    assert (Hskip : (if has_paper title db then
                       match get_paper title db with
                       | Some existing_paper =>
                           if has_all_data existing_paper
                           then Some existing_paper else None
                       | None => None
                       end
                     else None) = None).
    { destruct (has_paper title db); [|done].
      destruct (get_paper title db) as [existing|] eqn:Hexisting; [|done].
      by rewrite (Hnew existing). }
    cbn zeta. rewrite Hskip, Hfetch. unfold Cvpr.save_paper. rewrite Hsave.
    reflexivity.
  - intros get_page' paper_count' fs''. by apply process_stored_paper.
Qed.

End PaperPages.

(** ** The constructor of the store *)

Section Constructor.
Import Py Store.
Context {Paper : Type}.
Variable from_dict : value → outcome Paper.
Variable identity : Paper → value.
Variable json_load : string → option value.

(** X19.  What the constructor of [PaperDatabase] leaves behind when it
    returns, the store's name not being a directory.  The output directory
    is there if nothing had its name, and no directory is gone.  Every file
    other than the store's own and its backup is as it was.  The bytes of
    the store's file are not lost: they are still under its name, or else
    under the backup name with the store's name free.  And when there was
    no store file the mapping is empty and no file has changed. *)
Theorem X19_constructor_keeps_the_files guarded now output_dir filename fs
    db fs' :
  filename ∉ dirs fs →
  __init__ from_dict identity json_load guarded now output_dir filename fs
  = Return (db, fs') →
  Store.output_dir db = output_dir ∧ Store.filename db = filename
  ∧ (os_path_exists output_dir fs = false → output_dir ∈ dirs fs')
  ∧ dirs fs ⊆ dirs fs'
  ∧ (∀ p, p ≠ filename → p ≠ filename +:+ ".bak." +:+ now →
       files fs' !! p = files fs !! p)
  ∧ (∀ bytes, files fs !! filename = Some bytes →
       files fs' !! filename = Some bytes
       ∨ files fs' !! filename = None
         ∧ files fs' !! (filename +:+ ".bak." +:+ now) = Some bytes)
  ∧ (files fs !! filename = None → papers db = [] ∧ files fs' = files fs).
Proof.
  intros _. unfold __init__.
  set (self := {| Store.output_dir := output_dir; Store.filename := filename;
                  papers := [] |}).
  set (fs0 := if os_path_exists output_dir fs then fs
              else os_makedirs output_dir fs).
  assert (Hfiles : files fs0 = files fs) by (unfold fs0; by destruct os_path_exists).
  assert (Hmade : os_path_exists output_dir fs = false → output_dir ∈ dirs fs0).
  { unfold fs0. intros ->. simpl. apply elem_of_union. left.
    by apply elem_of_singleton. }
  assert (Hdirs : dirs fs ⊆ dirs fs0).
  { unfold fs0. destruct os_path_exists; [done|]. simpl. apply union_subseteq_r. }
  unfold _load_existing_papers. cbn [Store.output_dir Store.filename papers self].
  fold fs0. rewrite Hfiles.
  destruct (files fs !! filename) as [bytes|] eqn:Hfile.
  - destruct (try_load from_dict identity json_load bytes []) as [ps [e|]] eqn:Hload.
    + rewrite bool_decide_eq_true_2 by eauto. rewrite andb_false_r.
      unfold os_rename. rewrite Hfiles, Hfile. cbn.
      pose proof (append_neq filename (".bak." +:+ now) ltac:(done)) as Hfresh.
      intros [= <- <-]. cbn. split_and!; [done..| | |done].
      * intros p Hp Hb. rewrite lookup_insert_ne by done.
        by rewrite lookup_delete_ne.
      * intros ? [= <-]. right. split.
        -- rewrite lookup_insert_ne by done. apply lookup_delete_eq.
        -- apply lookup_insert_eq.
    + intros [= <- <-]. cbn. rewrite Hfiles.
      split_and!; [done..| |done]. intros ? [= <-]. by left.
  - intros [= <- <-]. cbn. rewrite Hfiles. by split_and!.
Qed.

End Constructor.

Lemma X19_constructor_keeps_the_files_witness :
  ∃ db fs',
    Cvpr.PaperDatabase_init Fixtures.json_load "20250101_120000" "dataset" 2025
      (Fixtures.disk "dataset/cvpr25.json" Fixtures.second_record_bad)
    = Py.Return (db, fs')
    ∧ (Store.files fs' !! "dataset/cvpr25.json" = Some Fixtures.second_record_bad
       ∨ Store.files fs' !! "dataset/cvpr25.json" = None
         ∧ Store.files fs' !! "dataset/cvpr25.json.bak.20250101_120000"
           = Some Fixtures.second_record_bad).
Proof.
  destruct (Cvpr.PaperDatabase_init Fixtures.json_load "20250101_120000"
              "dataset" 2025
              (Fixtures.disk "dataset/cvpr25.json" Fixtures.second_record_bad))
    as [[db fs']|e] eqn:Hinit; [|vm_compute in Hinit; discriminate].
  exists db, fs'. split; [reflexivity|].
  destruct (X19_constructor_keeps_the_files Cvpr.from_dict Cvpr.title
              Fixtures.json_load true "20250101_120000" "dataset"
              "dataset/cvpr25.json"
              (Fixtures.disk "dataset/cvpr25.json" Fixtures.second_record_bad)
              db fs')
    as (_ & _ & _ & _ & _ & Hbytes & _).
  - apply (bool_decide_unpack _). vm_compute. exact I.
  - exact Hinit.
  - apply Hbytes. reflexivity.
Defined.

Lemma X17_addresses_of_a_page_witness :
  Cvpr.info_arxiv_url (Cvpr.parse_paper_page Fixtures.cvpr_page)
  = Some "http://arxiv.org/abs/1706.03762".
Proof.
  apply (proj1 (proj2 (proj2 (X17_addresses_of_a_page Fixtures.cvpr_page)))
           [Some "/content/papers/attention.pdf"; None;
            Some "/content/supplemental/attention-supp.pdf"]).
  - reflexivity.
  - vm_compute. reflexivity.
Defined.

Lemma X18_a_paper_is_fetched_once_witness :
  ∃ paper db' fs',
    Cvpr.process_paper_element (Cvpr.fetch_paper_details Fixtures.cvpr_site)
      Fixtures.dumps 1 (Some Fixtures.attention_link) Fixtures.empty_cvpr_db
      (Fixtures.disk "dataset/cvpr25.json" "[]")
    = Py.Return (Some paper, db', fs')
    ∧ Cvpr.paper_id paper = Py.VInt 1
    ∧ Store.get_paper "Attention Is All You Need" db' = Some paper
    ∧ ∀ get_page' paper_count' fs'',
        Cvpr.process_paper_element (Cvpr.fetch_paper_details get_page')
          Fixtures.dumps paper_count' (Some Fixtures.attention_link) db' fs''
        = Py.Return (Some paper, db', fs'').
Proof.
  apply (X18_a_paper_is_fetched_once Fixtures.cvpr_site Fixtures.dumps 1
           Fixtures.attention_link Fixtures.cvpr_page Fixtures.empty_cvpr_db
           (Fixtures.disk "dataset/cvpr25.json" "[]")).
  - intros existing Hexisting. vm_compute in Hexisting. discriminate.
  - reflexivity.
  - vm_compute. reflexivity.
  - vm_compute. reflexivity.
  - vm_compute. reflexivity.
Defined.

(** ** The counters of scrape_cvpr_papers *)

Section Counters.
Import Py Store Cvpr.

Lemma dict_get_elem_of {V} k (v : V) d : dict_get k d = Some v → (k, v) ∈ d.
Proof.
  induction d as [|[k' v'] d IH]; simpl; [done|].
  destruct (decide (k = k')) as [<-|Hne].
  - intros [= ->]. by left.
  - intros ?%IH. by right.
Qed.

(** What [process_paper_element] returns is in the store it leaves, under
    the key of its own title. *)
Lemma processed_paper_is_stored fetch json_dump paper_count paper_elem paper
    (db db' : PaperDatabase (Paper:=Paper)) fs fs' :
  keyed_by_identity title (papers db) →
  process_paper_element fetch json_dump paper_count paper_elem db fs
  = Return (Some paper, db', fs') →
  ∃ k, hash (title paper) = Return k ∧ dict_get k (papers db') = Some paper.
Proof.
  intros [Hkeys _]. unfold process_paper_element.
  destruct paper_elem as [title_link|]; [|done]. cbn zeta.
  set (t := join " " (split (strip (a_text title_link)))).
  destruct (has_paper t db) eqn:Hhas;
    [destruct (get_paper t db) as [existing|] eqn:Hexisting;
       [destruct (has_all_data existing) eqn:Hall|]|].
  1: { intros [= <- <- _]. exists (KStr t). split; [|done].
       apply dict_get_elem_of in Hexisting.
       by apply (proj1 (Forall_forall _ _) Hkeys _ Hexisting). }
  all: destruct (fetch _ _) as [fetched|]; [|done].
  all: unfold Cvpr.save_paper.
  all: destruct (hash (title fetched)) as [k|e] eqn:Hk;
    [rewrite (save_paper_returns to_dict title json_dump fetched k db fs Hk)
    |unfold Store.save_paper; rewrite Hk; done].
  all: cbn [mbind outcome_bind bind]; intros [= <- <- _]; exists k;
    split; [done|]; cbn [papers set_papers]; apply dict_get_set_eq.
Qed.

(** X20.  The counters of [scrape_cvpr_papers].  In a store keyed by title,
    a round that has a paper counts it as skipped exactly when the paper has
    an abstract and a PDF address, and as new information otherwise: the
    test for the paper in the store always succeeds, because
    [process_paper_element] has stored what it returns.  So a paper fetched
    in this very round with all its data is counted as skipped. *)
Theorem X20_complete_papers_count_as_skipped get_page json_dump paper_count
    paper_elem result (db db' : PaperDatabase (Paper:=Paper)) fs fs'
    papers_with_new_info papers_skipped :
  keyed_by_identity title (papers db) →
  process_paper_element (fetch_paper_details get_page) json_dump paper_count
    paper_elem db fs = Return (result, db', fs') →
  scrape_round get_page json_dump paper_count paper_elem db fs
    (papers_with_new_info, papers_skipped)
  = Return (db', fs',
            match result with
            | None => (papers_with_new_info, papers_skipped)
            | Some paper =>
                if has_all_data paper
                then (papers_with_new_info, S papers_skipped)
                else (S papers_with_new_info, papers_skipped)
            end).
Proof.
  intros Hkeyed Hprocess. unfold scrape_round. rewrite Hprocess.
  cbn [mbind outcome_bind bind].
  destruct result as [paper|]; [|done].
  destruct (processed_paper_is_stored _ _ _ _ _ _ _ _ _ Hkeyed Hprocess)
    as (k & Hk & Hstored).
  rewrite Hk. cbn [mbind outcome_bind bind]. unfold dict_in. rewrite Hstored.
  cbn [andb]. by destruct (has_all_data paper).
Qed.

End Counters.

Lemma X20_complete_papers_count_as_skipped_witness :
  ∃ db' fs',
    Store.get_paper "Attention Is All You Need" Fixtures.empty_cvpr_db = None
    ∧ Cvpr.scrape_round Fixtures.cvpr_site Fixtures.dumps 1
        (Some Fixtures.attention_link) Fixtures.empty_cvpr_db
        (Fixtures.disk "dataset/cvpr25.json" "[]") (0, 0)%nat
      = Py.Return (db', fs', (0, 1)%nat).
Proof.
  destruct (Cvpr.process_paper_element
              (Cvpr.fetch_paper_details Fixtures.cvpr_site) Fixtures.dumps 1
              (Some Fixtures.attention_link) Fixtures.empty_cvpr_db
              (Fixtures.disk "dataset/cvpr25.json" "[]"))
    as [[[[paper|] db'] fs']|e] eqn:Hprocess;
    [|vm_compute in Hprocess; discriminate..].
  exists db', fs'. split; [reflexivity|].
  assert (Hall : Cvpr.has_all_data paper = true).
  { vm_compute in Hprocess. injection Hprocess as <- _ _. reflexivity. }
  rewrite (X20_complete_papers_count_as_skipped Fixtures.cvpr_site Fixtures.dumps
             1 (Some Fixtures.attention_link) (Some paper)
             Fixtures.empty_cvpr_db db'
             (Fixtures.disk "dataset/cvpr25.json" "[]") fs' 0 0).
  - by rewrite Hall.
  - split; constructor.
  - exact Hprocess.
Defined.
